(** * rbsecp256k1: the Ruby binding of libsecp256k1

    A shallow embedding of [ext/rbsecp256k1/rbsecp256k1.c].  The C functions
    of the extension are written as computations in a state-and-exception
    monad over a small model of the Ruby object heap.  libsecp256k1 and
    OpenSSL are outside the repository: their entry points are the fields of
    two interfaces ([Secp256k1], [OpenSSL]), and what the proofs need of
    their documented behaviour is stated as hypotheses of the section
    that uses it. *)

From Stdlib Require Import ZArith Lia.
From Stdlib Require Import Strings.Byte.
From stdpp Require Import base option list strings gmap.

Local Open Scope Z_scope.

(** ** Bytes *)

#[global] Instance byte_eq_dec : EqDecision byte := Byte.byte_eq_dec.

Definition byte_to_Z (b : byte) : Z := Z.of_N (Byte.to_N b).

Definition byte_of_Z (z : Z) : byte :=
  default x00 (Byte.of_N (Z.to_N (z mod 256))).

(** The unsigned big-endian number held by a byte string. *)
Definition be_decode (bs : list byte) : Z :=
  fold_left (fun acc b => acc * 256 + byte_to_Z b) bs 0.

(** The [len]-byte big-endian encoding of [x] (its low [8 * len] bits). *)
Fixpoint be_encode (len : nat) (x : Z) : list byte :=
  match len with
  | O => []
  | S len' => be_encode len' (x / 256) ++ [byte_of_Z x]
  end.

(** ** Constants of the extension *)

(** Size of an uncompressed public key *)
Definition UNCOMPRESSED_PUBKEY_SIZE_BYTES : nat := 65.
(** Size of a compressed public key *)
Definition COMPRESSED_PUBKEY_SIZE_BYTES : nat := 33.
(** Size of a compact signature in bytes *)
Definition COMPACT_SIG_SIZE_BYTES : nat := 64.

(** [SHA256_DIGEST_LENGTH] of <openssl/sha.h>. *)
Definition SHA256_DIGEST_LENGTH : nat := 32.

(** Flags of <secp256k1.h>. *)
Definition SECP256K1_FLAGS_TYPE_CONTEXT : Z := Z.shiftl 1 0.
Definition SECP256K1_FLAGS_BIT_CONTEXT_VERIFY : Z := Z.shiftl 1 8.
Definition SECP256K1_FLAGS_BIT_CONTEXT_SIGN : Z := Z.shiftl 1 9.
Definition SECP256K1_CONTEXT_VERIFY : Z :=
  Z.lor SECP256K1_FLAGS_TYPE_CONTEXT SECP256K1_FLAGS_BIT_CONTEXT_VERIFY.
Definition SECP256K1_CONTEXT_SIGN : Z :=
  Z.lor SECP256K1_FLAGS_TYPE_CONTEXT SECP256K1_FLAGS_BIT_CONTEXT_SIGN.

(** The order of the secp256k1 group. *)
Definition secp256k1_order : Z :=
  0xFFFFFFFFFFFFFFFFFFFFFFFFFFFFFFFEBAAEDCE6AF48A03BBFD25E8CD0364141.

(** ** The two external libraries *)

(** The part of OpenSSL the extension calls, over the type [RAND] of the
    states of the random generator; [RAND_bytes r buf num] gives the return
    code, the contents of [buf] after the call and the next generator
    state. *)
Class OpenSSL (RAND : Type) := {
  RAND_status : RAND -> Z;
  RAND_bytes : RAND -> list byte -> nat -> Z * list byte * RAND;
  SHA256 : list byte -> list byte;
}.

(** The part of libsecp256k1 the extension calls, over the library's
    opaque types.  A context pointer may be NULL ([None]).  An
    out-parameter is returned next to the return code: it is what the
    library left in the caller's structure.  [signature_r] and
    [signature_s] name the two scalars an opaque signature stands for; the
    extension itself never looks at them. *)
Class Secp256k1 (secp256k1_context secp256k1_pubkey secp256k1_ecdsa_signature
    secp256k1_nonce_function : Type) := {
  (* what MEMZERO leaves in the opaque structures *)
  pubkey_zero : secp256k1_pubkey;
  signature_zero : secp256k1_ecdsa_signature;
  signature_r : secp256k1_ecdsa_signature -> Z;
  signature_s : secp256k1_ecdsa_signature -> Z;
  secp256k1_context_create : Z -> option secp256k1_context;
  secp256k1_context_clone : option secp256k1_context -> option secp256k1_context;
  (* ctx, seed32: the context is updated in place *)
  secp256k1_context_randomize :
    option secp256k1_context -> list byte -> Z * option secp256k1_context;
  (* ctx, seckey *)
  secp256k1_ec_seckey_verify : option secp256k1_context -> list byte -> Z;
  (* ctx, seckey; out: pubkey *)
  secp256k1_ec_pubkey_create :
    option secp256k1_context -> list byte -> Z * secp256k1_pubkey;
  (* ctx, msg32, seckey, noncefp, ndata; out: sig *)
  secp256k1_ecdsa_sign :
    option secp256k1_context -> list byte -> list byte ->
    option secp256k1_nonce_function -> option (list byte) ->
    Z * secp256k1_ecdsa_signature;
  (* ctx, sig, msg32, pubkey *)
  secp256k1_ecdsa_verify :
    option secp256k1_context -> secp256k1_ecdsa_signature ->
    list byte -> secp256k1_pubkey -> Z;
  (* ctx, output (as it was), outputlen (as it was), sig;
     out: output, outputlen *)
  secp256k1_ecdsa_signature_serialize_der :
    option secp256k1_context -> list byte -> nat ->
    secp256k1_ecdsa_signature -> Z * list byte * nat;
  (* ctx, sig; out: output64 *)
  secp256k1_ecdsa_signature_serialize_compact :
    option secp256k1_context -> secp256k1_ecdsa_signature -> Z * list byte;
  (* ctx, input, inputlen; out: sig *)
  secp256k1_ecdsa_signature_parse_der :
    option secp256k1_context -> list byte -> nat ->
    Z * secp256k1_ecdsa_signature;
  (* ctx, input64; out: sig *)
  secp256k1_ecdsa_signature_parse_compact :
    option secp256k1_context -> list byte -> Z * secp256k1_ecdsa_signature;
}.

(** Flags of <secp256k1.h> for the format of a serialised public key. *)
Definition SECP256K1_FLAGS_TYPE_MASK : Z := Z.shiftl 1 8 - 1.
Definition SECP256K1_FLAGS_TYPE_COMPRESSION : Z := Z.shiftl 1 1.
Definition SECP256K1_FLAGS_BIT_COMPRESSION : Z := Z.shiftl 1 8.
Definition SECP256K1_EC_COMPRESSED : Z :=
  Z.lor SECP256K1_FLAGS_TYPE_COMPRESSION SECP256K1_FLAGS_BIT_COMPRESSION.
Definition SECP256K1_EC_UNCOMPRESSED : Z := SECP256K1_FLAGS_TYPE_COMPRESSION.

(** The public key codec of libsecp256k1, which the extension calls from
    [PublicKey_compressed], [PublicKey_uncompressed] and
    [Context_public_key_from_data]. *)
Class Secp256k1_ec_pubkey (secp256k1_context secp256k1_pubkey : Type) := {
  (* ctx, output (as it was), outputlen (as it was), pubkey, flags;
     out: output, outputlen *)
  secp256k1_ec_pubkey_serialize :
    option secp256k1_context -> list byte -> nat -> secp256k1_pubkey -> Z ->
    Z * list byte * nat;
  (* ctx, input, inputlen; out: pubkey *)
  secp256k1_ec_pubkey_parse :
    option secp256k1_context -> list byte -> nat -> Z * secp256k1_pubkey;
}.

(** ** The Ruby side: values, exceptions, objects *)

(** A [VALUE] is a special constant or a reference to a heap object. *)
Inductive VALUE : Type :=
  | Qfalse
  | Qtrue
  | Qnil
  | Obj (addr : nat).

#[global] Instance VALUE_eq_dec : EqDecision VALUE.
Proof. solve_decision. Defined.

Inductive ruby_value_type : Type :=
  | T_OBJECT | T_STRING | T_DATA | T_NIL | T_TRUE | T_FALSE.

#[global] Instance ruby_value_type_eq_dec : EqDecision ruby_value_type.
Proof. solve_decision. Defined.

(** The exception classes [rb_raise] is called with.  [rb_eTypeError] is
    also what the runtime's own type checks raise. *)
Inductive rb_exception_class : Type :=
  | rb_eTypeError
  | rb_eArgError
  | rb_eRuntimeError.

Record rb_exception : Type := Exception {
  exc_class : rb_exception_class;
  exc_mesg : string;
}.

(** The classes registered by [Init_rbsecp256k1], and [String]. *)
Inductive rb_class : Type :=
  | rb_cObject
  | rb_cString
  | Secp256k1_Context_class
  | Secp256k1_KeyPair_class
  | Secp256k1_PublicKey_class
  | Secp256k1_PrivateKey_class
  | Secp256k1_Signature_class.

(** What the C semantics leaves open. *)
Inductive undefined_behaviour : Type :=
  | OutOfBoundsRead (wanted available : nat)
  | InvalidPointer.

(** How a call into the extension ends: it returns, it leaves through
    [rb_raise], or it runs into undefined behaviour. *)
Inductive outcome (A : Type) : Type :=
  | Returned (a : A)
  | Raised (e : rb_exception)
  | Undefined (u : undefined_behaviour).
Arguments Returned {A} a.
Arguments Raised {A} e.
Arguments Undefined {A} u.

(** The names the specification gives to the errors of the extension. *)
Definition RandomizationError : rb_exception :=
  Exception rb_eRuntimeError "context randomization failed".
Definition KeyGenerationError : rb_exception :=
  Exception rb_eRuntimeError "Random bytes generation failed.".
Definition InvalidKeyLength : rb_exception :=
  Exception rb_eArgError "private key data must be 32 bytes in length".
Definition InvalidPrivateKey : rb_exception :=
  Exception rb_eArgError "invalid private key data".
Definition KeyDerivationError : rb_exception :=
  Exception rb_eTypeError "Invalid private key data".
Definition SigningError : rb_exception :=
  Exception rb_eRuntimeError "unable to compute signature".
Definition InvalidDEREncoding : rb_exception :=
  Exception rb_eArgError "invalid DER encoded signature".
Definition InvalidCompactSignature : rb_exception :=
  Exception rb_eArgError "invalid compact signature".

(** Result type for internally defined functions *)
Inductive ResultT : Type :=
  | RESULT_SUCCESS
  | RESULT_FAILURE.

#[global] Instance ResultT_eq_dec : EqDecision ResultT.
Proof. solve_decision. Defined.

(** Macro: SUCCESS *)
Definition SUCCESS (x : ResultT) : bool := bool_decide (x = RESULT_SUCCESS).
(** Macro: FAILURE *)
Definition FAILURE (x : ResultT) : bool := negb (SUCCESS x).

(** ** A reference implementation of the two interfaces

    An executable instance of [OpenSSL] and [Secp256k1], used to run the
    extension on concrete inputs and to show that the library contracts
    assumed further down can be met.  SHA-256, the secret-key range check
    and the compact and DER signature codecs follow the real libraries.
    The curve itself is replaced by a stand-in (the "public key" of a
    secret scalar is the scalar): nothing below depends on how points are
    computed, only on the contract between signing and verification. *)
Module Reference.

(** *** OpenSSL: a generator with a finite pool, and SHA-256 *)

Record rand_state : Type := Build_rand {
  seeded : bool;
  pool : list byte;
}.

Definition ref_RAND_status (r : rand_state) : Z := if seeded r then 1 else 0.

Definition ref_RAND_bytes (r : rand_state) (buf : list byte) (num : nat)
  : Z * list byte * rand_state :=
  if bool_decide (num ≤ length (pool r))%nat then
    (1, take num (pool r) ++ drop num buf, Build_rand (seeded r) (drop num (pool r)))
  else (0, buf, r).

Definition w32 (x : Z) : Z := x mod 2 ^ 32.
Definition rotr (n x : Z) : Z := Z.lor (Z.shiftr x n) (w32 (Z.shiftl x (32 - n))).
Definition Ch (x y z : Z) : Z :=
  Z.lxor (Z.land x y) (Z.land (Z.lxor x 0xFFFFFFFF) z).
Definition Maj (x y z : Z) : Z :=
  Z.lxor (Z.lxor (Z.land x y) (Z.land x z)) (Z.land y z).
Definition Sigma0 (x : Z) : Z := Z.lxor (Z.lxor (rotr 2 x) (rotr 13 x)) (rotr 22 x).
Definition Sigma1 (x : Z) : Z := Z.lxor (Z.lxor (rotr 6 x) (rotr 11 x)) (rotr 25 x).
Definition sigma0 (x : Z) : Z := Z.lxor (Z.lxor (rotr 7 x) (rotr 18 x)) (Z.shiftr x 3).
Definition sigma1 (x : Z) : Z := Z.lxor (Z.lxor (rotr 17 x) (rotr 19 x)) (Z.shiftr x 10).

(** The constants of FIPS 180-4 are fractional parts of roots of the first
    primes: 32 bits of the cube roots of the first 64 primes for the round
    constants, of the square roots of the first 8 for the initial state. *)
Definition is_prime (p : Z) : bool :=
  (2 <=? p) && forallb (fun d => negb (p mod d =? 0)) (seqZ 2 (p - 2)).

Definition first_primes : list Z := Eval vm_compute in filter is_prime (seqZ 2 310).

(** The largest [r] below [2 ^ bits] with [r ^ 3 <= n], bit by bit. *)
Fixpoint cube_root (bits : nat) (n r : Z) : Z :=
  match bits with
  | O => r
  | S bits' =>
      let c := r + 2 ^ Z.of_nat bits' in
      cube_root bits' n (if c * c * c <=? n then c else r)
  end.

Definition K256 : list Z :=
  Eval vm_compute in
    map (fun p => cube_root 40 (p * 2 ^ 96) 0 mod 2 ^ 32) first_primes.

(** The eight working variables. *)
Definition sha_state : Type := Z * Z * Z * Z * Z * Z * Z * Z.

Definition sha_init : sha_state :=
  Eval vm_compute in
    match map (fun p => Z.sqrt (p * 2 ^ 64) mod 2 ^ 32) (take 8 first_primes) with
    | [a; b; c; d; e; f; g; h] => (a, b, c, d, e, f, g, h)
    | _ => (0, 0, 0, 0, 0, 0, 0, 0)
    end.

(** The message with its padding: a 1 bit, zeros, the bit length on 64
    bits, up to a multiple of 64 bytes. *)
Definition sha_pad (msg : list byte) : list byte :=
  let len := length msg in
  let zeros := ((64 - (len + 9) mod 64) mod 64)%nat in
  msg ++ [x80] ++ replicate zeros x00 ++ be_encode 8 (8 * Z.of_nat len).

Fixpoint chunks (fuel n : nat) (l : list byte) : list (list byte) :=
  match fuel with
  | O => []
  | S fuel' =>
      match l with
      | [] => []
      | _ => take n l :: chunks fuel' n (drop n l)
      end
  end.

(** The message schedule, most recent word first. *)
Fixpoint sha_schedule (rounds : nat) (w : list Z) : list Z :=
  match rounds with
  | O => w
  | S rounds' =>
      let nth k := default 0 (w !! k) in
      sha_schedule rounds'
        (w32 (sigma1 (nth 1%nat) + nth 6%nat + sigma0 (nth 14%nat) + nth 15%nat) :: w)
  end.

Definition sha_round (s : sha_state) (kw : Z * Z) : sha_state :=
  let '(a, b, c, d, e, f, g, h) := s in
  let t1 := h + Sigma1 e + Ch e f g + fst kw + snd kw in
  let t2 := Sigma0 a + Maj a b c in
  (w32 (t1 + t2), a, b, c, w32 (d + t1), e, f, g).

Definition sha_block (s : sha_state) (block : list byte) : sha_state :=
  let w0 := rev (map be_decode (chunks 16 4 block)) in
  let w := rev (sha_schedule 48 w0) in
  let '(a, b, c, d, e, f, g, h) := s in
  let '(a', b', c', d', e', f', g', h') :=
    fold_left sha_round (zip K256 w) s in
  (w32 (a + a'), w32 (b + b'), w32 (c + c'), w32 (d + d'),
   w32 (e + e'), w32 (f + f'), w32 (g + g'), w32 (h + h')).

Definition ref_SHA256 (msg : list byte) : list byte :=
  let padded := sha_pad msg in
  let '(a, b, c, d, e, f, g, h) :=
    fold_left sha_block (chunks (length padded) 64 padded) sha_init in
  be_encode 4 a ++ be_encode 4 b ++ be_encode 4 c ++ be_encode 4 d ++
  be_encode 4 e ++ be_encode 4 f ++ be_encode 4 g ++ be_encode 4 h.

#[export] Instance openssl : OpenSSL rand_state := {|
  RAND_status := ref_RAND_status;
  RAND_bytes := ref_RAND_bytes;
  SHA256 := ref_SHA256;
|}.

(** *** libsecp256k1 *)

Record context : Type := Build_context {
  flags : Z;
  blinding : option (list byte);
}.

(** A signature holds two scalars; they are read modulo the group order,
    as [secp256k1_ecdsa_signature_load] does. *)
Record signature : Type := Build_signature {
  sig_r : Z;
  sig_s : Z;
}.

Definition ref_signature_r (sig : signature) : Z := sig_r sig mod secp256k1_order.
Definition ref_signature_s (sig : signature) : Z := sig_s sig mod secp256k1_order.

Definition ref_context_create (fl : Z) : option context :=
  Some (Build_context fl None).

Definition ref_context_clone (ctx : option context) : option context := ctx.

(** Randomization always reports success. *)
Definition ref_context_randomize (ctx : option context) (seed32 : list byte)
  : Z * option context :=
  (1, (fun c => Build_context (flags c) (Some seed32)) <$> ctx).

(** A secret key is valid when it is neither zero nor above the order. *)
Definition seckey_valid (seckey : list byte) : bool :=
  bool_decide (0 < be_decode seckey < secp256k1_order).

Definition ref_ec_seckey_verify (ctx : option context) (seckey : list byte) : Z :=
  if seckey_valid seckey then 1 else 0.

(** Stand-in for the curve: the point of a secret scalar is the scalar. *)
Definition ref_ec_pubkey_create (ctx : option context) (seckey : list byte) : Z * Z :=
  if seckey_valid seckey then (1, be_decode seckey) else (0, 0).

Definition standin_sign (d z : Z) : signature :=
  Build_signature ((d + z) mod secp256k1_order) ((d * (z + 1)) mod secp256k1_order).

Definition ref_ecdsa_sign (ctx : option context) (msg32 seckey : list byte)
    (noncefp : option unit) (ndata : option (list byte)) : Z * signature :=
  if seckey_valid seckey then (1, standin_sign (be_decode seckey) (be_decode msg32))
  else (0, Build_signature 0 0).

Definition ref_ecdsa_verify (ctx : option context) (sig : signature)
    (msg32 : list byte) (pubkey : Z) : Z :=
  let expected := standin_sign pubkey (be_decode msg32) in
  if bool_decide (0 < pubkey < secp256k1_order
                  ∧ ref_signature_r sig = sig_r expected
                  ∧ ref_signature_s sig = sig_s expected)
  then 1 else 0.

(** The compact format: 32 bytes of R then 32 bytes of S, big endian;
    a value outside [0 .. order - 1] makes the encoding invalid. *)
Definition ref_serialize_compact (ctx : option context) (sig : signature)
  : Z * list byte :=
  (1, be_encode 32 (ref_signature_r sig) ++ be_encode 32 (ref_signature_s sig)).

Definition ref_parse_compact (ctx : option context) (input64 : list byte)
  : Z * signature :=
  let r := be_decode (take 32 input64) in
  let s := be_decode (take 32 (drop 32 input64)) in
  if bool_decide (r < secp256k1_order ∧ s < secp256k1_order)
  then (1, Build_signature r s)
  else (0, Build_signature 0 0).

(** DER: the shortest two's-complement form of a scalar. *)
Fixpoint der_strip (l : list byte) : list byte :=
  match l with
  | a :: ((b :: _) as tl) =>
      if bool_decide (a = x00) && bool_decide (byte_to_Z b < 0x80)
      then der_strip tl else l
  | _ => l
  end.

Definition der_integer (x : Z) : list byte := der_strip (x00 :: be_encode 32 x).

Definition ref_serialize_der (ctx : option context) (output : list byte)
    (outputlen : nat) (sig : signature) : Z * list byte * nat :=
  let r := der_integer (ref_signature_r sig) in
  let s := der_integer (ref_signature_s sig) in
  let need := (6 + length s + length r)%nat in
  if bool_decide (outputlen < need)%nat then (0, output, need)
  else
    (1,
     [x30; byte_of_Z (Z.of_nat (4 + length s + length r)); x02;
      byte_of_Z (Z.of_nat (length r))] ++ r ++
     [x02; byte_of_Z (Z.of_nat (length s))] ++ s ++ drop need output,
     need).

(** A DER length: short form, or the shortest long form. *)
Definition der_read_len (input : list byte) : option (nat * list byte) :=
  match input with
  | [] => None
  | b1 :: rest =>
      let b1 := byte_to_Z b1 in
      if bool_decide (b1 = 0xFF) then None
      else if bool_decide (Z.land b1 0x80 = 0) then Some (Z.to_nat b1, rest)
      else if bool_decide (b1 = 0x80) then None
      else
        let lenleft := Z.to_nat (Z.land b1 0x7F) in
        if bool_decide (length rest < lenleft)%nat then None
        else if bool_decide (head rest = Some x00) then None
        else if bool_decide (8 < lenleft)%nat then None
        else
          let len := Z.to_nat (be_decode (take lenleft rest)) in
          let rest := drop lenleft rest in
          if bool_decide (length rest < len)%nat then None
          else if bool_decide (len < 128)%nat then None
          else Some (len, rest)
  end.

(** A DER INTEGER read as a scalar; a negative or too large value is
    read as zero. *)
Definition der_parse_integer (input : list byte) : option (Z * list byte) :=
  match input with
  | tag :: input =>
      if bool_decide (tag ≠ x02) then None
      else
        match der_read_len input with
        | None => None
        | Some (rlen, input) =>
            if bool_decide (rlen = 0 ∨ length input < rlen)%nat then None
            else
              let body := take rlen input in
              let b0 := byte_to_Z (default x00 (body !! 0%nat)) in
              let b1 := byte_to_Z (default x00 (body !! 1%nat)) in
              if bool_decide (b0 = 0x00 ∧ (1 < rlen)%nat ∧ Z.land b1 0x80 = 0x00) then None
              else if bool_decide (b0 = 0xFF ∧ (1 < rlen)%nat ∧ Z.land b1 0x80 = 0x80) then None
              else
                let negative := bool_decide (Z.land b0 0x80 = 0x80) in
                let digits := if bool_decide (b0 = 0) then drop 1 body else body in
                let overflow :=
                  negative || bool_decide (32 < length digits)%nat
                  || bool_decide (secp256k1_order ≤ be_decode digits) in
                Some (if overflow then 0 else be_decode digits, drop rlen input)
        end
  | [] => None
  end.

Definition ref_parse_der (ctx : option context) (input : list byte) (inputlen : nat)
  : Z * signature :=
  let failed := (0, Build_signature 0 0) in
  match take inputlen input with
  | tag :: input =>
      if bool_decide (tag ≠ x30) then failed
      else
        match der_read_len input with
        | None => failed
        | Some (rlen, input) =>
            if bool_decide (rlen ≠ length input) then failed
            else
              match der_parse_integer input with
              | None => failed
              | Some (r, input) =>
                  match der_parse_integer input with
                  | None => failed
                  | Some (s, input) =>
                      if bool_decide (input ≠ []) then failed
                      else (1, Build_signature r s)
                  end
              end
        end
  | [] => failed
  end.

#[export] Instance secp256k1 : Secp256k1 context Z signature unit := {|
  pubkey_zero := 0;
  signature_zero := Build_signature 0 0;
  signature_r := ref_signature_r;
  signature_s := ref_signature_s;
  secp256k1_context_create := ref_context_create;
  secp256k1_context_clone := ref_context_clone;
  secp256k1_context_randomize := ref_context_randomize;
  secp256k1_ec_seckey_verify := ref_ec_seckey_verify;
  secp256k1_ec_pubkey_create := ref_ec_pubkey_create;
  secp256k1_ecdsa_sign := ref_ecdsa_sign;
  secp256k1_ecdsa_verify := ref_ecdsa_verify;
  secp256k1_ecdsa_signature_serialize_der := ref_serialize_der;
  secp256k1_ecdsa_signature_serialize_compact := ref_serialize_compact;
  secp256k1_ecdsa_signature_parse_der := ref_parse_der;
  secp256k1_ecdsa_signature_parse_compact := ref_parse_compact;
|}.

(** *** The public key codec of the stand-in curve

    The stand-in point of a secret scalar [d] has both coordinates equal to
    [d].  The byte formats and the order of the argument checks are those of
    the library: a buffer that is too small is refused before anything is
    written; otherwise the buffer is cleared, and filled when the key is a
    valid one. *)
Definition pubkey_valid (pubkey : Z) : bool :=
  bool_decide (0 < pubkey < secp256k1_order).

Definition ref_ec_pubkey_serialize (ctx : option context) (output : list byte)
    (outputlen : nat) (pubkey : Z) (flags : Z) : Z * list byte * nat :=
  let compressed :=
    negb (Z.land flags SECP256K1_FLAGS_BIT_COMPRESSION =? 0) in
  let size := if compressed then 33%nat else 65%nat in
  if bool_decide (outputlen < size)%nat then (0, output, outputlen)
  else
    let cleared := replicate outputlen x00 ++ drop outputlen output in
    if bool_decide (Z.land flags SECP256K1_FLAGS_TYPE_MASK
                    ≠ SECP256K1_FLAGS_TYPE_COMPRESSION) then (0, cleared, 0%nat)
    else if negb (pubkey_valid pubkey) then (0, cleared, 0%nat)
    else
      let enc :=
        if compressed then
          (if Z.even pubkey then x02 else x03) :: be_encode 32 pubkey
        else x04 :: be_encode 32 pubkey ++ be_encode 32 pubkey in
      (1, enc ++ drop size cleared, size).

Definition ref_ec_pubkey_parse (ctx : option context) (input : list byte)
    (inputlen : nat) : Z * Z :=
  match take inputlen input with
  | b :: rest =>
      if bool_decide (inputlen = 33%nat /\ (b = x02 \/ b = x03)) then
        let x := be_decode rest in
        if pubkey_valid x && bool_decide (b = if Z.even x then x02 else x03)
        then (1, x) else (0, 0)
      else if bool_decide (inputlen = 65%nat /\ b = x04) then
        let x := be_decode (take 32 rest) in
        let y := be_decode (drop 32 rest) in
        if pubkey_valid x && bool_decide (y = x) then (1, x) else (0, 0)
      else (0, 0)
  | [] => (0, 0)
  end.

#[export] Instance secp256k1_ec_pubkey : Secp256k1_ec_pubkey context Z := {|
  secp256k1_ec_pubkey_serialize := ref_ec_pubkey_serialize;
  secp256k1_ec_pubkey_parse := ref_ec_pubkey_parse;
|}.

End Reference.

Definition bytes_of_string (s : string) : list byte := String.list_byte_of_string s.

Example sha_abc :
  length Reference.K256 = 64%nat
  /\ Reference.ref_SHA256 (bytes_of_string "abc") =
     be_encode 32 0xba7816bf8f01cfea414140de5dae2223b00361a396177a9cb410ff61f20015ad
  /\ Reference.ref_SHA256 [] =
     be_encode 32 0xe3b0c44298fc1c149afbf4c8996fb92427ae41e4649b934ca495991b7852b855
  /\ Reference.ref_SHA256
       (bytes_of_string "abcdbcdecdefdefgefghfghighijhijkijkljklmklmnlmnomnopnopq") =
     be_encode 32 0x248d6a61d20638b8e5c026930c3e6039a33ce45964ff2167f6ecedd419db06c1.
Proof. vm_compute. repeat split; reflexivity. Qed.

Section Extension.
Context {RAND : Type} `{ssl : !OpenSSL RAND}.
Context {secp256k1_context secp256k1_pubkey secp256k1_ecdsa_signature
         secp256k1_nonce_function : Type}.
Context `{lib : !Secp256k1 secp256k1_context secp256k1_pubkey
                 secp256k1_ecdsa_signature secp256k1_nonce_function}.

(** *** The structures wrapped by the extension's objects *)

Record Context : Type := Build_Context {
  Context_ctx : option secp256k1_context;
}.

Record KeyPair : Type := Build_KeyPair {
  KeyPair_public_key : VALUE;
  KeyPair_private_key : VALUE;
}.

Record PublicKey : Type := Build_PublicKey {
  PublicKey_pubkey : secp256k1_pubkey;
  PublicKey_ctx : option secp256k1_context;
}.

Record PrivateKey : Type := Build_PrivateKey {
  PrivateKey_data : list byte;
  PrivateKey_ctx : option secp256k1_context;
}.

Record Signature : Type := Build_Signature {
  Signature_sig : secp256k1_ecdsa_signature;
  Signature_ctx : option secp256k1_context;
}.

(** *** Heap objects *)

Inductive rb_payload : Type :=
  | RObject
  | RString (bytes : list byte)
  | RData_Context (c : Context)
  | RData_KeyPair (k : KeyPair)
  | RData_PublicKey (p : PublicKey)
  | RData_PrivateKey (p : PrivateKey)
  | RData_Signature (s : Signature).

Record rb_object : Type := Build_object {
  klass : rb_class;
  ivars : gmap string VALUE;
  payload : rb_payload;
}.

(** A typed-data descriptor: its name and how the wrapped structure sits
    in an object. *)
Record rb_data_type_t (S : Type) : Type := Build_data_type {
  wrap_struct_name : string;
  wrap : S -> rb_payload;
  unwrap : rb_payload -> option S;
}.
#[global] Arguments wrap_struct_name {S} _.
#[global] Arguments wrap {S} _ _.
#[global] Arguments unwrap {S} _ _.

Definition Context_DataType : rb_data_type_t Context :=
  Build_data_type _ "Context" RData_Context
    (fun p => match p with RData_Context c => Some c | _ => None end).

Definition PublicKey_DataType : rb_data_type_t PublicKey :=
  Build_data_type _ "PublicKey" RData_PublicKey
    (fun p => match p with RData_PublicKey k => Some k | _ => None end).

Definition PrivateKey_DataType : rb_data_type_t PrivateKey :=
  Build_data_type _ "PrivateKey" RData_PrivateKey
    (fun p => match p with RData_PrivateKey k => Some k | _ => None end).

Definition KeyPair_DataType : rb_data_type_t KeyPair :=
  Build_data_type _ "KeyPair" RData_KeyPair
    (fun p => match p with RData_KeyPair k => Some k | _ => None end).

Definition Signature_DataType : rb_data_type_t Signature :=
  Build_data_type _ "Signature" RData_Signature
    (fun p => match p with RData_Signature s => Some s | _ => None end).

(** *** Machine state and the monad of extension code *)

(** The object heap (an object's address is its index), the OpenSSL random
    generator, and [stack]: the bytes found in a local array that the C
    code declares without initialising it. *)
Record State : Type := Build_State {
  heap : list rb_object;
  rand : RAND;
  stack : list byte;
}.

Definition M (A : Type) : Type := State -> outcome A * State.

#[global] Instance M_ret : MRet M := fun A a st => (Returned a, st).

#[global] Instance M_bind : MBind M := fun A B f m st =>
  match m st with
  | (Returned a, st') => f a st'
  | (Raised e, st') => (Raised e, st')
  | (Undefined u, st') => (Undefined u, st')
  end.

Definition get_state : M State := fun st => (Returned st, st).
Definition set_heap (h : list rb_object) : M unit :=
  fun st => (Returned tt, Build_State h (rand st) (stack st)).
Definition set_rand (r : RAND) : M unit :=
  fun st => (Returned tt, Build_State (heap st) r (stack st)).
Definition undefined {A} (u : undefined_behaviour) : M A :=
  fun st => (Undefined u, st).

(** [rb_raise]: control leaves the C function. *)
Definition rb_raise {A} (c : rb_exception_class) (mesg : string) : M A :=
  fun st => (Raised (Exception c mesg), st).

(** *** The runtime calls the extension makes *)

Definition lookup_object (v : VALUE) (st : State) : option rb_object :=
  match v with
  | Obj a => heap st !! a
  | _ => None
  end.

Definition rb_type_of (o : rb_object) : ruby_value_type :=
  match payload o with
  | RObject => T_OBJECT
  | RString _ => T_STRING
  | _ => T_DATA
  end.

(** [Check_Type]: a [TypeError] unless [v] is an object of type [t]. *)
Definition Check_Type (v : VALUE) (t : ruby_value_type) : M unit :=
  st ← get_state;
  let actual :=
    match v with
    | Qfalse => Some T_FALSE
    | Qtrue => Some T_TRUE
    | Qnil => Some T_NIL
    | Obj _ => rb_type_of <$> lookup_object v st
    end in
  match actual with
  | None => undefined InvalidPointer
  | Some t' =>
      if bool_decide (t' = t) then mret tt
      else rb_raise rb_eTypeError "wrong argument type"
  end.

(** [rb_check_typeddata], behind [TypedData_Get_Struct] and
    [Check_TypedStruct]: a [TypeError] unless [v] wraps a structure of the
    data type [dt]. *)
Definition rb_check_typeddata {S} (v : VALUE) (dt : rb_data_type_t S) : M S :=
  st ← get_state;
  match v with
  | Obj a =>
      match heap st !! a with
      | None => undefined InvalidPointer
      | Some o =>
          match unwrap dt (payload o) with
          | Some s => mret s
          | None => rb_raise rb_eTypeError "wrong argument type"
          end
      end
  | _ => rb_raise rb_eTypeError "wrong argument type"
  end.

Definition TypedData_Get_Struct {S} (v : VALUE) (dt : rb_data_type_t S) : M S :=
  rb_check_typeddata v dt.

Definition Check_TypedStruct {S} (v : VALUE) (dt : rb_data_type_t S) : M unit :=
  _ ← rb_check_typeddata v dt; mret tt.

(** An assignment through the structure pointer that
    [TypedData_Get_Struct] gave for [v]. *)
Definition assign_struct {S} (v : VALUE) (dt : rb_data_type_t S) (s : S) : M unit :=
  st ← get_state;
  match v with
  | Obj a =>
      match heap st !! a with
      | Some o => set_heap (<[a := Build_object (klass o) (ivars o) (wrap dt s)]> (heap st))
      | None => undefined InvalidPointer
      end
  | _ => undefined InvalidPointer
  end.

(** [TypedData_Wrap_Struct]: a new object of class [klass] around [s]. *)
Definition TypedData_Wrap_Struct {S} (k : rb_class) (dt : rb_data_type_t S) (s : S)
  : M VALUE :=
  st ← get_state;
  set_heap (heap st ++ [Build_object k ∅ (wrap dt s)]);;
  mret (Obj (length (heap st))).

(** [rb_str_new ptr len]: a new [String] holding the first [len] bytes
    at [ptr]. *)
Definition rb_str_new (ptr : list byte) (len : nat) : M VALUE :=
  st ← get_state;
  set_heap (heap st ++ [Build_object rb_cString ∅ (RString (take len ptr))]);;
  mret (Obj (length (heap st))).

(** [StringValuePtr]: the address of the bytes of a [String].  A value
    that is not a [String] gets a [TypeError] (the heap model has no
    objects with a [to_str] conversion). *)
Definition StringValuePtr (v : VALUE) : M nat :=
  st ← get_state;
  match v with
  | Obj a =>
      match heap st !! a with
      | Some (Build_object _ _ (RString _)) => mret a
      | Some _ => rb_raise rb_eTypeError "no implicit conversion into String"
      | None => undefined InvalidPointer
      end
  | _ => rb_raise rb_eTypeError "no implicit conversion into String"
  end.

(** [RSTRING_LEN]. *)
Definition RSTRING_LEN (v : VALUE) : M nat :=
  st ← get_state;
  match lookup_object v st with
  | Some (Build_object _ _ (RString bytes)) => mret (length bytes)
  | _ => undefined InvalidPointer
  end.

(** Reading [n] bytes through a pointer obtained from [StringValuePtr]:
    the bytes the string holds now.  A read past the end of the string is
    outside what C defines. *)
Definition read_bytes (ptr : nat) (n : nat) : M (list byte) :=
  st ← get_state;
  match heap st !! ptr with
  | Some (Build_object _ _ (RString bytes)) =>
      if bool_decide (n ≤ length bytes)%nat then mret (take n bytes)
      else undefined (OutOfBoundsRead n (length bytes))
  | _ => undefined InvalidPointer
  end.

(** [rb_iv_set] and [rb_iv_get]. *)
Definition rb_iv_set (self : VALUE) (name : string) (v : VALUE) : M VALUE :=
  st ← get_state;
  match self with
  | Obj a =>
      match heap st !! a with
      | Some o =>
          set_heap (<[a := Build_object (klass o) (<[name := v]> (ivars o)) (payload o)]>
                      (heap st));;
          mret v
      | None => undefined InvalidPointer
      end
  | _ => undefined InvalidPointer
  end.

Definition rb_iv_get (self : VALUE) (name : string) : M VALUE :=
  st ← get_state;
  match lookup_object self st with
  | Some o => mret (default Qnil (ivars o !! name))
  | None => undefined InvalidPointer
  end.

(** A local array of [n] bytes declared without an initialiser. *)
Definition uninitialised (n : nat) : M (list byte) :=
  st ← get_state; mret (resize n x00 (stack st)).

(** *** Internal functions of the extension *)

(** Generate a series of cryptographically secure random bytes using
    OpenSSL.  [out_bytes] is the buffer as it was; the buffer after the call
    is returned with the result. *)
Definition GenerateRandomBytes (out_bytes : list byte) (in_size : nat)
  : M (ResultT * list byte) :=
  st ← get_state;
  (* OpenSSL RNG has not been seeded with enough data and is therefore
     not usable. *)
  if bool_decide (RAND_status (rand st) = 0) then
    mret (RESULT_FAILURE, out_bytes)
  else
    (* Attempt to generate random bytes using the OpenSSL RNG *)
    let '(ret, out_bytes, r) := RAND_bytes (rand st) out_bytes in_size in
    set_rand r;;
    if bool_decide (ret ≠ 1) then mret (RESULT_FAILURE, out_bytes)
    else mret (RESULT_SUCCESS, out_bytes).

(** Computes the ECDSA signature of the given data: the SHA-256 hash of
    the data is computed, then signed with the private key.  The signature
    written to [out_signature] is returned with the result. *)
Definition SignData (in_context : option secp256k1_context)
    (in_data : nat) (in_data_len : nat) (in_private_key : list byte)
  : M (ResultT * secp256k1_ecdsa_signature) :=
  (* Compute the SHA-256 hash of data *)
  data ← read_bytes in_data in_data_len;
  let hash := SHA256 data in
  (* Sign the hash of the data *)
  let '(ret, out_signature) :=
    secp256k1_ecdsa_sign in_context hash in_private_key None None in
  if bool_decide (ret = 1) then mret (RESULT_SUCCESS, out_signature)
  else mret (RESULT_FAILURE, out_signature).

(** *** Secp256k1::PublicKey *)

Definition PublicKey_alloc (klass : rb_class) : M VALUE :=
  TypedData_Wrap_Struct klass PublicKey_DataType (Build_PublicKey pubkey_zero None).

(** Initialize a new public key from the given context and private key. *)
Definition PublicKey_initialize (self in_context in_private_key : VALUE) : M VALUE :=
  public_key ← TypedData_Get_Struct self PublicKey_DataType;
  context ← TypedData_Get_Struct in_context Context_DataType;
  private_key ← TypedData_Get_Struct in_private_key PrivateKey_DataType;
  let '(ret, pubkey) :=
    secp256k1_ec_pubkey_create (Context_ctx context) (PrivateKey_data private_key) in
  assign_struct self PublicKey_DataType
    (Build_PublicKey pubkey (PublicKey_ctx public_key));;
  if bool_decide (ret = 0) then rb_raise rb_eTypeError "Invalid private key data"
  else
    assign_struct self PublicKey_DataType
      (Build_PublicKey pubkey (secp256k1_context_clone (Context_ctx context)));;
    mret self.

(** *** Secp256k1::PrivateKey *)

(** Allocate space for new private key internal data *)
Definition PrivateKey_alloc (klass : rb_class) : M VALUE :=
  TypedData_Wrap_Struct klass PrivateKey_DataType
    (Build_PrivateKey (replicate 32 x00) None).

(** Initialize a new private key from binary data. *)
Definition PrivateKey_initialize (self in_context in_private_key_data : VALUE)
  : M VALUE :=
  Check_Type in_private_key_data T_STRING;;
  context ← TypedData_Get_Struct in_context Context_DataType;
  private_key_data ← StringValuePtr in_private_key_data;
  len ← RSTRING_LEN in_private_key_data;
  if bool_decide (len ≠ 32%nat) then
    rb_raise rb_eArgError "private key data must be 32 bytes in length"
  else
    seckey ← read_bytes private_key_data 32;
    if bool_decide (secp256k1_ec_seckey_verify (Context_ctx context) seckey ≠ 1) then
      rb_raise rb_eArgError "invalid private key data"
    else
      private_key ← TypedData_Get_Struct self PrivateKey_DataType;
      copied ← read_bytes private_key_data 32;
      assign_struct self PrivateKey_DataType
        (Build_PrivateKey copied (secp256k1_context_clone (Context_ctx context)));;
      (* Set the PrivateKey.data attribute for later reading *)
      rb_iv_set self "@data" in_private_key_data;;
      mret self.

(** [Secp256k1::PrivateKey.new]: the allocator, then [initialize]. *)
Definition PrivateKey_new (klass : rb_class) (in_context in_private_key_data : VALUE)
  : M VALUE :=
  self ← PrivateKey_alloc klass;
  PrivateKey_initialize self in_context in_private_key_data;;
  mret self.

(** Generates a new random private key. *)
Definition PrivateKey_generate (klass : rb_class) (in_context : VALUE) : M VALUE :=
  private_key_bytes ← uninitialised 32;
  '(res, private_key_bytes) ← GenerateRandomBytes private_key_bytes 32;
  if FAILURE res then rb_raise rb_eRuntimeError "Random bytes generation failed."
  else
    data ← rb_str_new private_key_bytes 32;
    PrivateKey_new klass in_context data.

(** The reader [rb_define_attr] defines for [PrivateKey#data]. *)
Definition PrivateKey_data_reader (self : VALUE) : M VALUE :=
  rb_iv_get self "@data".

(** *** Secp256k1::Signature *)

(** Allocate memory for Signature object *)
Definition Signature_alloc (klass : rb_class) : M VALUE :=
  TypedData_Wrap_Struct klass Signature_DataType (Build_Signature signature_zero None).

(** Return Distinguished Encoding Rules (DER) encoded signature data. *)
Definition Signature_der_encoded (self : VALUE) : M VALUE :=
  signature ← TypedData_Get_Struct self Signature_DataType;
  der_signature ← uninitialised 512;
  let der_signature_len := 512%nat in
  let '(ret, der_signature, der_signature_len) :=
    secp256k1_ecdsa_signature_serialize_der (Signature_ctx signature)
      der_signature der_signature_len (Signature_sig signature) in
  if bool_decide (ret ≠ 1) then
    rb_raise rb_eRuntimeError "could not compute DER encoded signature"
  else rb_str_new der_signature der_signature_len.

(** Returns the 64 byte compact representation of this signature. *)
Definition Signature_compact (self : VALUE) : M VALUE :=
  signature ← TypedData_Get_Struct self Signature_DataType;
  let '(ret, compact_signature) :=
    secp256k1_ecdsa_signature_serialize_compact (Signature_ctx signature)
      (Signature_sig signature) in
  if bool_decide (ret ≠ 1) then
    rb_raise rb_eRuntimeError "unable to compute compact signature"
  else rb_str_new compact_signature COMPACT_SIG_SIZE_BYTES.

(** *** Secp256k1::KeyPair *)

(** [ALLOC] does not clear the structure: the two fields are indeterminate
    until [KeyPair_initialize] assigns them; the model puts [Qnil] there. *)
Definition KeyPair_alloc (klass : rb_class) : M VALUE :=
  TypedData_Wrap_Struct klass KeyPair_DataType (Build_KeyPair Qnil Qnil).

(** Default constructor. *)
Definition KeyPair_initialize (self in_public_key in_private_key : VALUE) : M VALUE :=
  key_pair ← TypedData_Get_Struct self KeyPair_DataType;
  Check_TypedStruct in_public_key PublicKey_DataType;;
  Check_TypedStruct in_private_key PrivateKey_DataType;;
  assign_struct self KeyPair_DataType (Build_KeyPair in_public_key in_private_key);;
  rb_iv_set self "@public_key" in_public_key;;
  rb_iv_set self "@private_key" in_private_key;;
  mret self.

(** [new] of the two remaining classes that [rb_funcall] is sent to. *)
Definition PublicKey_new (klass : rb_class) (in_context in_private_key : VALUE)
  : M VALUE :=
  self ← PublicKey_alloc klass;
  PublicKey_initialize self in_context in_private_key;;
  mret self.

Definition KeyPair_new (klass : rb_class) (in_public_key in_private_key : VALUE)
  : M VALUE :=
  self ← KeyPair_alloc klass;
  KeyPair_initialize self in_public_key in_private_key;;
  mret self.

(** The readers [rb_define_attr] defines for [KeyPair]. *)
Definition KeyPair_public_key_reader (self : VALUE) : M VALUE :=
  rb_iv_get self "@public_key".
Definition KeyPair_private_key_reader (self : VALUE) : M VALUE :=
  rb_iv_get self "@private_key".

(** *** Secp256k1::Context *)

(** Allocate a new context object *)
Definition Context_alloc (klass : rb_class) : M VALUE :=
  TypedData_Wrap_Struct klass Context_DataType (Build_Context None).

(** Initialize a new context. *)
Definition Context_initialize (self : VALUE) : M VALUE :=
  seed ← uninitialised 32;
  context ← TypedData_Get_Struct self Context_DataType;
  let ctx :=
    secp256k1_context_create
      (Z.lor SECP256K1_CONTEXT_SIGN SECP256K1_CONTEXT_VERIFY) in
  assign_struct self Context_DataType (Build_Context ctx);;
  (* Randomize the context at initialization time rather than before calls
     so the same context can be used across threads safely. *)
  '(_, seed) ← GenerateRandomBytes seed 32;
  let '(ret, ctx) := secp256k1_context_randomize ctx seed in
  assign_struct self Context_DataType (Build_Context ctx);;
  if bool_decide (ret ≠ 1) then
    rb_raise rb_eRuntimeError "context randomization failed"
  else mret self.

(** [Secp256k1::Context.new]. *)
Definition Context_new (klass : rb_class) : M VALUE :=
  self ← Context_alloc klass;
  Context_initialize self;;
  mret self.

(** Generate a new public-private key pair. *)
Definition Context_generate_key_pair (self : VALUE) : M VALUE :=
  private_key ← PrivateKey_generate Secp256k1_PrivateKey_class self;
  public_key ← PublicKey_new Secp256k1_PublicKey_class self private_key;
  key_pair ← KeyPair_new Secp256k1_KeyPair_class public_key private_key;
  mret key_pair.

(** Converts binary private key data into a new key pair. *)
Definition Context_key_pair_from_private_key (self in_private_key_data : VALUE)
  : M VALUE :=
  private_key ← PrivateKey_new Secp256k1_PrivateKey_class self in_private_key_data;
  public_key ← PublicKey_new Secp256k1_PublicKey_class self private_key;
  key_pair ← KeyPair_new Secp256k1_KeyPair_class public_key private_key;
  mret key_pair.

(** Converts a DER encoded binary signature into a signature object. *)
Definition Context_signature_from_der_encoded (self in_der_encoded_signature : VALUE)
  : M VALUE :=
  Check_Type in_der_encoded_signature T_STRING;;
  context ← TypedData_Get_Struct self Context_DataType;
  signature_data ← StringValuePtr in_der_encoded_signature;
  signature_result ← Signature_alloc Secp256k1_Signature_class;
  signature ← TypedData_Get_Struct signature_result Signature_DataType;
  len ← RSTRING_LEN in_der_encoded_signature;
  input ← read_bytes signature_data len;
  let '(ret, sig) :=
    secp256k1_ecdsa_signature_parse_der (Context_ctx context) input len in
  assign_struct signature_result Signature_DataType
    (Build_Signature sig (Signature_ctx signature));;
  if bool_decide (ret ≠ 1) then rb_raise rb_eArgError "invalid DER encoded signature"
  else
    assign_struct signature_result Signature_DataType
      (Build_Signature sig (secp256k1_context_clone (Context_ctx context)));;
    mret signature_result.

(** Deserializes a Signature from 64-byte compact signature data.  The
    library reads the 64 bytes at [signature_data]. *)
Definition Context_signature_from_compact (self in_compact_signature : VALUE)
  : M VALUE :=
  context ← TypedData_Get_Struct self Context_DataType;
  signature_data ← StringValuePtr in_compact_signature;
  signature_result ← Signature_alloc Secp256k1_Signature_class;
  signature ← TypedData_Get_Struct signature_result Signature_DataType;
  input64 ← read_bytes signature_data 64;
  let '(ret, sig) :=
    secp256k1_ecdsa_signature_parse_compact (Context_ctx context) input64 in
  assign_struct signature_result Signature_DataType
    (Build_Signature sig (Signature_ctx signature));;
  if bool_decide (ret ≠ 1) then rb_raise rb_eArgError "invalid compact signature"
  else
    assign_struct signature_result Signature_DataType
      (Build_Signature sig (secp256k1_context_clone (Context_ctx context)));;
    mret signature_result.

(** Computes the ECDSA signature of the data using the secp256k1 elliptic
    curve. *)
Definition Context_sign (self in_private_key in_data : VALUE) : M VALUE :=
  Check_Type in_data T_STRING;;
  context ← TypedData_Get_Struct self Context_DataType;
  private_key ← TypedData_Get_Struct in_private_key PrivateKey_DataType;
  data_ptr ← StringValuePtr in_data;
  signature_result ← Signature_alloc Secp256k1_Signature_class;
  signature ← TypedData_Get_Struct signature_result Signature_DataType;
  len ← RSTRING_LEN in_data;
  (* Attempt to sign the hash of the given data *)
  '(res, sig) ← SignData (Context_ctx context) data_ptr len
                  (PrivateKey_data private_key);
  assign_struct signature_result Signature_DataType
    (Build_Signature sig (Signature_ctx signature));;
  if SUCCESS res then
    assign_struct signature_result Signature_DataType
      (Build_Signature sig (secp256k1_context_clone (Context_ctx context)));;
    mret signature_result
  else rb_raise rb_eRuntimeError "unable to compute signature".

(** Verifies that signature matches public key and data. *)
Definition Context_verify (self in_signature in_pubkey in_message : VALUE) : M VALUE :=
  Check_Type in_message T_STRING;;
  context ← TypedData_Get_Struct self Context_DataType;
  public_key ← TypedData_Get_Struct in_pubkey PublicKey_DataType;
  signature ← TypedData_Get_Struct in_signature Signature_DataType;
  message_ptr ← StringValuePtr in_message;
  len ← RSTRING_LEN in_message;
  message ← read_bytes message_ptr len;
  let hash := SHA256 message in
  if bool_decide (secp256k1_ecdsa_verify (Context_ctx context)
                    (Signature_sig signature) hash
                    (PublicKey_pubkey public_key) = 1)
  then mret Qtrue
  else mret Qfalse.

(** *** Reading the heap *)

(** The structure of data type [dt] that [v] wraps in [st], if any. *)
Definition struct_at {S} (dt : rb_data_type_t S) (st : State) (v : VALUE) : option S :=
  lookup_object v st ≫= fun o => unwrap dt (payload o).

(** The bytes of the [String] that [v] refers to in [st], if any. *)
Definition string_at (st : State) (v : VALUE) : option (list byte) :=
  lookup_object v st ≫= fun o =>
    match payload o with RString bytes => Some bytes | _ => None end.

(** The instance variable [name] of [v] in [st]. *)
Definition ivar_at (st : State) (v : VALUE) (name : string) : option VALUE :=
  lookup_object v st ≫= fun o => ivars o !! name.

(** The state after a new object [o] has been allocated. *)
Definition allocated (st : State) (o : rb_object) : State :=
  Build_State (heap st ++ [o]) (rand st) (stack st).

(** The state in which the object at [a] has been replaced by [o]. *)
Definition updated (st : State) (a : nat) (o : rb_object) : State :=
  Build_State (<[a := o]> (heap st)) (rand st) (stack st).

(** A Ruby program changing the bytes of an existing [String] in place
    (as [String#setbyte], [String#replace] or [String#<<] do). *)
Definition mutate_string (v : VALUE) (bytes : list byte) (st : State) : State :=
  match v with
  | Obj a =>
      match heap st !! a with
      | Some (Build_object k iv (RString _)) =>
          updated st a (Build_object k iv (RString bytes))
      | _ => st
      end
  | _ => st
  end.

(** The library contexts that the extension's objects hold once they are
    initialised: [Context_initialize] creates one for signing and
    verification and randomizes it, every other object gets a clone. *)
Inductive extension_context : option secp256k1_context -> Prop :=
  | context_created :
      extension_context
        (secp256k1_context_create
           (Z.lor SECP256K1_CONTEXT_SIGN SECP256K1_CONTEXT_VERIFY))
  | context_randomized ctx seed32 :
      extension_context ctx ->
      extension_context (secp256k1_context_randomize ctx seed32).2
  | context_cloned ctx :
      extension_context ctx ->
      extension_context (secp256k1_context_clone ctx).

(** A private key object and a public key object form a valid key pair
    when the private key holds 32 bytes that the library accepts as a
    secret key and the public key holds the point the library derives
    from them: what [PrivateKey_initialize] checks and what
    [PublicKey_initialize] computes. *)
Definition valid_key_pair (st : State) (private_key public_key : VALUE) : Prop :=
  exists k p cv cd,
    struct_at PrivateKey_DataType st private_key = Some k
    /\ struct_at PublicKey_DataType st public_key = Some p
    /\ length (PrivateKey_data k) = 32%nat
    /\ extension_context cv
    /\ secp256k1_ec_seckey_verify cv (PrivateKey_data k) = 1
    /\ extension_context cd
    /\ secp256k1_ec_pubkey_create cd (PrivateKey_data k)
       = (1, PublicKey_pubkey p).

(** The outcome of a call that returns a [String], with the bytes of the
    string in place of the reference to it. *)
Definition result_bytes (r : outcome VALUE * State) : outcome (option (list byte)) :=
  match r.1 with
  | Returned v => Returned (string_at r.2 v)
  | Raised e => Raised e
  | Undefined u => Undefined u
  end.

(** The outcome of a call that returns a Signature object, with the
    library signature it wraps in place of the reference to it. *)
Definition result_signature (r : outcome VALUE * State)
  : outcome (option secp256k1_ecdsa_signature) :=
  match r.1 with
  | Returned v => Returned (Signature_sig <$> struct_at Signature_DataType r.2 v)
  | Raised e => Raised e
  | Undefined u => Undefined u
  end.

(** The bytes a caller sees through [PrivateKey#data]. *)
Definition exposed_data (st : State) (private_key : VALUE) : option (list byte) :=
  match PrivateKey_data_reader private_key st with
  | (Returned v, st') => string_at st' v
  | _ => None
  end.

(** ** Running extension code: how each runtime call steps *)

Lemma length_be_encode len x : length (be_encode len x) = len.
Proof.
  revert x. induction len as [|len IH]; intros x; simpl; [done|].
  rewrite length_app, IH. simpl. lia.
Qed.


Lemma run_bind {A B} (m : M A) (f : A -> M B) st a st' :
  m st = (Returned a, st') -> (m ≫= f) st = f a st'.
Proof. intros H. unfold mbind, M_bind. by rewrite H. Qed.

Lemma run_bind_raised {A B} (m : M A) (f : A -> M B) st e st' :
  m st = (Raised e, st') -> (m ≫= f) st = (Raised e, st').
Proof. intros H. unfold mbind, M_bind. by rewrite H. Qed.

Lemma run_bind_undefined {A B} (m : M A) (f : A -> M B) st u st' :
  m st = (Undefined u, st') -> (m ≫= f) st = (Undefined u, st').
Proof. intros H. unfold mbind, M_bind. by rewrite H. Qed.

Lemma run_bind_assoc {A B C} (m : M A) (f : A -> M B) (g : B -> M C) st :
  ((m ≫= f) ≫= g) st = (m ≫= fun x => f x ≫= g) st.
Proof. unfold mbind, M_bind. by destruct (m st) as [[a|e|u] st']. Qed.

Lemma run_ret {A} (a : A) st : (mret a : M A) st = (Returned a, st).
Proof. reflexivity. Qed.

Lemma run_get_state st : get_state st = (Returned st, st).
Proof. reflexivity. Qed.

Lemma struct_at_inv {S} (dt : rb_data_type_t S) st v s :
  struct_at dt st v = Some s ->
  exists a o, v = Obj a /\ heap st !! a = Some o /\ unwrap dt (payload o) = Some s.
Proof.
  unfold struct_at, lookup_object. destruct v as [| | |a]; try discriminate.
  destruct (heap st !! a) as [o|] eqn:E; try discriminate.
  intros H. exists a, o. auto.
Qed.

Lemma string_at_inv st v m :
  string_at st v = Some m ->
  exists a k iv, v = Obj a /\ heap st !! a = Some (Build_object k iv (RString m)).
Proof.
  unfold string_at, lookup_object. destruct v as [| | |a]; try discriminate.
  destruct (heap st !! a) as [[k iv p]|] eqn:E; try discriminate.
  destruct p; try discriminate. simpl. intros [= ->]. eauto.
Qed.

Lemma run_Check_Type_string st v m :
  string_at st v = Some m -> Check_Type v T_STRING st = (Returned tt, st).
Proof.
  intros (a & k & iv & -> & H)%string_at_inv.
  unfold Check_Type. erewrite run_bind by apply run_get_state.
  unfold lookup_object. rewrite H. reflexivity.
Qed.

Lemma run_rb_check_typeddata {S} (dt : rb_data_type_t S) st v s :
  struct_at dt st v = Some s -> rb_check_typeddata v dt st = (Returned s, st).
Proof.
  intros (a & o & -> & H & Hu)%struct_at_inv.
  unfold rb_check_typeddata. erewrite run_bind by apply run_get_state.
  rewrite H, Hu. reflexivity.
Qed.

Lemma run_TypedData_Get_Struct {S} (dt : rb_data_type_t S) st v s :
  struct_at dt st v = Some s -> TypedData_Get_Struct v dt st = (Returned s, st).
Proof. apply run_rb_check_typeddata. Qed.

Lemma run_Check_TypedStruct {S} (dt : rb_data_type_t S) st v s :
  struct_at dt st v = Some s -> Check_TypedStruct v dt st = (Returned tt, st).
Proof.
  intros H. unfold Check_TypedStruct.
  erewrite run_bind by (by apply run_rb_check_typeddata). reflexivity.
Qed.

Lemma run_StringValuePtr st a m :
  string_at st (Obj a) = Some m -> StringValuePtr (Obj a) st = (Returned a, st).
Proof.
  intros (a' & k & iv & [= <-] & H)%string_at_inv.
  unfold StringValuePtr. erewrite run_bind by apply run_get_state.
  rewrite H. reflexivity.
Qed.

Lemma run_RSTRING_LEN st v m :
  string_at st v = Some m -> RSTRING_LEN v st = (Returned (length m), st).
Proof.
  intros (a & k & iv & -> & H)%string_at_inv.
  unfold RSTRING_LEN. erewrite run_bind by apply run_get_state.
  unfold lookup_object. rewrite H. reflexivity.
Qed.

Lemma run_read_bytes st a m n :
  string_at st (Obj a) = Some m -> (n <= length m)%nat ->
  read_bytes a n st = (Returned (take n m), st).
Proof.
  intros (a' & k & iv & [= <-] & H)%string_at_inv Hn.
  unfold read_bytes. erewrite run_bind by apply run_get_state.
  rewrite H. rewrite bool_decide_true by done. reflexivity.
Qed.

Lemma run_read_bytes_beyond st a m n :
  string_at st (Obj a) = Some m -> (length m < n)%nat ->
  read_bytes a n st = (Undefined (OutOfBoundsRead n (length m)), st).
Proof.
  intros (a' & k & iv & [= <-] & H)%string_at_inv Hn.
  unfold read_bytes. erewrite run_bind by apply run_get_state.
  rewrite H. rewrite bool_decide_false by lia. reflexivity.
Qed.

Lemma run_TypedData_Wrap_Struct {S} k (dt : rb_data_type_t S) s st :
  TypedData_Wrap_Struct k dt s st =
  (Returned (Obj (length (heap st))), allocated st (Build_object k ∅ (wrap dt s))).
Proof. reflexivity. Qed.

Lemma run_rb_str_new ptr len st :
  rb_str_new ptr len st =
  (Returned (Obj (length (heap st))),
   allocated st (Build_object rb_cString ∅ (RString (take len ptr)))).
Proof. reflexivity. Qed.

Lemma run_uninitialised n st :
  uninitialised n st = (Returned (resize n x00 (stack st)), st).
Proof. reflexivity. Qed.

(** Allocation leaves every existing object where it was. *)
Lemma lookup_object_allocated st o v x :
  lookup_object v st = Some x -> lookup_object v (allocated st o) = Some x.
Proof.
  destruct v as [| | |a]; try discriminate. simpl.
  intros H. by apply lookup_app_l_Some.
Qed.

Lemma struct_at_allocated {S} (dt : rb_data_type_t S) st o v s :
  struct_at dt st v = Some s -> struct_at dt (allocated st o) v = Some s.
Proof.
  unfold struct_at. destruct (lookup_object v st) as [x|] eqn:E; try discriminate.
  by rewrite (lookup_object_allocated _ _ _ _ E).
Qed.

Lemma string_at_allocated st o v m :
  string_at st v = Some m -> string_at (allocated st o) v = Some m.
Proof.
  unfold string_at. destruct (lookup_object v st) as [x|] eqn:E; try discriminate.
  by rewrite (lookup_object_allocated _ _ _ _ E).
Qed.

Lemma lookup_object_new st o :
  lookup_object (Obj (length (heap st))) (allocated st o) = Some o.
Proof. simpl. by rewrite list_lookup_middle. Qed.

Lemma struct_at_new {S} (dt : rb_data_type_t S) st o s :
  unwrap dt (payload o) = Some s ->
  struct_at dt (allocated st o) (Obj (length (heap st))) = Some s.
Proof. intros H. unfold struct_at. by rewrite lookup_object_new. Qed.

Lemma string_at_new st k iv m :
  string_at (allocated st (Build_object k iv (RString m))) (Obj (length (heap st)))
  = Some m.
Proof. unfold string_at. by rewrite lookup_object_new. Qed.

Lemma run_assign_struct_new {S} (dt : rb_data_type_t S) st o s :
  assign_struct (Obj (length (heap st))) dt s (allocated st o) =
  (Returned tt, allocated st (Build_object (klass o) (ivars o) (wrap dt s))).
Proof.
  unfold assign_struct. erewrite run_bind by apply run_get_state.
  pose proof (lookup_object_new st o) as H. simpl in H.
  change (heap (allocated st o)) with (heap st ++ [o]). rewrite H.
  unfold set_heap, allocated. simpl. f_equal. f_equal.
  rewrite insert_app_r_alt by done. by rewrite Nat.sub_diag.
Qed.

Lemma run_assign_struct {S} (dt : rb_data_type_t S) st a o s :
  heap st !! a = Some o ->
  assign_struct (Obj a) dt s st =
  (Returned tt, updated st a (Build_object (klass o) (ivars o) (wrap dt s))).
Proof.
  intros H. unfold assign_struct. erewrite run_bind by apply run_get_state.
  rewrite H. reflexivity.
Qed.

Lemma run_rb_iv_set st a o name v :
  heap st !! a = Some o ->
  rb_iv_set (Obj a) name v st =
  (Returned v, updated st a (Build_object (klass o) (<[name := v]> (ivars o)) (payload o))).
Proof.
  intros H. unfold rb_iv_set. erewrite run_bind by apply run_get_state.
  rewrite H. reflexivity.
Qed.

Lemma heap_updated_eq st a o o' :
  heap st !! a = Some o -> heap (updated st a o') !! a = Some o'.
Proof.
  intros H. simpl. apply list_lookup_insert_eq. by eapply lookup_lt_Some.
Qed.

Lemma updated_updated st a o1 o2 :
  updated (updated st a o1) a o2 = updated st a o2.
Proof. unfold updated. simpl. by rewrite list_insert_insert_eq. Qed.

Lemma lookup_object_updated_ne st a o v :
  v <> Obj a -> lookup_object v (updated st a o) = lookup_object v st.
Proof.
  destruct v as [| | |b]; try done. intros H. simpl.
  apply list_lookup_insert_ne. congruence.
Qed.

Lemma lookup_object_updated_eq st a o o' :
  heap st !! a = Some o -> lookup_object (Obj a) (updated st a o') = Some o'.
Proof. apply heap_updated_eq. Qed.

Lemma updated_allocated_new st o o' :
  updated (allocated st o) (length (heap st)) o' = allocated st o'.
Proof.
  unfold updated, allocated. simpl. f_equal.
  rewrite insert_app_r_alt by done. by rewrite Nat.sub_diag.
Qed.

Lemma run_rb_iv_set_new st o name v :
  rb_iv_set (Obj (length (heap st))) name v (allocated st o) =
  (Returned v,
   allocated st (Build_object (klass o) (<[name := v]> (ivars o)) (payload o))).
Proof.
  erewrite run_rb_iv_set by apply lookup_object_new.
  by rewrite updated_allocated_new.
Qed.

(** ** What the extension does, for any implementation of the libraries *)


Create HintDb heap discriminated.
#[local] Hint Resolve struct_at_allocated string_at_allocated : heap.
#[local] Hint Extern 1 (struct_at _ (allocated _ _) (Obj (length _)) = Some _) =>
  apply struct_at_new; reflexivity : heap.
#[local] Hint Resolve string_at_new : heap.

Ltac mstep tac := erewrite run_bind by tac.
Ltac heap_fact := solve [eauto with heap].
Ltac mrun :=
  repeat first
    [ rewrite run_bind_assoc
    | mstep ltac:(eapply run_Check_Type_string; heap_fact)
    | mstep ltac:(eapply run_TypedData_Get_Struct; heap_fact)
    | mstep ltac:(eapply run_Check_TypedStruct; heap_fact)
    | mstep ltac:(eapply run_StringValuePtr; heap_fact)
    | mstep ltac:(eapply run_RSTRING_LEN; heap_fact)
    | mstep ltac:(eapply run_read_bytes; [heap_fact | lia])
    | mstep ltac:(apply run_TypedData_Wrap_Struct)
    | mstep ltac:(apply run_rb_str_new)
    | mstep ltac:(apply run_uninitialised)
    | mstep ltac:(apply run_assign_struct_new)
    | mstep ltac:(apply run_get_state)
    | mstep ltac:(apply run_ret) ].

Lemma run_SignData st in_context a m in_private_key :
  string_at st (Obj a) = Some m ->
  let result := secp256k1_ecdsa_sign in_context (SHA256 m) in_private_key None None in
  SignData in_context a (length m) in_private_key st =
  (Returned (if bool_decide (result.1 = 1) then RESULT_SUCCESS else RESULT_FAILURE,
             result.2), st).
Proof.
  intros Hm. simpl. unfold SignData. mrun. rewrite firstn_all.
  destruct (secp256k1_ecdsa_sign _ _ _ _ _) as [ret sig]. simpl.
  by case_bool_decide.
Qed.

(** C4.  Signing hashes the whole message with SHA-256, signs the hash with
    the 32 bytes of the private key and neither a nonce function nor extra
    nonce data, and returns a new Signature holding the result and a clone
    of the context; it raises the signing error exactly when the library's
    return code is not 1.  The random generator is left as it was. *)
Theorem Context_sign_steps st self in_private_key in_data c k m :
  struct_at Context_DataType st self = Some c ->
  struct_at PrivateKey_DataType st in_private_key = Some k ->
  string_at st in_data = Some m ->
  let hash := SHA256 m in
  let result :=
    secp256k1_ecdsa_sign (Context_ctx c) hash (PrivateKey_data k) None None in
  let new_signature ctx :=
    Build_object Secp256k1_Signature_class ∅
      (RData_Signature (Build_Signature result.2 ctx)) in
  Context_sign self in_private_key in_data st =
  if bool_decide (result.1 = 1) then
    (Returned (Obj (length (heap st))),
     allocated st (new_signature (secp256k1_context_clone (Context_ctx c))))
  else (Raised SigningError, allocated st (new_signature None)).
Proof.
  intros Hc Hk Hm. simpl.
  destruct (string_at_inv _ _ _ Hm) as (a & ks & iv & -> & Ha).
  unfold Context_sign, Signature_alloc. mrun.
  mstep ltac:(eapply run_SignData; heap_fact). mrun.
  case_bool_decide; simpl; mrun; reflexivity.
Qed.

(** C5.  Verification of a signature object, a public key object and a
    message string returns [Qtrue] or [Qfalse] and nothing else: it raises
    no exception, leaves the state as it was, and answers [Qtrue] exactly
    when the library accepts the signature over the SHA-256 hash of the
    message. *)
Theorem Context_verify_total st self in_signature in_pubkey in_message c sg p m :
  struct_at Context_DataType st self = Some c ->
  struct_at Signature_DataType st in_signature = Some sg ->
  struct_at PublicKey_DataType st in_pubkey = Some p ->
  string_at st in_message = Some m ->
  Context_verify self in_signature in_pubkey in_message st =
  (Returned
     (if bool_decide
           (secp256k1_ecdsa_verify (Context_ctx c) (Signature_sig sg)
              (SHA256 m) (PublicKey_pubkey p) = 1)
      then Qtrue else Qfalse),
   st).
Proof.
  intros Hc Hs Hp Hm.
  destruct (string_at_inv _ _ _ Hm) as (a & ks & iv & -> & Ha).
  unfold Context_verify. mrun. rewrite firstn_all.
  by case_bool_decide.
Qed.

(** C8.  Building a key pair from a public key object and a private key
    object always succeeds: the pair refers to exactly the two objects
    given, both are left as they were, and nothing relates the point of
    the one to the bytes of the other. *)
Theorem KeyPair_initialize_aggregate st self in_public_key in_private_key kp p k :
  struct_at KeyPair_DataType st self = Some kp ->
  struct_at PublicKey_DataType st in_public_key = Some p ->
  struct_at PrivateKey_DataType st in_private_key = Some k ->
  exists st',
    KeyPair_initialize self in_public_key in_private_key st = (Returned self, st')
    /\ struct_at KeyPair_DataType st' self
        = Some (Build_KeyPair in_public_key in_private_key)
    /\ ivar_at st' self "@public_key" = Some in_public_key
    /\ ivar_at st' self "@private_key" = Some in_private_key
    /\ struct_at PublicKey_DataType st' in_public_key = Some p
    /\ struct_at PrivateKey_DataType st' in_private_key = Some k
    /\ (forall v, v <> self -> lookup_object v st' = lookup_object v st)
    /\ rand st' = rand st.
Proof.
  intros Hkp Hp Hk.
  destruct (struct_at_inv _ _ _ _ Hkp) as (a & o & -> & Ha & Hu).
  assert (Hpa : in_public_key <> Obj a).
  { intros ->. unfold struct_at in Hp. simpl in Hp. rewrite Ha in Hp.
    simpl in *. destruct (payload o); discriminate. }
  assert (Hka : in_private_key <> Obj a).
  { intros ->. unfold struct_at in Hk. simpl in Hk. rewrite Ha in Hk.
    simpl in *. destruct (payload o); discriminate. }
  unfold KeyPair_initialize. mrun.
  mstep ltac:(by apply run_assign_struct).
  mstep ltac:(eapply run_rb_iv_set; by eapply heap_updated_eq).
  rewrite updated_updated. simpl.
  mstep ltac:(eapply run_rb_iv_set; by eapply heap_updated_eq).
  rewrite updated_updated. simpl.
  eexists. split; [reflexivity|].
  unfold struct_at, ivar_at.
  rewrite (lookup_object_updated_eq _ _ _ _ Ha).
  rewrite !lookup_object_updated_ne by done. simpl.
  repeat split; try done.
  - rewrite lookup_insert_ne by done. by rewrite lookup_insert_eq.
  - by rewrite lookup_insert_eq.
  - intros v Hv. by apply lookup_object_updated_ne.
Qed.

Section SecretKeys.

(** Contract of [secp256k1_ec_seckey_verify]: a secret key it accepts is a
    non-zero scalar below the group order. *)
Hypothesis seckey_verify_range : forall ctx seckey,
  length seckey = 32%nat ->
  secp256k1_ec_seckey_verify ctx seckey = 1 ->
  0 < be_decode seckey < secp256k1_order.

(** C3.  Constructing a private key from a byte string: a string that is not
    32 bytes long is refused with the key-length error; a 32-byte string
    the library does not accept is refused with the invalid-key error, and
    so are the all-zero string and every string whose value is at least the
    group order; otherwise the object ends up holding exactly the 32 bytes
    given. *)
Theorem PrivateKey_initialize_checks st self in_context in_private_key_data pk0 c bytes :
  struct_at PrivateKey_DataType st self = Some pk0 ->
  struct_at Context_DataType st in_context = Some c ->
  string_at st in_private_key_data = Some bytes ->
  let run := PrivateKey_initialize self in_context in_private_key_data st in
  (length bytes <> 32%nat -> run = (Raised InvalidKeyLength, st))
  /\ (length bytes = 32%nat ->
      secp256k1_ec_seckey_verify (Context_ctx c) bytes <> 1 ->
      run = (Raised InvalidPrivateKey, st))
  /\ (length bytes = 32%nat ->
      bytes = replicate 32 x00 \/ secp256k1_order <= be_decode bytes ->
      run = (Raised InvalidPrivateKey, st))
  /\ (length bytes = 32%nat ->
      secp256k1_ec_seckey_verify (Context_ctx c) bytes = 1 ->
      exists st',
        run = (Returned self, st')
        /\ struct_at PrivateKey_DataType st' self
            = Some (Build_PrivateKey bytes (secp256k1_context_clone (Context_ctx c)))).
Proof.
  intros Hself Hc Hb. simpl.
  destruct (string_at_inv _ _ _ Hb) as (b & ks & iv & -> & Hhb).
  destruct (struct_at_inv _ _ _ _ Hself) as (a & o & -> & Ha & Hu).
  assert (Hlen : length bytes <> 32%nat ->
    PrivateKey_initialize (Obj a) in_context (Obj b) st = (Raised InvalidKeyLength, st)).
  { intros Hl. unfold PrivateKey_initialize. mrun.
    rewrite bool_decide_true by done. reflexivity. }
  assert (Hbad : length bytes = 32%nat ->
    secp256k1_ec_seckey_verify (Context_ctx c) bytes <> 1 ->
    PrivateKey_initialize (Obj a) in_context (Obj b) st = (Raised InvalidPrivateKey, st)).
  { intros Hl Hv. unfold PrivateKey_initialize. mrun.
    rewrite bool_decide_false by (intros ?; done).
    mrun. rewrite take_ge by lia. rewrite bool_decide_true by done. reflexivity. }
  repeat split; try assumption.
  - intros Hl Hrange. apply Hbad; [done|]. intros Hv.
    apply seckey_verify_range in Hv; [|done].
    destruct Hrange as [-> | Hge]; [|lia].
    vm_compute in Hv. destruct Hv as [Hv _]. discriminate.
  - intros Hl Hv. unfold PrivateKey_initialize. mrun.
    rewrite bool_decide_false by (intros ?; done).
    mrun. rewrite take_ge by lia. rewrite bool_decide_false by (intros ?; done).
    mrun. rewrite take_ge by lia.
    mstep ltac:(by apply run_assign_struct).
    mstep ltac:(eapply run_rb_iv_set; by eapply heap_updated_eq).
    rewrite updated_updated. simpl.
    eexists. split; [reflexivity|].
    unfold struct_at. by rewrite (lookup_object_updated_eq _ _ _ _ Ha).
Qed.

End SecretKeys.

Lemma Context_sign_returns st self in_private_key in_data c k m sig :
  struct_at Context_DataType st self = Some c ->
  struct_at PrivateKey_DataType st in_private_key = Some k ->
  string_at st in_data = Some m ->
  secp256k1_ecdsa_sign (Context_ctx c) (SHA256 m) (PrivateKey_data k) None None
  = (1, sig) ->
  Context_sign self in_private_key in_data st =
  (Returned (Obj (length (heap st))),
   allocated st
     (Build_object Secp256k1_Signature_class ∅
        (RData_Signature
           (Build_Signature sig (secp256k1_context_clone (Context_ctx c)))))).
Proof.
  intros Hc Hk Hm Hsign.
  destruct (string_at_inv _ _ _ Hm) as (a & ks & iv & -> & Ha).
  unfold Context_sign, Signature_alloc. mrun.
  mstep ltac:(eapply run_SignData; heap_fact). rewrite Hsign. simpl. mrun.
  reflexivity.
Qed.

Lemma Context_sign_raises st self in_private_key in_data c k m :
  struct_at Context_DataType st self = Some c ->
  struct_at PrivateKey_DataType st in_private_key = Some k ->
  string_at st in_data = Some m ->
  (secp256k1_ecdsa_sign (Context_ctx c) (SHA256 m) (PrivateKey_data k) None None).1
  <> 1 ->
  exists st',
    Context_sign self in_private_key in_data st = (Raised SigningError, st').
Proof.
  intros Hc Hk Hm Hsign.
  destruct (string_at_inv _ _ _ Hm) as (a & ks & iv & -> & Ha).
  unfold Context_sign, Signature_alloc. mrun.
  mstep ltac:(eapply run_SignData; heap_fact).
  rewrite bool_decide_false by done. simpl. mrun. eexists. reflexivity.
Qed.

Lemma Context_verify_accepts st self in_signature in_pubkey in_message c sg p m :
  struct_at Context_DataType st self = Some c ->
  struct_at Signature_DataType st in_signature = Some sg ->
  struct_at PublicKey_DataType st in_pubkey = Some p ->
  string_at st in_message = Some m ->
  secp256k1_ecdsa_verify (Context_ctx c) (Signature_sig sg) (SHA256 m)
    (PublicKey_pubkey p) = 1 ->
  Context_verify self in_signature in_pubkey in_message st = (Returned Qtrue, st).
Proof.
  intros Hc Hs Hp Hm Hv.
  destruct (string_at_inv _ _ _ Hm) as (a & ks & iv & -> & Ha).
  unfold Context_verify. mrun. rewrite firstn_all.
  by rewrite bool_decide_true.
Qed.

(** The constructors, when they succeed: [new] allocates one object, in
    its final form. *)
Lemma run_PrivateKey_new st k in_context in_private_key_data c bytes :
  struct_at Context_DataType st in_context = Some c ->
  string_at st in_private_key_data = Some bytes ->
  length bytes = 32%nat ->
  secp256k1_ec_seckey_verify (Context_ctx c) bytes = 1 ->
  PrivateKey_new k in_context in_private_key_data st =
  (Returned (Obj (length (heap st))),
   allocated st
     (Build_object k {[ "@data" := in_private_key_data ]}
        (RData_PrivateKey
           (Build_PrivateKey bytes (secp256k1_context_clone (Context_ctx c)))))).
Proof.
  intros Hc Hb Hl Hv.
  destruct (string_at_inv _ _ _ Hb) as (b & ks & iv & -> & Hhb).
  unfold PrivateKey_new, PrivateKey_alloc, PrivateKey_initialize. mrun.
  rewrite bool_decide_false by (intros ?; done).
  mrun. rewrite take_ge by lia. rewrite bool_decide_false by (intros ?; done).
  mrun. rewrite take_ge by lia. mrun.
  mstep ltac:(apply run_rb_iv_set_new). mrun. reflexivity.
Qed.

Lemma run_PublicKey_new st k in_context in_private_key c sk :
  struct_at Context_DataType st in_context = Some c ->
  struct_at PrivateKey_DataType st in_private_key = Some sk ->
  let r := secp256k1_ec_pubkey_create (Context_ctx c) (PrivateKey_data sk) in
  r.1 <> 0 ->
  PublicKey_new k in_context in_private_key st =
  (Returned (Obj (length (heap st))),
   allocated st
     (Build_object k ∅
        (RData_PublicKey
           (Build_PublicKey r.2 (secp256k1_context_clone (Context_ctx c)))))).
Proof.
  intros Hc Hk r Hr. subst r.
  unfold PublicKey_new, PublicKey_alloc, PublicKey_initialize. mrun.
  destruct (secp256k1_ec_pubkey_create _ _) as [ret pubkey]. cbn [fst snd] in *.
  mrun. rewrite bool_decide_false by done. mrun. reflexivity.
Qed.

Lemma run_KeyPair_new st k in_public_key in_private_key p sk :
  struct_at PublicKey_DataType st in_public_key = Some p ->
  struct_at PrivateKey_DataType st in_private_key = Some sk ->
  KeyPair_new k in_public_key in_private_key st =
  (Returned (Obj (length (heap st))),
   allocated st
     (Build_object k
        (<[ "@private_key" := in_private_key ]> {[ "@public_key" := in_public_key ]})
        (RData_KeyPair (Build_KeyPair in_public_key in_private_key)))).
Proof.
  intros Hp Hk.
  unfold KeyPair_new, KeyPair_alloc, KeyPair_initialize. mrun.
  mstep ltac:(apply run_rb_iv_set_new). mrun.
  mstep ltac:(apply run_rb_iv_set_new). mrun. reflexivity.
Qed.

Section SignVerify.

(** Contract of the libraries behind signing and verification: a SHA-256
    digest has 32 bytes; signing a 32-byte message hash with a secret key
    that [secp256k1_ec_seckey_verify] accepts, with the default nonce
    function, succeeds; and the signature so made verifies against the
    public key created from the same secret key.  None of this depends on
    which of the extension's contexts is used. *)
Hypothesis SHA256_length : forall m, length (SHA256 m) = 32%nat.

Hypothesis ecdsa_sign_valid_key : forall ctx cv msg32 seckey,
  extension_context ctx -> extension_context cv ->
  length msg32 = 32%nat -> length seckey = 32%nat ->
  secp256k1_ec_seckey_verify cv seckey = 1 ->
  (secp256k1_ecdsa_sign ctx msg32 seckey None None).1 = 1.

Hypothesis ecdsa_verify_sign : forall ctx cd cv msg32 seckey sig pubkey,
  extension_context ctx -> extension_context cd -> extension_context cv ->
  length msg32 = 32%nat -> length seckey = 32%nat ->
  secp256k1_ecdsa_sign ctx msg32 seckey None None = (1, sig) ->
  secp256k1_ec_pubkey_create cd seckey = (1, pubkey) ->
  secp256k1_ecdsa_verify cv sig msg32 pubkey = 1.

(** C6.  Signing a message with the private key of a valid key pair gives a
    signature that verifies against the public key of the pair and the
    same message, whatever initialised context signs and whatever
    initialised context verifies. *)
Theorem sign_then_verify st self in_private_key in_pubkey in_data c m :
  struct_at Context_DataType st self = Some c ->
  extension_context (Context_ctx c) ->
  valid_key_pair st in_private_key in_pubkey ->
  string_at st in_data = Some m ->
  exists signature st',
    Context_sign self in_private_key in_data st = (Returned signature, st')
    /\ forall verifier cv,
         struct_at Context_DataType st' verifier = Some cv ->
         extension_context (Context_ctx cv) ->
         Context_verify verifier signature in_pubkey in_data st'
         = (Returned Qtrue, st').
Proof.
  intros Hc Hctx (k & p & kv & kd & Hk & Hp & Hlen & Hkv & Hvalid & Hkd & Hderive) Hm.
  destruct (secp256k1_ecdsa_sign (Context_ctx c) (SHA256 m) (PrivateKey_data k)
              None None) as [ret sig] eqn:Hsign.
  assert (ret = 1) as ->.
  { change ret with (ret, sig).1. rewrite <- Hsign.
    apply (ecdsa_sign_valid_key (Context_ctx c) kv); auto. }
  do 2 eexists. split.
  - eapply Context_sign_returns; eauto.
  - intros verifier cv Hv Hcv.
    eapply (Context_verify_accepts _ _ _ _ _ cv (Build_Signature sig _) p m).
    + exact Hv.
    + apply struct_at_new. reflexivity.
    + by apply struct_at_allocated.
    + by apply string_at_allocated.
    + simpl.
      apply (ecdsa_verify_sign (Context_ctx c) kd (Context_ctx cv) (SHA256 m)
               (PrivateKey_data k)); auto.
Qed.

(** Contract of [secp256k1_ec_pubkey_create]: it succeeds on a secret key
    that [secp256k1_ec_seckey_verify] accepts. *)
Hypothesis ec_pubkey_create_valid_key : forall ctx cv seckey,
  extension_context ctx -> extension_context cv ->
  length seckey = 32%nat ->
  secp256k1_ec_seckey_verify cv seckey = 1 ->
  (secp256k1_ec_pubkey_create ctx seckey).1 = 1.

(** The key pairs that [Context#key_pair_from_private_key] builds are
    valid key pairs: the pair refers to a private key holding the bytes
    given and to the public key derived from them. *)
Lemma key_pair_from_private_key_valid st self in_private_key_data c bytes :
  struct_at Context_DataType st self = Some c ->
  extension_context (Context_ctx c) ->
  string_at st in_private_key_data = Some bytes ->
  length bytes = 32%nat ->
  secp256k1_ec_seckey_verify (Context_ctx c) bytes = 1 ->
  let n := length (heap st) in
  exists st',
    Context_key_pair_from_private_key self in_private_key_data st
    = (Returned (Obj (2 + n)), st')
    /\ struct_at KeyPair_DataType st' (Obj (2 + n))
       = Some (Build_KeyPair (Obj (1 + n)) (Obj n))
    /\ valid_key_pair st' (Obj n) (Obj (1 + n))
    /\ (forall v o, lookup_object v st = Some o -> lookup_object v st' = Some o).
Proof.
  intros Hc Hctx Hb Hl Hv n.
  pose proof (ec_pubkey_create_valid_key _ _ bytes Hctx Hctx Hl Hv) as Hcreate.
  destruct (secp256k1_ec_pubkey_create (Context_ctx c) bytes) as [ret pubkey] eqn:Hpub.
  cbn [fst] in Hcreate. subst ret.
  unfold Context_key_pair_from_private_key.
  mstep ltac:(eapply run_PrivateKey_new; eauto).
  set (st1 := allocated st _).
  assert (Hsk : struct_at PrivateKey_DataType st1 (Obj n)
                = Some (Build_PrivateKey bytes (secp256k1_context_clone (Context_ctx c))))
    by (apply struct_at_new; reflexivity).
  mstep ltac:(eapply (run_PublicKey_new st1 _ self (Obj n));
              [by apply struct_at_allocated | exact Hsk
              | cbn [PrivateKey_data]; rewrite Hpub; discriminate]).
  cbn [PrivateKey_data]. rewrite Hpub. cbn [snd].
  set (st2 := allocated st1 _).
  assert (Hn1 : length (heap st1) = (1 + n)%nat).
  { unfold st1. cbn [heap allocated]. rewrite length_app. cbn [length]. lia. }
  assert (Hn2 : length (heap st2) = (2 + n)%nat).
  { unfold st2. cbn [heap allocated]. rewrite length_app, Hn1. cbn [length]. lia. }
  rewrite Hn1.
  assert (Hpk : struct_at PublicKey_DataType st2 (Obj (1 + n))
                = Some (Build_PublicKey pubkey
                          (secp256k1_context_clone (Context_ctx c)))).
  { rewrite <- Hn1. apply struct_at_new. reflexivity. }
  mstep ltac:(eapply (run_KeyPair_new st2 _ (Obj (1 + n)) (Obj n));
              [exact Hpk | by apply struct_at_allocated]).
  rewrite Hn2. mrun. eexists. split; [reflexivity|].
  split; [rewrite <- Hn2; apply struct_at_new; reflexivity|]. split.
  - exists (Build_PrivateKey bytes (secp256k1_context_clone (Context_ctx c))),
           (Build_PublicKey pubkey (secp256k1_context_clone (Context_ctx c))),
           (Context_ctx c), (Context_ctx c).
    split; [by do 2 apply struct_at_allocated|].
    split; [by apply struct_at_allocated|].
    cbn [PrivateKey_data PublicKey_pubkey]. done.
  - intros v o Ho. by do 3 apply lookup_object_allocated.
Qed.

End SignVerify.

Lemma run_Signature_der_encoded st self sg :
  struct_at Signature_DataType st self = Some sg ->
  let r := secp256k1_ecdsa_signature_serialize_der (Signature_ctx sg)
             (resize 512 x00 (stack st)) 512 (Signature_sig sg) in
  Signature_der_encoded self st =
  if bool_decide (r.1.1 <> 1) then
    (Raised (Exception rb_eRuntimeError "could not compute DER encoded signature"), st)
  else
    (Returned (Obj (length (heap st))),
     allocated st (Build_object rb_cString ∅ (RString (take r.2 r.1.2)))).
Proof.
  intros Hs. simpl. unfold Signature_der_encoded. mrun.
  destruct (secp256k1_ecdsa_signature_serialize_der _ _ _ _) as [[ret out] len].
  simpl. case_bool_decide; reflexivity.
Qed.

Lemma run_Signature_compact st self sg :
  struct_at Signature_DataType st self = Some sg ->
  let r := secp256k1_ecdsa_signature_serialize_compact (Signature_ctx sg)
             (Signature_sig sg) in
  Signature_compact self st =
  if bool_decide (r.1 <> 1) then
    (Raised (Exception rb_eRuntimeError "unable to compute compact signature"), st)
  else
    (Returned (Obj (length (heap st))),
     allocated st
       (Build_object rb_cString ∅ (RString (take COMPACT_SIG_SIZE_BYTES r.2)))).
Proof.
  intros Hs. simpl. unfold Signature_compact. mrun.
  destruct (secp256k1_ecdsa_signature_serialize_compact _ _) as [ret out].
  simpl. case_bool_decide; reflexivity.
Qed.

Lemma result_bytes_der_encoded st self sg :
  struct_at Signature_DataType st self = Some sg ->
  let r := secp256k1_ecdsa_signature_serialize_der (Signature_ctx sg)
             (resize 512 x00 (stack st)) 512 (Signature_sig sg) in
  result_bytes (Signature_der_encoded self st) =
  if bool_decide (r.1.1 <> 1) then
    Raised (Exception rb_eRuntimeError "could not compute DER encoded signature")
  else Returned (Some (take r.2 r.1.2)).
Proof.
  intros Hs. simpl. rewrite (run_Signature_der_encoded _ _ _ Hs). simpl.
  case_bool_decide; [reflexivity|].
  unfold result_bytes. simpl. by rewrite string_at_new.
Qed.

Lemma result_bytes_compact st self sg :
  struct_at Signature_DataType st self = Some sg ->
  let r := secp256k1_ecdsa_signature_serialize_compact (Signature_ctx sg)
             (Signature_sig sg) in
  result_bytes (Signature_compact self st) =
  if bool_decide (r.1 <> 1) then
    Raised (Exception rb_eRuntimeError "unable to compute compact signature")
  else Returned (Some (take COMPACT_SIG_SIZE_BYTES r.2)).
Proof.
  intros Hs. simpl. rewrite (run_Signature_compact _ _ _ Hs). simpl.
  case_bool_decide; [reflexivity|].
  unfold result_bytes. simpl. by rewrite string_at_new.
Qed.

Section AcrossContexts.

(** Contract of the library on contexts: a context only carries blinding
    and callbacks.  Signing with the default nonce function gives the same
    result under any two of the extension's contexts, and the
    serialisations depend on the signature alone: not on the context, and
    not on what the output buffer held. *)
Hypothesis ecdsa_sign_any_context : forall c1 c2 msg32 seckey,
  extension_context c1 -> extension_context c2 ->
  secp256k1_ecdsa_sign c1 msg32 seckey None None
  = secp256k1_ecdsa_sign c2 msg32 seckey None None.

Hypothesis serialize_compact_any_context : forall c1 c2 sig,
  extension_context c1 -> extension_context c2 ->
  secp256k1_ecdsa_signature_serialize_compact c1 sig
  = secp256k1_ecdsa_signature_serialize_compact c2 sig.

Hypothesis serialize_der_any_context : forall c1 c2 out1 out2 len sig,
  extension_context c1 -> extension_context c2 ->
  length out1 = length out2 ->
  let r1 := secp256k1_ecdsa_signature_serialize_der c1 out1 len sig in
  let r2 := secp256k1_ecdsa_signature_serialize_der c2 out2 len sig in
  r1.1.1 = r2.1.1 /\ (r1.1.1 = 1 -> r1.2 = r2.2 /\ take r1.2 r1.1.2 = take r2.2 r2.1.2).

(** C10.  Two contexts created and randomized by the extension, in the
    same run or in two different ones, sign the same message with the same
    private key bytes in the same way: both calls raise the signing error,
    or both return a Signature holding the same library signature, whose
    DER and compact encodings are then the same byte strings. *)
Theorem Context_sign_same_across_contexts
    stA stB selfA selfB keyA keyB dataA dataB cA cB kA kB m :
  struct_at Context_DataType stA selfA = Some cA ->
  extension_context (Context_ctx cA) ->
  struct_at Context_DataType stB selfB = Some cB ->
  extension_context (Context_ctx cB) ->
  struct_at PrivateKey_DataType stA keyA = Some kA ->
  struct_at PrivateKey_DataType stB keyB = Some kB ->
  PrivateKey_data kA = PrivateKey_data kB ->
  string_at stA dataA = Some m ->
  string_at stB dataB = Some m ->
  let rA := Context_sign selfA keyA dataA stA in
  let rB := Context_sign selfB keyB dataB stB in
  result_signature rA = result_signature rB
  /\ (result_signature rA = Raised SigningError
      \/ exists sig, result_signature rA = Returned (Some sig))
  /\ forall sA sB,
       rA.1 = Returned sA -> rB.1 = Returned sB ->
       result_bytes (Signature_der_encoded sA rA.2)
       = result_bytes (Signature_der_encoded sB rB.2)
       /\ result_bytes (Signature_compact sA rA.2)
          = result_bytes (Signature_compact sB rB.2).
Proof.
  intros HcA HA HcB HB HkA HkB Hdata HmA HmB. simpl.
  destruct (secp256k1_ecdsa_sign (Context_ctx cA) (SHA256 m) (PrivateKey_data kA)
              None None) as [ret sig] eqn:HsA.
  assert (HsB : secp256k1_ecdsa_sign (Context_ctx cB) (SHA256 m) (PrivateKey_data kB)
                  None None = (ret, sig)).
  { rewrite <- Hdata, <- HsA. by apply ecdsa_sign_any_context. }
  destruct (decide (ret = 1)) as [-> | Hret].
  - rewrite (Context_sign_returns _ _ _ _ _ _ _ _ HcA HkA HmA HsA).
    rewrite (Context_sign_returns _ _ _ _ _ _ _ _ HcB HkB HmB HsB).
    unfold result_signature. simpl. erewrite !struct_at_new by reflexivity. simpl.
    split; [reflexivity|]. split; [right; eauto|].
    intros sA sB [= <-] [= <-].
    pose proof (context_cloned _ HA) as HA'.
    pose proof (context_cloned _ HB) as HB'.
    erewrite !result_bytes_der_encoded by (apply struct_at_new; reflexivity).
    erewrite !result_bytes_compact by (apply struct_at_new; reflexivity).
    simpl.
    rewrite (serialize_compact_any_context _ _ sig HA' HB'). split; [|reflexivity].
    destruct (serialize_der_any_context _ _ (resize 512 x00 (stack stA))
                (resize 512 x00 (stack stB)) 512%nat sig HA' HB') as [Hr Hout].
    { by rewrite !length_resize. }
    rewrite <- Hr. case_bool_decide as Hd; [reflexivity|].
    destruct Hout as [Hlen Htake].
    { destruct (decide ((secp256k1_ecdsa_signature_serialize_der
         (secp256k1_context_clone (Context_ctx cA))
         (resize 512 x00 (stack stA)) 512 sig).1.1 = 1)); [done|]. by destruct Hd. }
    by rewrite Htake.
  - destruct (Context_sign_raises _ _ _ _ _ _ _ HcA HkA HmA) as [stA' ->].
    { by rewrite HsA. }
    destruct (Context_sign_raises _ _ _ _ _ _ _ HcB HkB HmB) as [stB' ->].
    { by rewrite HsB. }
    split; [reflexivity|]. split; [by left|]. intros sA sB [=].
Qed.

End AcrossContexts.

Definition signature_object (sig : secp256k1_ecdsa_signature)
    (ctx : option secp256k1_context) : rb_object :=
  Build_object Secp256k1_Signature_class ∅ (RData_Signature (Build_Signature sig ctx)).

Lemma run_Context_signature_from_compact st self in_compact_signature c m :
  struct_at Context_DataType st self = Some c ->
  string_at st in_compact_signature = Some m ->
  (64 <= length m)%nat ->
  let r := secp256k1_ecdsa_signature_parse_compact (Context_ctx c) (take 64 m) in
  Context_signature_from_compact self in_compact_signature st =
  if bool_decide (r.1 <> 1) then
    (Raised InvalidCompactSignature, allocated st (signature_object r.2 None))
  else
    (Returned (Obj (length (heap st))),
     allocated st
       (signature_object r.2 (secp256k1_context_clone (Context_ctx c)))).
Proof.
  intros Hc Hm Hlen. simpl.
  destruct (string_at_inv _ _ _ Hm) as (a & ks & iv & -> & Ha).
  unfold Context_signature_from_compact, Signature_alloc. mrun.
  destruct (secp256k1_ecdsa_signature_parse_compact _ _) as [ret sig]. simpl.
  mrun. case_bool_decide; mrun; reflexivity.
Qed.

Lemma run_Context_signature_from_compact_short st self in_compact_signature c m :
  struct_at Context_DataType st self = Some c ->
  string_at st in_compact_signature = Some m ->
  (length m < 64)%nat ->
  Context_signature_from_compact self in_compact_signature st =
  (Undefined (OutOfBoundsRead 64 (length m)),
   allocated st (signature_object signature_zero None)).
Proof.
  intros Hc Hm Hlen.
  destruct (string_at_inv _ _ _ Hm) as (a & ks & iv & -> & Ha).
  unfold Context_signature_from_compact, Signature_alloc. mrun.
  erewrite run_bind_undefined; [reflexivity|].
  eapply run_read_bytes_beyond; [heap_fact | done].
Qed.

Lemma run_Context_signature_from_der_encoded st self in_der_encoded_signature c m :
  struct_at Context_DataType st self = Some c ->
  string_at st in_der_encoded_signature = Some m ->
  let r := secp256k1_ecdsa_signature_parse_der (Context_ctx c) m (length m) in
  Context_signature_from_der_encoded self in_der_encoded_signature st =
  if bool_decide (r.1 <> 1) then
    (Raised InvalidDEREncoding, allocated st (signature_object r.2 None))
  else
    (Returned (Obj (length (heap st))),
     allocated st
       (signature_object r.2 (secp256k1_context_clone (Context_ctx c)))).
Proof.
  intros Hc Hm. simpl.
  destruct (string_at_inv _ _ _ Hm) as (a & ks & iv & -> & Ha).
  unfold Context_signature_from_der_encoded, Signature_alloc. mrun.
  rewrite firstn_all.
  destruct (secp256k1_ecdsa_signature_parse_der _ _ _) as [ret sig]. simpl.
  mrun. case_bool_decide; mrun; reflexivity.
Qed.

Section Codecs.

(** Contract of the library's signature codecs.  The compact form of a
    signature is its two scalars, 32 bytes each, big endian, R first; parsing
    that form gives back the scalars.  DER serialisation into a buffer with
    room for the longest encoding (72 bytes) succeeds, and parsing what it
    wrote gives back the scalars. *)
Hypothesis serialize_compact_spec : forall ctx sig,
  extension_context ctx ->
  secp256k1_ecdsa_signature_serialize_compact ctx sig
  = (1, be_encode 32 (signature_r sig) ++ be_encode 32 (signature_s sig)).

Hypothesis parse_compact_serialized : forall ctx sig,
  extension_context ctx ->
  exists sig',
    secp256k1_ecdsa_signature_parse_compact ctx
      (be_encode 32 (signature_r sig) ++ be_encode 32 (signature_s sig))
    = (1, sig')
    /\ signature_r sig' = signature_r sig
    /\ signature_s sig' = signature_s sig.

Hypothesis der_round_trip : forall c1 c2 output outputlen sig,
  extension_context c1 -> extension_context c2 ->
  (72 <= outputlen)%nat -> length output = outputlen ->
  let r := secp256k1_ecdsa_signature_serialize_der c1 output outputlen sig in
  let der := take r.2 r.1.2 in
  r.1.1 = 1
  /\ exists sig',
       secp256k1_ecdsa_signature_parse_der c2 der (length der) = (1, sig')
       /\ signature_r sig' = signature_r sig
       /\ signature_s sig' = signature_s sig.

(** C7.  A signature object serialised to DER and parsed back, and
    serialised to the compact form and parsed back, gives in both cases a
    signature object with the same two scalars; and the compact form is
    the 64-byte string made of R then S, 32 bytes each, big endian. *)
Theorem signature_round_trip st self context sg c :
  struct_at Signature_DataType st self = Some sg ->
  extension_context (Signature_ctx sg) ->
  struct_at Context_DataType st context = Some c ->
  extension_context (Context_ctx c) ->
  let r := signature_r (Signature_sig sg) in
  let s := signature_s (Signature_sig sg) in
  let same_scalars st' v :=
    exists sg',
      struct_at Signature_DataType st' v = Some sg'
      /\ signature_r (Signature_sig sg') = r
      /\ signature_s (Signature_sig sg') = s in
  (exists der st1 parsed st2,
     Signature_der_encoded self st = (Returned der, st1)
     /\ Context_signature_from_der_encoded context der st1 = (Returned parsed, st2)
     /\ same_scalars st2 parsed)
  /\ (exists compact st1 parsed st2,
        Signature_compact self st = (Returned compact, st1)
        /\ string_at st1 compact = Some (be_encode 32 r ++ be_encode 32 s)
        /\ length (be_encode 32 r ++ be_encode 32 s) = 64%nat
        /\ Context_signature_from_compact context compact st1 = (Returned parsed, st2)
        /\ same_scalars st2 parsed).
Proof.
  intros Hs Hsc Hc Hcc. simpl. split.
  - destruct (der_round_trip _ _ (resize 512 x00 (stack st)) 512%nat
                (Signature_sig sg) Hsc Hcc) as (Hret & sig' & Hparse & Hr & Hs');
      [lia | by rewrite length_resize |].
    do 4 eexists. split; [|split].
    + rewrite (run_Signature_der_encoded _ _ _ Hs). simpl.
      rewrite bool_decide_false by (intros ?; done). reflexivity.
    + erewrite run_Context_signature_from_der_encoded;
        [| by apply struct_at_allocated | by apply string_at_new].
      simpl. rewrite Hparse. simpl. reflexivity.
    + eexists. split; [apply struct_at_new; reflexivity|]. done.
  - destruct (parse_compact_serialized _ (Signature_sig sg) Hcc)
      as (sig' & Hparse & Hr & Hs').
    assert (Hlen : length (be_encode 32 (signature_r (Signature_sig sg)) ++
                           be_encode 32 (signature_s (Signature_sig sg))) = 64%nat).
    { by rewrite length_app, !length_be_encode. }
    do 4 eexists. split; [|split; [|split; [|split]]].
    + rewrite (run_Signature_compact _ _ _ Hs). cbv zeta.
      rewrite serialize_compact_spec by done. cbn [fst snd].
      rewrite bool_decide_false by (intros ?; done). reflexivity.
    + rewrite string_at_new, take_ge; [reflexivity|].
      rewrite Hlen. unfold COMPACT_SIG_SIZE_BYTES. lia.
    + exact Hlen.
    + erewrite run_Context_signature_from_compact;
        [| by apply struct_at_allocated | by apply string_at_new | ].
      * cbv zeta.
        rewrite !take_ge
          by (rewrite ?length_take, ?Hlen; unfold COMPACT_SIG_SIZE_BYTES; lia).
        rewrite Hparse. cbn [fst snd].
        rewrite bool_decide_false by (intros ?; done). reflexivity.
      * rewrite length_take, Hlen. unfold COMPACT_SIG_SIZE_BYTES. lia.
    + eexists. split; [apply struct_at_new; reflexivity|]. done.
Qed.

End Codecs.

Lemma run_PublicKey_initialize st self in_context in_private_key p0 c k :
  struct_at PublicKey_DataType st self = Some p0 ->
  struct_at Context_DataType st in_context = Some c ->
  struct_at PrivateKey_DataType st in_private_key = Some k ->
  let r := secp256k1_ec_pubkey_create (Context_ctx c) (PrivateKey_data k) in
  exists st',
    PublicKey_initialize self in_context in_private_key st
    = (if bool_decide (r.1 = 0) then Raised KeyDerivationError else Returned self, st')
    /\ PublicKey_pubkey <$> struct_at PublicKey_DataType st' self = Some r.2.
Proof.
  intros Hp Hc Hk. simpl.
  destruct (struct_at_inv _ _ _ _ Hp) as (a & o & -> & Ha & Hu).
  unfold PublicKey_initialize. mrun.
  destruct (secp256k1_ec_pubkey_create _ _) as [ret pubkey]. simpl.
  mstep ltac:(by apply run_assign_struct).
  case_bool_decide.
  - eexists. split; [reflexivity|].
    unfold struct_at. by rewrite (lookup_object_updated_eq _ _ _ _ Ha).
  - mstep ltac:(eapply run_assign_struct; by eapply heap_updated_eq).
    rewrite updated_updated. eexists. split; [reflexivity|].
    unfold struct_at. by rewrite (lookup_object_updated_eq _ _ _ _ Ha).
Qed.

Lemma result_signature_sign st self in_private_key in_data c k m :
  struct_at Context_DataType st self = Some c ->
  struct_at PrivateKey_DataType st in_private_key = Some k ->
  string_at st in_data = Some m ->
  let r := secp256k1_ecdsa_sign (Context_ctx c) (SHA256 m) (PrivateKey_data k)
             None None in
  result_signature (Context_sign self in_private_key in_data st)
  = if bool_decide (r.1 = 1) then Returned (Some r.2) else Raised SigningError.
Proof.
  intros Hc Hk Hm. simpl.
  destruct (secp256k1_ecdsa_sign _ _ _ _ _) as [ret sig] eqn:Hsign. simpl.
  case_bool_decide as Hret.
  - subst ret. rewrite (Context_sign_returns _ _ _ _ _ _ _ _ Hc Hk Hm Hsign).
    unfold result_signature. simpl. by erewrite struct_at_new by reflexivity.
  - destruct (Context_sign_raises _ _ _ _ _ _ _ Hc Hk Hm) as [st' ->]; [|done].
    by rewrite Hsign.
Qed.

(** C9, as the code has it.  A private key built from a byte string keeps
    its own copy of the 32 bytes: whatever the caller's string is changed
    to afterwards, the structure still holds the original bytes, and those
    are the bytes that signing and public key derivation pass to the
    library.  The [data] reader, however, returns the caller's string
    object itself, so it shows the string's current bytes. *)
Theorem PrivateKey_copies_key_bytes st self in_context in_private_key_data pk0 c bytes :
  struct_at PrivateKey_DataType st self = Some pk0 ->
  struct_at Context_DataType st in_context = Some c ->
  string_at st in_private_key_data = Some bytes ->
  length bytes = 32%nat ->
  secp256k1_ec_seckey_verify (Context_ctx c) bytes = 1 ->
  exists st1,
    PrivateKey_initialize self in_context in_private_key_data st = (Returned self, st1)
    /\ forall new_bytes,
         let st2 := mutate_string in_private_key_data new_bytes st1 in
         struct_at PrivateKey_DataType st2 self
         = Some (Build_PrivateKey bytes (secp256k1_context_clone (Context_ctx c)))
         /\ (forall signer in_data cs m,
                struct_at Context_DataType st2 signer = Some cs ->
                string_at st2 in_data = Some m ->
                let r := secp256k1_ecdsa_sign (Context_ctx cs) (SHA256 m) bytes
                           None None in
                result_signature (Context_sign signer self in_data st2)
                = if bool_decide (r.1 = 1) then Returned (Some r.2)
                  else Raised SigningError)
         /\ (forall public_key deriver p0 cd,
                struct_at PublicKey_DataType st2 public_key = Some p0 ->
                struct_at Context_DataType st2 deriver = Some cd ->
                let r := secp256k1_ec_pubkey_create (Context_ctx cd) bytes in
                exists st3,
                  PublicKey_initialize public_key deriver self st2
                  = (if bool_decide (r.1 = 0) then Raised KeyDerivationError
                     else Returned public_key, st3)
                  /\ PublicKey_pubkey <$> struct_at PublicKey_DataType st3 public_key
                     = Some r.2)
         /\ exposed_data st2 self = Some new_bytes.
Proof.
  intros Hself Hc Hb Hl Hv.
  destruct (string_at_inv _ _ _ Hb) as (b & ks & iv & -> & Hhb).
  destruct (struct_at_inv _ _ _ _ Hself) as (a & o & -> & Ha & Hu).
  assert (Hab : a <> b).
  { intros ->. rewrite Hhb in Ha. injection Ha as <-. discriminate. }
  unfold PrivateKey_initialize. mrun.
  rewrite bool_decide_false by (intros ?; done).
  mrun. rewrite take_ge by lia. rewrite bool_decide_false by (intros ?; done).
  mrun. rewrite take_ge by lia.
  mstep ltac:(by apply run_assign_struct).
  mstep ltac:(eapply run_rb_iv_set; by eapply heap_updated_eq).
  rewrite updated_updated. cbn [klass ivars payload].
  eexists. split; [reflexivity|]. intros new_bytes.
  set (o1 := Build_object _ _ _).
  assert (Hb1 : heap (updated st a o1) !! b = Some (Build_object ks iv (RString bytes))).
  { simpl. rewrite list_lookup_insert_ne by done. exact Hhb. }
  unfold mutate_string. rewrite Hb1. simpl.
  set (st2 := updated (updated st a o1) b _).
  assert (Hkey : struct_at PrivateKey_DataType st2 (Obj a)
                 = Some (Build_PrivateKey bytes (secp256k1_context_clone (Context_ctx c)))).
  { unfold struct_at, st2. rewrite lookup_object_updated_ne by congruence.
    by rewrite (lookup_object_updated_eq _ _ _ _ Ha). }
  split; [exact Hkey|]. split; [|split].
  - intros signer in_data cs m Hcs Hm.
    apply (result_signature_sign _ _ _ _ _ _ _ Hcs Hkey Hm).
  - intros public_key deriver p0 cd Hp0 Hcd.
    apply (run_PublicKey_initialize _ _ _ _ _ _ _ Hp0 Hcd Hkey).
  - unfold exposed_data, PrivateKey_data_reader, rb_iv_get.
    erewrite run_bind by apply run_get_state.
    unfold st2 at 1. rewrite lookup_object_updated_ne by congruence.
    rewrite (lookup_object_updated_eq _ _ _ _ Ha). unfold o1 at 1. simpl.
    rewrite lookup_insert_eq. simpl.
    unfold string_at, st2. by rewrite (lookup_object_updated_eq _ _ _ _ Hb1).
Qed.

(** [GenerateRandomBytes] never raises: it returns a result and leaves the
    buffer as the generator left it (untouched when the generator is not
    seeded). *)
Lemma run_GenerateRandomBytes st out_bytes in_size :
  let g := RAND_bytes (rand st) out_bytes in_size in
  GenerateRandomBytes out_bytes in_size st =
  if bool_decide (RAND_status (rand st) = 0) then
    (Returned (RESULT_FAILURE, out_bytes), st)
  else
    (Returned (if bool_decide (g.1.1 <> 1) then RESULT_FAILURE else RESULT_SUCCESS,
               g.1.2),
     Build_State (heap st) g.2 (stack st)).
Proof.
  cbv zeta. unfold GenerateRandomBytes. mrun.
  case_bool_decide; [reflexivity|].
  destruct (RAND_bytes _ _ _) as [[ret out] r]. cbn [fst snd].
  unfold set_rand. mrun. case_bool_decide; reflexivity.
Qed.

(** What [Context_initialize] does with the result of
    [GenerateRandomBytes]: nothing.  The seed handed to the library is
    whatever the seed array holds after the call (what the stack held, when
    the generator is not seeded), and only the return code of
    [secp256k1_context_randomize] decides between returning and raising. *)
Lemma Context_initialize_outcome st self c :
  struct_at Context_DataType st self = Some c ->
  let created :=
    secp256k1_context_create (Z.lor SECP256K1_CONTEXT_SIGN SECP256K1_CONTEXT_VERIFY) in
  let local := resize 32 x00 (stack st) in
  let seed :=
    if bool_decide (RAND_status (rand st) = 0) then local
    else (RAND_bytes (rand st) local 32).1.2 in
  let r := secp256k1_context_randomize created seed in
  exists st',
    Context_initialize self st
    = (if bool_decide (r.1 <> 1) then Raised RandomizationError else Returned self, st')
    /\ struct_at Context_DataType st' self = Some (Build_Context r.2).
Proof.
  intros Hc. cbv zeta.
  destruct (struct_at_inv _ _ _ _ Hc) as (a & o & -> & Ha & Hu).
  unfold Context_initialize. mrun.
  mstep ltac:(by apply run_assign_struct).
  unfold mbind at 1, M_bind at 1. rewrite run_GenerateRandomBytes.
  cbn [rand stack heap updated].
  case_bool_decide as Hseeded.
  - destruct (secp256k1_context_randomize _ _) as [ret ctx]. cbn [fst snd].
    mstep ltac:(eapply run_assign_struct; by eapply heap_updated_eq).
    rewrite updated_updated. cbn [klass ivars].
    eexists. split.
    + case_bool_decide; reflexivity.
    + unfold struct_at. by rewrite (lookup_object_updated_eq _ _ _ _ Ha).
  - destruct (RAND_bytes _ _ _) as [[code out] rnd]. cbn [fst snd].
    destruct (secp256k1_context_randomize _ _) as [ret ctx]. cbn [fst snd].
    set (st1 := Build_State _ _ _).
    assert (H1 : heap st1 !! a = Some (Build_object (klass o) (ivars o)
                   (wrap Context_DataType
                      (Build_Context
                         (secp256k1_context_create
                            (Z.lor SECP256K1_CONTEXT_SIGN SECP256K1_CONTEXT_VERIFY)))))).
    { unfold st1. cbn [heap]. apply list_lookup_insert_eq. by eapply lookup_lt_Some. }
    mstep ltac:(eapply run_assign_struct; exact H1).
    eexists. split.
    + case_bool_decide; reflexivity.
    + unfold struct_at, st1, updated. cbn [lookup_object heap].
      rewrite list_insert_insert_eq.
      rewrite list_lookup_insert_eq by (by eapply lookup_lt_Some). reflexivity.
Qed.

(** [PrivateKey_generate], by contrast, raises when the generator is not
    seeded. *)
Lemma PrivateKey_generate_unseeded st k in_context :
  RAND_status (rand st) = 0 ->
  PrivateKey_generate k in_context st = (Raised KeyGenerationError, st).
Proof.
  intros H. unfold PrivateKey_generate. mrun.
  unfold mbind at 1, M_bind at 1. rewrite run_GenerateRandomBytes.
  rewrite bool_decide_true by done. reflexivity.
Qed.

(** ** Public keys as byte strings

    The three functions of the extension that go through the library's
    public key codec. *)

Context `{codec : !Secp256k1_ec_pubkey secp256k1_context secp256k1_pubkey}.

(** The uncompressed representation of this public key.  The return code
    of the library is not looked at. *)
Definition PublicKey_uncompressed (self : VALUE) : M VALUE :=
  let serialized_pubkey_len := UNCOMPRESSED_PUBKEY_SIZE_BYTES in
  serialized_pubkey ← uninitialised UNCOMPRESSED_PUBKEY_SIZE_BYTES;
  public_key ← TypedData_Get_Struct self PublicKey_DataType;
  let '(_, serialized_pubkey, serialized_pubkey_len) :=
    secp256k1_ec_pubkey_serialize (PublicKey_ctx public_key)
      serialized_pubkey serialized_pubkey_len (PublicKey_pubkey public_key)
      SECP256K1_EC_UNCOMPRESSED in
  rb_str_new serialized_pubkey serialized_pubkey_len.

(** The compressed representation of this public key. *)
Definition PublicKey_compressed (self : VALUE) : M VALUE :=
  let serialized_pubkey_len := COMPRESSED_PUBKEY_SIZE_BYTES in
  serialized_pubkey ← uninitialised COMPRESSED_PUBKEY_SIZE_BYTES;
  public_key ← TypedData_Get_Struct self PublicKey_DataType;
  let '(_, serialized_pubkey, serialized_pubkey_len) :=
    secp256k1_ec_pubkey_serialize (PublicKey_ctx public_key)
      serialized_pubkey serialized_pubkey_len (PublicKey_pubkey public_key)
      SECP256K1_EC_COMPRESSED in
  rb_str_new serialized_pubkey serialized_pubkey_len.

(** Loads a public key from compressed or uncompressed binary data.  The
    object is made, with its clone of the context, before the data is
    parsed. *)
Definition Context_public_key_from_data (self in_public_key_data : VALUE) : M VALUE :=
  Check_Type in_public_key_data T_STRING;;
  context ← TypedData_Get_Struct self Context_DataType;
  public_key_data ← StringValuePtr in_public_key_data;
  let public_key :=
    Build_PublicKey pubkey_zero (secp256k1_context_clone (Context_ctx context)) in
  result ← TypedData_Wrap_Struct Secp256k1_PublicKey_class PublicKey_DataType public_key;
  len ← RSTRING_LEN in_public_key_data;
  input ← read_bytes public_key_data len;
  let '(ret, pubkey) := secp256k1_ec_pubkey_parse (Context_ctx context) input len in
  assign_struct result PublicKey_DataType
    (Build_PublicKey pubkey (PublicKey_ctx public_key));;
  if bool_decide (ret ≠ 1) then rb_raise rb_eRuntimeError "invalid public key data"
  else mret result.

(** ** Every way a call can end

    [wp m R X U st]: the call [m], made in state [st], returns a result that
    with the state it leaves satisfies [R], or raises an exception that
    with the state satisfies [X], or runs into undefined behaviour, of a
    kind and in a state that satisfy [U]. *)
Definition wp {A} (m : M A) (R : A -> State -> Prop)
    (X : rb_exception -> State -> Prop)
    (U : undefined_behaviour -> State -> Prop) (st : State) : Prop :=
  match m st with
  | (Returned a, st') => R a st'
  | (Raised e, st') => X e st'
  | (Undefined u, st') => U u st'
  end.

Lemma wp_ret {A} (a : A) R X U st : R a st -> wp (mret a) R X U st.
Proof. done. Qed.

Lemma wp_bind {A B} (m : M A) (f : A -> M B) R X U st :
  wp m (fun a st' => wp (f a) R X U st') X U st -> wp (m ≫= f) R X U st.
Proof. unfold wp, mbind, M_bind. by destruct (m st) as [[a|e|u] st']. Qed.

Lemma wp_mono {A} (m : M A) (R R' : A -> State -> Prop) X X' U U' st :
  wp m R X U st ->
  (forall a st', R a st' -> R' a st') ->
  (forall e st', X e st' -> X' e st') ->
  (forall u st', U u st' -> U' u st') ->
  wp m R' X' U' st.
Proof. unfold wp. destruct (m st) as [[a|e|u] st']; auto. Qed.

Lemma wp_rb_raise {A} c mesg (R : A -> State -> Prop) X U st :
  X (Exception c mesg) st -> wp (rb_raise c mesg) R X U st.
Proof. done. Qed.

Lemma wp_Check_Type_string v R X U st :
  (forall m, string_at st v = Some m -> R tt st) ->
  (string_at st v = None -> X (Exception rb_eTypeError "wrong argument type") st) ->
  (forall a, v = Obj a -> heap st !! a = None -> U InvalidPointer st) ->
  wp (Check_Type v T_STRING) R X U st.
Proof.
  intros HR HX HU. unfold wp, Check_Type, string_at in *.
  erewrite run_bind by apply run_get_state.
  destruct v as [| | |a]; simpl in *; try (by apply HX).
  destruct (heap st !! a) as [[k iv p]|] eqn:E; simpl in *; [|by eapply HU].
  destruct p; simpl in *; try (by apply HX). by eapply HR.
Qed.

Lemma wp_rb_check_typeddata {S} v (dt : rb_data_type_t S) R X U st :
  (forall s, struct_at dt st v = Some s -> R s st) ->
  (struct_at dt st v = None -> X (Exception rb_eTypeError "wrong argument type") st) ->
  (forall a, v = Obj a -> heap st !! a = None -> U InvalidPointer st) ->
  wp (rb_check_typeddata v dt) R X U st.
Proof.
  intros HR HX HU. unfold wp, rb_check_typeddata, struct_at in *.
  erewrite run_bind by apply run_get_state.
  destruct v as [| | |a]; simpl in *; try (by apply HX).
  destruct (heap st !! a) as [o|] eqn:E; simpl in *; [|by eapply HU].
  destruct (unwrap dt (payload o)) as [s|] eqn:Es; [by apply HR | by apply HX].
Qed.

Lemma wp_TypedData_Get_Struct {S} v (dt : rb_data_type_t S) R X U st :
  (forall s, struct_at dt st v = Some s -> R s st) ->
  (struct_at dt st v = None -> X (Exception rb_eTypeError "wrong argument type") st) ->
  (forall a, v = Obj a -> heap st !! a = None -> U InvalidPointer st) ->
  wp (TypedData_Get_Struct v dt) R X U st.
Proof. apply wp_rb_check_typeddata. Qed.

Lemma wp_Check_TypedStruct {S} v (dt : rb_data_type_t S) R X U st :
  (forall s, struct_at dt st v = Some s -> R tt st) ->
  (struct_at dt st v = None -> X (Exception rb_eTypeError "wrong argument type") st) ->
  (forall a, v = Obj a -> heap st !! a = None -> U InvalidPointer st) ->
  wp (Check_TypedStruct v dt) R X U st.
Proof.
  intros HR HX HU. unfold Check_TypedStruct. apply wp_bind.
  apply wp_rb_check_typeddata; auto.
Qed.

Lemma wp_StringValuePtr v R X U st :
  (forall a m, v = Obj a -> string_at st v = Some m -> R a st) ->
  (string_at st v = None ->
   X (Exception rb_eTypeError "no implicit conversion into String") st) ->
  (forall a, v = Obj a -> heap st !! a = None -> U InvalidPointer st) ->
  wp (StringValuePtr v) R X U st.
Proof.
  intros HR HX HU. unfold wp, StringValuePtr, string_at in *.
  erewrite run_bind by apply run_get_state.
  destruct v as [| | |a]; simpl in *; try (by apply HX).
  destruct (heap st !! a) as [[k iv p]|] eqn:E; simpl in *; [|by eapply HU].
  destruct p; simpl in *; try (by apply HX). by eapply HR.
Qed.

Lemma wp_RSTRING_LEN v R X U st :
  (forall m, string_at st v = Some m -> R (length m) st) ->
  (string_at st v = None -> U InvalidPointer st) ->
  wp (RSTRING_LEN v) R X U st.
Proof.
  intros HR HU. unfold wp, RSTRING_LEN, string_at in *.
  erewrite run_bind by apply run_get_state.
  destruct (lookup_object v st) as [[k iv p]|]; simpl in *; [|by apply HU].
  destruct p; simpl in *; try (by apply HU). by apply HR.
Qed.

Lemma wp_read_bytes ptr n R X U st :
  (forall m, string_at st (Obj ptr) = Some m -> (n <= length m)%nat ->
             R (take n m) st) ->
  (forall m, string_at st (Obj ptr) = Some m -> (length m < n)%nat ->
             U (OutOfBoundsRead n (length m)) st) ->
  (string_at st (Obj ptr) = None -> U InvalidPointer st) ->
  wp (read_bytes ptr n) R X U st.
Proof.
  intros HR HO HU. unfold wp, read_bytes, string_at in *.
  erewrite run_bind by apply run_get_state. simpl in *.
  destruct (heap st !! ptr) as [[k iv p]|]; simpl in *; [|by apply HU].
  destruct p; simpl in *; try (by apply HU).
  case_bool_decide; [by apply HR | apply HO; [done | lia]].
Qed.

Lemma wp_assign_struct {S} v (dt : rb_data_type_t S) s R X U st :
  (forall a o, v = Obj a -> heap st !! a = Some o ->
               R tt (updated st a (Build_object (klass o) (ivars o) (wrap dt s)))) ->
  (lookup_object v st = None -> U InvalidPointer st) ->
  wp (assign_struct v dt s) R X U st.
Proof.
  intros HR HU. unfold wp, assign_struct.
  erewrite run_bind by apply run_get_state.
  destruct v as [| | |a]; simpl in *; try (by apply HU).
  destruct (heap st !! a) as [o|] eqn:E; [by eapply HR | by apply HU].
Qed.

Lemma wp_rb_iv_set v name x R X U st :
  (forall a o, v = Obj a -> heap st !! a = Some o ->
               R x (updated st a
                      (Build_object (klass o) (<[name := x]> (ivars o)) (payload o)))) ->
  (lookup_object v st = None -> U InvalidPointer st) ->
  wp (rb_iv_set v name x) R X U st.
Proof.
  intros HR HU. unfold wp, rb_iv_set.
  erewrite run_bind by apply run_get_state.
  destruct v as [| | |a]; simpl in *; try (by apply HU).
  destruct (heap st !! a) as [o|] eqn:E; [by eapply HR | by apply HU].
Qed.

Lemma wp_rb_iv_get v name R X U st :
  (forall o, lookup_object v st = Some o -> R (default Qnil (ivars o !! name)) st) ->
  (lookup_object v st = None -> U InvalidPointer st) ->
  wp (rb_iv_get v name) R X U st.
Proof.
  intros HR HU. unfold wp, rb_iv_get.
  erewrite run_bind by apply run_get_state.
  destruct (lookup_object v st) as [o|]; [by apply HR | by apply HU].
Qed.

Lemma wp_TypedData_Wrap_Struct {S} k (dt : rb_data_type_t S) s R X U st :
  R (Obj (length (heap st))) (allocated st (Build_object k ∅ (wrap dt s))) ->
  wp (TypedData_Wrap_Struct k dt s) R X U st.
Proof. done. Qed.

Lemma wp_rb_str_new ptr len R X U st :
  R (Obj (length (heap st)))
    (allocated st (Build_object rb_cString ∅ (RString (take len ptr)))) ->
  wp (rb_str_new ptr len) R X U st.
Proof. done. Qed.

Lemma wp_uninitialised n R X U st :
  R (resize n x00 (stack st)) st -> wp (uninitialised n) R X U st.
Proof. done. Qed.

Lemma wp_GenerateRandomBytes out_bytes in_size R X U st :
  (RAND_status (rand st) = 0 -> R (RESULT_FAILURE, out_bytes) st) ->
  (forall ret out r,
     RAND_status (rand st) <> 0 ->
     RAND_bytes (rand st) out_bytes in_size = (ret, out, r) ->
     R (if bool_decide (ret <> 1) then RESULT_FAILURE else RESULT_SUCCESS, out)
       (Build_State (heap st) r (stack st))) ->
  wp (GenerateRandomBytes out_bytes in_size) R X U st.
Proof.
  intros H0 H1. unfold wp. pose proof (run_GenerateRandomBytes st out_bytes in_size) as H.
  cbv zeta in H. rewrite H. case_bool_decide; [by apply H0|].
  destruct (RAND_bytes _ _ _) as [[ret out] r] eqn:E. by eapply H1.
Qed.

(** ** The methods a Ruby program reaches

    What [Init_rbsecp256k1] registers.  Each of the five classes gets an
    allocator, so each has [new]: the allocator followed by the class's
    [initialize] ([Signature] defines none, and keeps that of [Object]).
    [PrivateKey] has the singleton method [generate].  The attributes of
    [KeyPair] and [PrivateKey] are defined with readers only. *)

Definition Signature_new (klass : rb_class) : M VALUE := Signature_alloc klass.

Inductive method_call : Type :=
  | Context_new_call
  | Context_generate_key_pair_call (self : VALUE)
  | Context_key_pair_from_private_key_call (self in_private_key_data : VALUE)
  | Context_public_key_from_data_call (self in_public_key_data : VALUE)
  | Context_sign_call (self in_private_key in_data : VALUE)
  | Context_verify_call (self in_signature in_pubkey in_message : VALUE)
  | Context_signature_from_der_encoded_call (self in_der_encoded_signature : VALUE)
  | Context_signature_from_compact_call (self in_compact_signature : VALUE)
  | KeyPair_new_call (in_public_key in_private_key : VALUE)
  | KeyPair_public_key_call (self : VALUE)
  | KeyPair_private_key_call (self : VALUE)
  | PublicKey_new_call (in_context in_private_key : VALUE)
  | PublicKey_compressed_call (self : VALUE)
  | PublicKey_uncompressed_call (self : VALUE)
  | PrivateKey_generate_call (in_context : VALUE)
  | PrivateKey_new_call (in_context in_private_key_data : VALUE)
  | PrivateKey_data_call (self : VALUE)
  | Signature_new_call
  | Signature_der_encoded_call (self : VALUE)
  | Signature_compact_call (self : VALUE).

Definition dispatch (c : method_call) : M VALUE :=
  match c with
  | Context_new_call => Context_new Secp256k1_Context_class
  | Context_generate_key_pair_call self => Context_generate_key_pair self
  | Context_key_pair_from_private_key_call self data =>
      Context_key_pair_from_private_key self data
  | Context_public_key_from_data_call self data =>
      Context_public_key_from_data self data
  | Context_sign_call self key data => Context_sign self key data
  | Context_verify_call self sig pubkey data => Context_verify self sig pubkey data
  | Context_signature_from_der_encoded_call self data =>
      Context_signature_from_der_encoded self data
  | Context_signature_from_compact_call self data =>
      Context_signature_from_compact self data
  | KeyPair_new_call pubkey key => KeyPair_new Secp256k1_KeyPair_class pubkey key
  | KeyPair_public_key_call self => KeyPair_public_key_reader self
  | KeyPair_private_key_call self => KeyPair_private_key_reader self
  | PublicKey_new_call context key =>
      PublicKey_new Secp256k1_PublicKey_class context key
  | PublicKey_compressed_call self => PublicKey_compressed self
  | PublicKey_uncompressed_call self => PublicKey_uncompressed self
  | PrivateKey_generate_call context =>
      PrivateKey_generate Secp256k1_PrivateKey_class context
  | PrivateKey_new_call context data =>
      PrivateKey_new Secp256k1_PrivateKey_class context data
  | PrivateKey_data_call self => PrivateKey_data_reader self
  | Signature_new_call => Signature_new Secp256k1_Signature_class
  | Signature_der_encoded_call self => Signature_der_encoded self
  | Signature_compact_call self => Signature_compact self
  end.

(** The calls that ask OpenSSL for random bytes. *)
Definition draws_random (c : method_call) : bool :=
  match c with
  | Context_new_call | Context_generate_key_pair_call _ | PrivateKey_generate_call _ =>
      true
  | _ => false
  end.

(** [extends q st st']: [st'] has every object of [st], as it was and where
    it was, and possibly new objects after them; if [q] holds, the random
    generator is also as it was. *)
Definition extends (q : bool) (st st' : State) : Prop :=
  heap st `prefix_of` heap st' /\ (q = true -> rand st' = rand st).

(** A reference to an object that [st] does not have yet. *)
Definition fresh (st : State) (v : VALUE) : Prop :=
  exists a, v = Obj a /\ (length (heap st) <= a)%nat.

Lemma extends_refl q st : extends q st st.
Proof. by split. Qed.

Lemma extends_trans q st0 st1 st2 :
  extends q st0 st1 -> extends q st1 st2 -> extends q st0 st2.
Proof.
  intros [H1 R1] [H2 R2]. split; [by etrans|].
  intros Hq. by rewrite R2, R1.
Qed.

Lemma extends_length q st0 st : extends q st0 st -> (length (heap st0) <= length (heap st))%nat.
Proof. intros [H _]. by apply prefix_length. Qed.

Lemma extends_allocated q st0 st o : extends q st0 st -> extends q st0 (allocated st o).
Proof. intros [H R]. split; [by apply prefix_app_r | done]. Qed.

Lemma extends_new q st0 st : extends q st0 st -> fresh st0 (Obj (length (heap st))).
Proof. intros H. eexists. split; [done | by eapply extends_length]. Qed.

Lemma extends_updated q st0 st a o :
  extends q st0 st -> fresh st0 (Obj a) -> extends q st0 (updated st a o).
Proof.
  intros [[k Hk] R] (a' & [= <-] & Ha). split; [|done].
  exists (<[(a - length (heap st0))%nat := o]> k). simpl.
  rewrite Hk. by apply insert_app_r_alt.
Qed.

Lemma extends_set_rand st0 st r :
  extends false st0 st -> extends false st0 (Build_State (heap st) r (stack st)).
Proof. intros [H R]. by split. Qed.

Lemma fresh_extends q st0 st v : extends q st0 st -> fresh st v -> fresh st0 v.
Proof.
  intros H (a & -> & Ha). exists a. split; [done|].
  pose proof (extends_length _ _ _ H). lia.
Qed.

(** [keeps I m P st]: however the call [m] made in [st] ends, the state it
    leaves satisfies [I]; a result it returns satisfies [P]. *)
#[warnings="-inconsistent-scopes"] Abbreviation keeps I m P st :=
  (wp m (fun a st' => and (I st') (P a)) (fun _ st' => I st') (fun _ st' => I st') st)
  (only parsing).

Create HintDb extends_db discriminated.

(** One step of a call, for a goal [wp m R X U st]: the rule of the runtime
    call at the head of [m], with the facts it gives moved to the context. *)
Ltac wp_head :=
  lazymatch goal with
  | |- wp (_ ≫= _) _ _ _ _ => apply wp_bind
  | |- wp (mret _) _ _ _ _ => apply wp_ret
  | |- wp (rb_raise _ _) _ _ _ _ => apply wp_rb_raise
  | |- wp (Check_Type _ T_STRING) _ _ _ _ =>
      apply wp_Check_Type_string; [intros ? ? | intros ? | intros ? ? ?]
  | |- wp (TypedData_Get_Struct _ _) _ _ _ _ =>
      apply wp_TypedData_Get_Struct; [intros ? ? | intros ? | intros ? ? ?]
  | |- wp (Check_TypedStruct _ _) _ _ _ _ =>
      apply wp_Check_TypedStruct; [intros ? ? | intros ? | intros ? ? ?]
  | |- wp (StringValuePtr _) _ _ _ _ =>
      apply wp_StringValuePtr; [intros ? ? ? ? | intros ? | intros ? ? ?]
  | |- wp (RSTRING_LEN _) _ _ _ _ => apply wp_RSTRING_LEN; [intros ? ? | intros ?]
  | |- wp (read_bytes _ _) _ _ _ _ =>
      apply wp_read_bytes; [intros ? ? ? | intros ? ? ? | intros ?]
  | |- wp (assign_struct _ _ _) _ _ _ _ =>
      apply wp_assign_struct; [intros ? ? ? ? | intros ?]
  | |- wp (rb_iv_set _ _ _) _ _ _ _ => apply wp_rb_iv_set; [intros ? ? ? ? | intros ?]
  | |- wp (rb_iv_get _ _) _ _ _ _ => apply wp_rb_iv_get; [intros ? ? | intros ?]
  | |- wp (TypedData_Wrap_Struct _ _ _) _ _ _ _ => apply wp_TypedData_Wrap_Struct
  | |- wp (rb_str_new _ _) _ _ _ _ => apply wp_rb_str_new
  | |- wp (uninitialised _) _ _ _ _ => apply wp_uninitialised
  | |- wp (GenerateRandomBytes _ _) _ _ _ _ =>
      apply wp_GenerateRandomBytes; [intros ? | intros ? ? ? ? ?]
  | |- wp (match ?e with _ => _ end) _ _ _ _ =>
      first
        [ is_var e; destruct e
        | lazymatch e with
          | bool_decide _ => case_bool_decide
          | _ => destruct e eqn:?
          end ]
  end.

(** After a step that changed the state: what is known of the new state,
    which then gets a name of its own. *)
Ltac extends_next :=
  lazymatch goal with
  | Hg : extends ?q ?st0 ?st |- context [allocated ?st ?o] =>
      let Hg' := fresh "Hg" in
      let Hf := fresh "Hf" in
      pose proof (extends_allocated q st0 st o Hg) as Hg';
      pose proof (extends_new q st0 st Hg) as Hf;
      let v := fresh "v" in
      let st' := fresh "st" in
      set (v := Obj (length (heap st))) in *;
      set (st' := allocated st o) in *;
      clearbody v st'
  | Hg : extends ?q ?st0 ?st, Hf : fresh ?st0 (Obj ?a) |- context [updated ?st ?a ?o] =>
      let Hg' := fresh "Hg" in
      pose proof (extends_updated q st0 st a o Hg Hf) as Hg';
      let st' := fresh "st" in
      set (st' := updated st a o) in *;
      clearbody st'
  | Hg : extends false ?st0 ?st |- context [Build_State (heap ?st) ?r (stack ?st)] =>
      let Hg' := fresh "Hg" in
      pose proof (extends_set_rand st0 st r Hg) as Hg';
      let st' := fresh "st" in
      set (st' := Build_State (heap st) r (stack st)) in *;
      clearbody st'
  end.

Ltac extends_call :=
  eapply wp_mono;
  [ solve [eauto 3 with extends_db]
  | intros ? ? [? ?]
  | intros ? ? ?
  | intros ? ? ? ].

Ltac same_object :=
  match goal with
  | H : Obj _ = Obj _ |- _ => injection H as H; subst
  end.

Ltac extends_auto :=
  repeat first
    [ progress (cbv beta iota)
    | progress subst
    | same_object
    | assumption
    | extends_next
    | wp_head
    | extends_call
    | lazymatch goal with |- _ /\ _ => split end
    | reflexivity ].

Lemma PublicKey_initialize_extends q st0 st self in_context in_private_key :
  extends q st0 st -> fresh st0 self ->
  keeps (extends q st0) (PublicKey_initialize self in_context in_private_key)
    (fun v => v = self) st.
Proof. intros Hg Hf. unfold PublicKey_initialize. extends_auto. Qed.

#[local] Hint Resolve PublicKey_initialize_extends : extends_db.

Lemma PrivateKey_initialize_extends q st0 st self in_context in_private_key_data :
  extends q st0 st -> fresh st0 self ->
  keeps (extends q st0) (PrivateKey_initialize self in_context in_private_key_data)
    (fun v => v = self) st.
Proof. intros Hg Hf. unfold PrivateKey_initialize. extends_auto. Qed.
#[local] Hint Resolve PrivateKey_initialize_extends : extends_db.

Lemma KeyPair_initialize_extends q st0 st self in_public_key in_private_key :
  extends q st0 st -> fresh st0 self ->
  keeps (extends q st0) (KeyPair_initialize self in_public_key in_private_key)
    (fun v => v = self) st.
Proof. intros Hg Hf. unfold KeyPair_initialize. extends_auto. Qed.
#[local] Hint Resolve KeyPair_initialize_extends : extends_db.

Lemma Context_initialize_extends st0 st self :
  extends false st0 st -> fresh st0 self ->
  keeps (extends false st0) (Context_initialize self) (fun v => v = self) st.
Proof. intros Hg Hf. unfold Context_initialize. extends_auto. Qed.
#[local] Hint Resolve Context_initialize_extends : extends_db.

Lemma PublicKey_new_extends q st0 st k in_context in_private_key :
  extends q st0 st ->
  keeps (extends q st0) (PublicKey_new k in_context in_private_key) (fresh st0) st.
Proof. intros Hg. unfold PublicKey_new, PublicKey_alloc. extends_auto. Qed.
#[local] Hint Resolve PublicKey_new_extends : extends_db.

Lemma PrivateKey_new_extends q st0 st k in_context in_private_key_data :
  extends q st0 st ->
  keeps (extends q st0) (PrivateKey_new k in_context in_private_key_data)
    (fresh st0) st.
Proof. intros Hg. unfold PrivateKey_new, PrivateKey_alloc. extends_auto. Qed.
#[local] Hint Resolve PrivateKey_new_extends : extends_db.

Lemma KeyPair_new_extends q st0 st k in_public_key in_private_key :
  extends q st0 st ->
  keeps (extends q st0) (KeyPair_new k in_public_key in_private_key) (fresh st0) st.
Proof. intros Hg. unfold KeyPair_new, KeyPair_alloc. extends_auto. Qed.
#[local] Hint Resolve KeyPair_new_extends : extends_db.

Lemma Context_new_extends st0 st k :
  extends false st0 st -> keeps (extends false st0) (Context_new k) (fresh st0) st.
Proof. intros Hg. unfold Context_new, Context_alloc. extends_auto. Qed.
#[local] Hint Resolve Context_new_extends : extends_db.

Lemma PrivateKey_generate_extends st0 st k in_context :
  extends false st0 st ->
  keeps (extends false st0) (PrivateKey_generate k in_context) (fresh st0) st.
Proof. intros Hg. unfold PrivateKey_generate. extends_auto. Qed.
#[local] Hint Resolve PrivateKey_generate_extends : extends_db.

Lemma Context_generate_key_pair_extends st0 st self :
  extends false st0 st ->
  keeps (extends false st0) (Context_generate_key_pair self) (fresh st0) st.
Proof. intros Hg. unfold Context_generate_key_pair. extends_auto. Qed.

Lemma Context_key_pair_from_private_key_extends q st0 st self in_private_key_data :
  extends q st0 st ->
  keeps (extends q st0) (Context_key_pair_from_private_key self in_private_key_data)
    (fresh st0) st.
Proof. intros Hg. unfold Context_key_pair_from_private_key. extends_auto. Qed.

Lemma Context_public_key_from_data_extends q st0 st self in_public_key_data :
  extends q st0 st ->
  keeps (extends q st0) (Context_public_key_from_data self in_public_key_data)
    (fresh st0) st.
Proof. intros Hg. unfold Context_public_key_from_data. extends_auto. Qed.

Lemma Context_sign_extends q st0 st self in_private_key in_data :
  extends q st0 st ->
  keeps (extends q st0) (Context_sign self in_private_key in_data) (fresh st0) st.
Proof. intros Hg. unfold Context_sign, Signature_alloc, SignData. extends_auto. Qed.

Lemma Context_verify_extends q st0 st self in_signature in_pubkey in_message :
  extends q st0 st ->
  keeps (extends q st0) (Context_verify self in_signature in_pubkey in_message)
    (fun v => v = Qtrue \/ v = Qfalse) st.
Proof. intros Hg. unfold Context_verify. extends_auto; auto. Qed.

Lemma Context_signature_from_der_encoded_extends q st0 st self in_der_encoded_signature :
  extends q st0 st ->
  keeps (extends q st0)
    (Context_signature_from_der_encoded self in_der_encoded_signature) (fresh st0) st.
Proof.
  intros Hg. unfold Context_signature_from_der_encoded, Signature_alloc. extends_auto.
Qed.

Lemma Context_signature_from_compact_extends q st0 st self in_compact_signature :
  extends q st0 st ->
  keeps (extends q st0)
    (Context_signature_from_compact self in_compact_signature) (fresh st0) st.
Proof.
  intros Hg. unfold Context_signature_from_compact, Signature_alloc. extends_auto.
Qed.

Lemma PublicKey_compressed_extends q st0 st self :
  extends q st0 st -> keeps (extends q st0) (PublicKey_compressed self) (fresh st0) st.
Proof. intros Hg. unfold PublicKey_compressed. extends_auto. Qed.

Lemma PublicKey_uncompressed_extends q st0 st self :
  extends q st0 st -> keeps (extends q st0) (PublicKey_uncompressed self) (fresh st0) st.
Proof. intros Hg. unfold PublicKey_uncompressed. extends_auto. Qed.

Lemma Signature_der_encoded_extends q st0 st self :
  extends q st0 st -> keeps (extends q st0) (Signature_der_encoded self) (fresh st0) st.
Proof. intros Hg. unfold Signature_der_encoded. extends_auto. Qed.

Lemma Signature_compact_extends q st0 st self :
  extends q st0 st -> keeps (extends q st0) (Signature_compact self) (fresh st0) st.
Proof. intros Hg. unfold Signature_compact. extends_auto. Qed.

Lemma rb_iv_get_extends q st0 st self name :
  extends q st0 st -> keeps (extends q st0) (rb_iv_get self name) (fun _ => True) st.
Proof. intros Hg. extends_auto. Qed.

Lemma wp_outcome {A} (m : M A) (I : State -> Prop) st :
  wp m (fun _ st' => I st') (fun _ st' => I st') (fun _ st' => I st') st ->
  I (m st).2.
Proof. unfold wp. by destruct (m st) as [[a|e|u] st']. Qed.

Lemma keeps_outcome {A} (m : M A) (I : State -> Prop) (P : A -> Prop) st :
  keeps I m P st -> I (m st).2.
Proof.
  intros H. apply wp_outcome. eapply wp_mono; [exact H | | |]; cbv beta; tauto.
Qed.

Ltac keeps_by lem :=
  eapply wp_mono;
  [ by apply lem
  | intros ? ? [? _]; split; [eassumption | exact Logic.I]
  | intros ? ? ?; eassumption
  | intros ? ? ?; eassumption ].


(** ** [Context.new], exactly *)

Lemma run_Context_new k st :
  let created :=
    secp256k1_context_create (Z.lor SECP256K1_CONTEXT_SIGN SECP256K1_CONTEXT_VERIFY) in
  let local := resize 32 x00 (stack st) in
  let g := RAND_bytes (rand st) local 32 in
  let unseeded := bool_decide (RAND_status (rand st) = 0) in
  let r := secp256k1_context_randomize created (if unseeded then local else g.1.2) in
  Context_new k st =
  (if bool_decide (r.1 <> 1) then Raised RandomizationError
   else Returned (Obj (length (heap st))),
   Build_State
     (heap st ++ [Build_object k ∅ (RData_Context (Build_Context r.2))])
     (if unseeded then rand st else g.2) (stack st)).
Proof.
  cbv zeta. unfold Context_new, Context_alloc, Context_initialize. mrun.
  unfold mbind at 1, M_bind at 1. rewrite run_GenerateRandomBytes.
  cbn [rand stack heap allocated].
  case_bool_decide as Hseeded.
  - destruct (secp256k1_context_randomize _ _) as [ret ctx]. cbn [fst snd].
    mrun. cbn [klass ivars wrap Context_DataType allocated].
    case_bool_decide; mrun; destruct st; reflexivity.
  - destruct (RAND_bytes _ _ _) as [[code out] rnd]. cbn [fst snd].
    destruct (secp256k1_context_randomize _ _) as [ret ctx]. cbn [fst snd].
    rewrite run_bind_assoc.
    mstep ltac:(apply (run_assign_struct_new Context_DataType
                         (Build_State (heap st) rnd (stack st)))).
    cbn [klass ivars wrap Context_DataType allocated heap rand stack].
    case_bool_decide; mrun; reflexivity.
Qed.

(** ** The library contexts that objects hold *)

(** A context pointer as an object of the extension may hold it: still
    NULL, as the allocator left it, or one of the extension's contexts. *)
Definition context_ok (ctx : option secp256k1_context) : Prop :=
  ctx = None \/ extension_context ctx.

(** Every [Context] object holds one of the extension's contexts; a key or
    a signature holds one too, or NULL when its initialisation was not
    completed. *)
Definition payload_ok (p : rb_payload) : Prop :=
  match p with
  | RData_Context c => extension_context (Context_ctx c)
  | RData_PublicKey k => context_ok (PublicKey_ctx k)
  | RData_PrivateKey k => context_ok (PrivateKey_ctx k)
  | RData_Signature s => context_ok (Signature_ctx s)
  | RObject | RString _ | RData_KeyPair _ => True
  end.

Definition contexts_ok (st : State) : Prop :=
  forall a o, heap st !! a = Some o -> payload_ok (payload o).

Lemma contexts_ok_allocated st o :
  contexts_ok st -> payload_ok (payload o) -> contexts_ok (allocated st o).
Proof.
  intros Hok Ho a x. simpl. rewrite lookup_app_Some.
  intros [H | [_ H]]; [by eapply Hok|].
  apply list_lookup_singleton_Some in H as [_ <-]. done.
Qed.

Lemma contexts_ok_updated st a o :
  contexts_ok st -> payload_ok (payload o) -> contexts_ok (updated st a o).
Proof.
  intros Hok Ho b x. simpl. intros H.
  apply list_lookup_insert_Some in H as [(_ & <- & _) | [_ H]]; [done | by eapply Hok].
Qed.

Lemma contexts_ok_set_rand st r s :
  contexts_ok st -> contexts_ok (Build_State (heap st) r s).
Proof. done. Qed.

Lemma contexts_ok_struct {S} (dt : rb_data_type_t S) st v s :
  contexts_ok st -> struct_at dt st v = Some s ->
  exists o, payload_ok (payload o) /\ unwrap dt (payload o) = Some s.
Proof.
  intros Hok (a & o & -> & Ha & Hu)%struct_at_inv. exists o. split; [by eapply Hok | done].
Qed.

Lemma contexts_ok_Context st v c :
  contexts_ok st -> struct_at Context_DataType st v = Some c ->
  extension_context (Context_ctx c).
Proof.
  intros Hok H. destruct (contexts_ok_struct _ _ _ _ Hok H) as (o & Ho & Hu).
  destruct (payload o); simpl in *; by simplify_eq.
Qed.

Lemma contexts_ok_PublicKey st v p :
  contexts_ok st -> struct_at PublicKey_DataType st v = Some p ->
  context_ok (PublicKey_ctx p).
Proof.
  intros Hok H. destruct (contexts_ok_struct _ _ _ _ Hok H) as (o & Ho & Hu).
  destruct (payload o); simpl in *; by simplify_eq.
Qed.

Lemma contexts_ok_Signature st v sg :
  contexts_ok st -> struct_at Signature_DataType st v = Some sg ->
  context_ok (Signature_ctx sg).
Proof.
  intros Hok H. destruct (contexts_ok_struct _ _ _ _ Hok H) as (o & Ho & Hu).
  destruct (payload o); simpl in *; by simplify_eq.
Qed.

Ltac ok_facts :=
  match goal with
  | Hok : contexts_ok ?st, H : struct_at Context_DataType ?st _ = Some ?c |- _ =>
      lazymatch goal with
      | _ : extension_context (Context_ctx c) |- _ => fail
      | _ => pose proof (contexts_ok_Context _ _ _ Hok H)
      end
  | Hok : contexts_ok ?st, H : struct_at PublicKey_DataType ?st _ = Some ?p |- _ =>
      lazymatch goal with
      | _ : context_ok (PublicKey_ctx p) |- _ => fail
      | _ => pose proof (contexts_ok_PublicKey _ _ _ Hok H)
      end
  | Hok : contexts_ok ?st, H : struct_at Signature_DataType ?st _ = Some ?p |- _ =>
      lazymatch goal with
      | _ : context_ok (Signature_ctx p) |- _ => fail
      | _ => pose proof (contexts_ok_Signature _ _ _ Hok H)
      end
  end.

Ltac ok_payload :=
  simpl;
  first
    [ exact Logic.I
    | assumption
    | by left
    | right; apply context_cloned; assumption
    | match goal with
      | Hok : contexts_ok ?st, H : heap ?st !! _ = Some ?o |- payload_ok (payload ?o) =>
          exact (Hok _ _ H)
      end ].

Ltac ok_next :=
  lazymatch goal with
  | Hok : contexts_ok ?st |- context [allocated ?st ?o] =>
      let Hok' := fresh "Hok" in
      assert (Hok' : contexts_ok (allocated st o))
        by (apply contexts_ok_allocated; [exact Hok | ok_payload]);
      let st' := fresh "st" in
      set (st' := allocated st o) in *;
      clearbody st'
  | Hok : contexts_ok ?st |- context [updated ?st ?a ?o] =>
      let Hok' := fresh "Hok" in
      assert (Hok' : contexts_ok (updated st a o))
        by (apply contexts_ok_updated; [exact Hok | ok_payload]);
      let st' := fresh "st" in
      set (st' := updated st a o) in *;
      clearbody st'
  | Hok : contexts_ok ?st |- context [Build_State (heap ?st) ?r (stack ?st)] =>
      let Hok' := fresh "Hok" in
      pose proof (contexts_ok_set_rand st r (stack st) Hok) as Hok';
      let st' := fresh "st" in
      set (st' := Build_State (heap st) r (stack st)) in *;
      clearbody st'
  end.

Create HintDb contexts_db discriminated.

Ltac ok_call :=
  eapply wp_mono;
  [ solve [eauto 3 with contexts_db]
  | intros ? ? [? ?]
  | intros ? ? ?
  | intros ? ? ? ].

Ltac ok_auto :=
  repeat first
    [ progress (cbv beta iota)
    | progress subst
    | same_object
    | assumption
    | ok_facts
    | ok_next
    | wp_head
    | ok_call
    | lazymatch goal with |- _ /\ _ => split end
    | exact Logic.I ].

Lemma PublicKey_new_contexts st k in_context in_private_key :
  contexts_ok st ->
  keeps contexts_ok (PublicKey_new k in_context in_private_key) (fun _ => True) st.
Proof.
  intros Hok. unfold PublicKey_new, PublicKey_alloc, PublicKey_initialize. ok_auto.
Qed.
#[local] Hint Resolve PublicKey_new_contexts : contexts_db.

Lemma PrivateKey_new_contexts st k in_context in_private_key_data :
  contexts_ok st ->
  keeps contexts_ok (PrivateKey_new k in_context in_private_key_data)
    (fun _ => True) st.
Proof.
  intros Hok. unfold PrivateKey_new, PrivateKey_alloc, PrivateKey_initialize. ok_auto.
Qed.
#[local] Hint Resolve PrivateKey_new_contexts : contexts_db.

Lemma KeyPair_new_contexts st k in_public_key in_private_key :
  contexts_ok st ->
  keeps contexts_ok (KeyPair_new k in_public_key in_private_key) (fun _ => True) st.
Proof.
  intros Hok. unfold KeyPair_new, KeyPair_alloc, KeyPair_initialize. ok_auto.
Qed.
#[local] Hint Resolve KeyPair_new_contexts : contexts_db.

Lemma Context_new_contexts st k :
  contexts_ok st -> keeps contexts_ok (Context_new k) (fun _ => True) st.
Proof.
  intros Hok. unfold wp. pose proof (run_Context_new k st) as H. cbv zeta in H.
  rewrite H. clear H.
  match goal with
  | |- context [secp256k1_context_randomize ?c ?seed] =>
      pose proof (context_randomized c seed context_created) as Hctx;
      destruct (secp256k1_context_randomize c seed) as [ret ctx]
  end.
  cbn [fst snd] in *.
  assert (H : forall r,
             contexts_ok
               (Build_State
                  (heap st ++ [Build_object k ∅ (RData_Context (Build_Context ctx))])
                  r (stack st))).
  { intros r. apply (contexts_ok_allocated st _ Hok). exact Hctx. }
  destruct (bool_decide (ret <> 1)); [apply H | split; [apply H | exact Logic.I]].
Qed.

Lemma PrivateKey_generate_contexts st k in_context :
  contexts_ok st ->
  keeps contexts_ok (PrivateKey_generate k in_context) (fun _ => True) st.
Proof. intros Hok. unfold PrivateKey_generate. ok_auto. Qed.
#[local] Hint Resolve PrivateKey_generate_contexts : contexts_db.

Lemma Context_generate_key_pair_contexts st self :
  contexts_ok st -> keeps contexts_ok (Context_generate_key_pair self) (fun _ => True) st.
Proof. intros Hok. unfold Context_generate_key_pair. ok_auto. Qed.

Lemma Context_key_pair_from_private_key_contexts st self in_private_key_data :
  contexts_ok st ->
  keeps contexts_ok (Context_key_pair_from_private_key self in_private_key_data)
    (fun _ => True) st.
Proof. intros Hok. unfold Context_key_pair_from_private_key. ok_auto. Qed.

Lemma Context_public_key_from_data_contexts st self in_public_key_data :
  contexts_ok st ->
  keeps contexts_ok (Context_public_key_from_data self in_public_key_data)
    (fun _ => True) st.
Proof. intros Hok. unfold Context_public_key_from_data. ok_auto. Qed.

Lemma Context_sign_contexts st self in_private_key in_data :
  contexts_ok st ->
  keeps contexts_ok (Context_sign self in_private_key in_data) (fun _ => True) st.
Proof. intros Hok. unfold Context_sign, Signature_alloc, SignData. ok_auto. Qed.

Lemma Context_verify_contexts st self in_signature in_pubkey in_message :
  contexts_ok st ->
  keeps contexts_ok (Context_verify self in_signature in_pubkey in_message)
    (fun _ => True) st.
Proof. intros Hok. unfold Context_verify. ok_auto. Qed.

Lemma Context_signature_from_der_encoded_contexts st self in_der_encoded_signature :
  contexts_ok st ->
  keeps contexts_ok (Context_signature_from_der_encoded self in_der_encoded_signature)
    (fun _ => True) st.
Proof.
  intros Hok. unfold Context_signature_from_der_encoded, Signature_alloc. ok_auto.
Qed.

Lemma Context_signature_from_compact_contexts st self in_compact_signature :
  contexts_ok st ->
  keeps contexts_ok (Context_signature_from_compact self in_compact_signature)
    (fun _ => True) st.
Proof.
  intros Hok. unfold Context_signature_from_compact, Signature_alloc. ok_auto.
Qed.

Lemma PublicKey_compressed_contexts st self :
  contexts_ok st -> keeps contexts_ok (PublicKey_compressed self) (fun _ => True) st.
Proof. intros Hok. unfold PublicKey_compressed. ok_auto. Qed.

Lemma PublicKey_uncompressed_contexts st self :
  contexts_ok st -> keeps contexts_ok (PublicKey_uncompressed self) (fun _ => True) st.
Proof. intros Hok. unfold PublicKey_uncompressed. ok_auto. Qed.

Lemma Signature_der_encoded_contexts st self :
  contexts_ok st -> keeps contexts_ok (Signature_der_encoded self) (fun _ => True) st.
Proof. intros Hok. unfold Signature_der_encoded. ok_auto. Qed.

Lemma Signature_compact_contexts st self :
  contexts_ok st -> keeps contexts_ok (Signature_compact self) (fun _ => True) st.
Proof. intros Hok. unfold Signature_compact. ok_auto. Qed.

Lemma rb_iv_get_contexts st self name :
  contexts_ok st -> keeps contexts_ok (rb_iv_get self name) (fun _ => True) st.
Proof. intros Hok. ok_auto. Qed.


(** ** References that point somewhere *)

(** [v] is [nil], [true], [false] or refers to an object of [st]. *)
Definition valid_value (st : State) (v : VALUE) : Prop :=
  match v with
  | Obj a => (a < length (heap st))%nat
  | _ => True
  end.

(** [v] refers to an object of [st]. *)
Definition is_object (st : State) (v : VALUE) : Prop :=
  exists a, v = Obj a /\ (a < length (heap st))%nat.

(** What a Ruby program cannot help but respect when it calls a method:
    the receiver and the arguments are values of the running program; the
    receiver of an attribute reader is an object.  And, for
    [signature_from_compact] only, a condition that a program can break:
    a [String] argument has at least 64 bytes. *)
Definition valid_call (st : State) (c : method_call) : Prop :=
  match c with
  | Context_new_call | Signature_new_call => True
  | Context_generate_key_pair_call self
  | PublicKey_compressed_call self
  | PublicKey_uncompressed_call self
  | Signature_der_encoded_call self
  | Signature_compact_call self
  | PrivateKey_generate_call self => valid_value st self
  | KeyPair_public_key_call self
  | KeyPair_private_key_call self
  | PrivateKey_data_call self => is_object st self
  | Context_key_pair_from_private_key_call a b
  | Context_public_key_from_data_call a b
  | Context_signature_from_der_encoded_call a b
  | KeyPair_new_call a b
  | PublicKey_new_call a b
  | PrivateKey_new_call a b => valid_value st a /\ valid_value st b
  | Context_sign_call a b c => valid_value st a /\ valid_value st b /\ valid_value st c
  | Context_verify_call a b c d =>
      valid_value st a /\ valid_value st b /\ valid_value st c /\ valid_value st d
  | Context_signature_from_compact_call self data =>
      valid_value st self /\ valid_value st data
      /\ forall m, string_at st data = Some m -> (64 <= length m)%nat
  end.

Definition heap_le (st st' : State) : Prop :=
  (length (heap st) <= length (heap st'))%nat.

Lemma heap_le_refl st : heap_le st st.
Proof. unfold heap_le. lia. Qed.

Lemma heap_le_allocated st0 st o : heap_le st0 st -> heap_le st0 (allocated st o).
Proof. unfold heap_le. simpl. rewrite length_app. lia. Qed.

Lemma heap_le_updated st0 st a o : heap_le st0 st -> heap_le st0 (updated st a o).
Proof. unfold heap_le. simpl. by rewrite length_insert. Qed.

Lemma heap_le_set_rand st0 st r :
  heap_le st0 st -> heap_le st0 (Build_State (heap st) r (stack st)).
Proof. done. Qed.

Lemma heap_le_trans st0 st1 st2 : heap_le st0 st1 -> heap_le st1 st2 -> heap_le st0 st2.
Proof. unfold heap_le. lia. Qed.

Lemma valid_value_le st st' v : heap_le st st' -> valid_value st v -> valid_value st' v.
Proof. unfold heap_le. destruct v; simpl; [done..|lia]. Qed.

Lemma is_object_le st st' v : heap_le st st' -> is_object st v -> is_object st' v.
Proof. unfold heap_le. intros H (a & -> & Ha). exists a. split; [done | lia]. Qed.

Lemma is_object_valid st v : is_object st v -> valid_value st v.
Proof. by intros (a & -> & Ha). Qed.

Lemma is_object_new st o : is_object (allocated st o) (Obj (length (heap st))).
Proof. eexists. split; [done|]. simpl. rewrite length_app. simpl. lia. Qed.

Lemma heap_le_allocated_self st o : heap_le st (allocated st o).
Proof. apply heap_le_allocated, heap_le_refl. Qed.

Lemma heap_le_updated_self st a o : heap_le st (updated st a o).
Proof. apply heap_le_updated, heap_le_refl. Qed.

Lemma is_object_lookup st v : is_object st v -> lookup_object v st = None -> False.
Proof.
  intros (a & -> & Ha) H. simpl in H. apply lookup_ge_None in H. lia.
Qed.

Lemma valid_value_lookup st a : valid_value st (Obj a) -> heap st !! a = None -> False.
Proof. simpl. intros Ha H. apply lookup_ge_None in H. lia. Qed.

Lemma string_at_is_object st v m : string_at st v = Some m -> is_object st v.
Proof.
  intros (a & k & iv & -> & H)%string_at_inv. exists a. split; [done|].
  by eapply lookup_lt_Some.
Qed.

Lemma struct_at_is_object {S} (dt : rb_data_type_t S) st v s :
  struct_at dt st v = Some s -> is_object st v.
Proof.
  intros (a & o & -> & H & _)%struct_at_inv. exists a. split; [done|].
  by eapply lookup_lt_Some.
Qed.

(** The facts about the state before a step, for the state after it. *)
Ltac safe_move le_lemma st st' :=
  repeat match goal with
  | H : valid_value st _ |- _ => apply (valid_value_le st st' _ le_lemma) in H
  | H : is_object st _ |- _ => apply (is_object_le st st' _ le_lemma) in H
  | H : heap_le _ st |- _ => apply (fun H0 => heap_le_trans _ st st' H0 le_lemma) in H
  end.

Ltac safe_next :=
  lazymatch goal with
  | |- context [allocated ?st ?o] =>
      safe_move (heap_le_allocated_self st o) st (allocated st o);
      repeat match goal with
      | H : string_at st _ = Some _ |- _ => apply (string_at_allocated st o) in H
      end;
      pose proof (is_object_new st o);
      let v := fresh "v" in
      let st' := fresh "st" in
      set (v := Obj (length (heap st))) in *;
      set (st' := allocated st o) in *;
      clearbody v st'
  | |- context [updated ?st ?a ?o] =>
      safe_move (heap_le_updated_self st a o) st (updated st a o);
      let st' := fresh "st" in
      set (st' := updated st a o) in *;
      clearbody st'
  | |- context [Build_State (heap ?st) ?r (stack ?st)] =>
      safe_move (heap_le_refl st) st (Build_State (heap st) r (stack st));
      let st' := fresh "st" in
      set (st' := Build_State (heap st) r (stack st)) in *;
      clearbody st'
  end.

(** No way to the undefined: the case at hand contradicts what is known. *)
Ltac safe_exit :=
  lazymatch goal with
  | |- False =>
      solve
        [ match goal with
          | H : heap ?st !! ?a = None, Hv : valid_value ?st (Obj ?a) |- _ =>
              exact (valid_value_lookup st a Hv H)
          | H : lookup_object ?v ?st = None, Hv : is_object ?st ?v |- _ =>
              exact (is_object_lookup st v Hv H)
          | H : heap ?st !! ?a = None, Hv : is_object ?st (Obj ?a) |- _ =>
              exact (is_object_lookup st (Obj a) Hv H)
          | H : string_at ?st ?v = None, H' : string_at ?st ?v = Some _ |- _ =>
              congruence
          | H : string_at ?st ?v = Some ?m, H' : string_at ?st ?v = Some ?m' |- _ =>
              rewrite H in H'; injection H' as H'; subst; lia
          end ]
  end.

Ltac safe_facts :=
  match goal with
  | Hp : forall m, string_at ?st ?v = Some m -> _, H : string_at ?st ?v = Some ?m |- _ =>
      pose proof (Hp _ H); clear Hp
  | H : struct_at _ ?st ?v = Some _ |- _ =>
      lazymatch goal with
      | _ : is_object st v |- _ => fail
      | _ => pose proof (struct_at_is_object _ _ _ _ H)
      end
  end.

Create HintDb safe_db discriminated.

Ltac safe_call :=
  eapply wp_mono;
  [ solve [eauto 4 using is_object_valid with safe_db]
  | intros ? ? [? ?]
  | intros ? ? ?
  | intros ? ? ? ];
  [ match goal with
    | H : heap_le ?st ?st' |- _ => safe_move H st st'
    end
  | .. ].

Ltac safe_auto :=
  lazymatch goal with |- wp _ _ _ _ ?st => pose proof (heap_le_refl st) end;
  repeat first
    [ progress (cbv beta iota)
    | progress subst
    | same_object
    | assumption
    | exact Logic.I
    | reflexivity
    | safe_exit
    | safe_facts
    | safe_next
    | wp_head
    | safe_call
    | lazymatch goal with |- _ /\ _ => split end ].

(** [safely st m P]: the call [m], made in [st], does not run into undefined
    behaviour; if it returns, the heap has not shrunk and the result
    satisfies [P] in the state reached. *)
#[warnings="-inconsistent-scopes"] Abbreviation safely m P st :=
  (wp m (fun a st' => and (heap_le st st') (P st' a)) (fun _ _ => True)
     (fun _ _ => False) st)
  (only parsing).

Lemma PublicKey_initialize_safe st self in_context in_private_key :
  is_object st self -> valid_value st in_context -> valid_value st in_private_key ->
  safely (PublicKey_initialize self in_context in_private_key) (fun _ v => v = self) st.
Proof. intros Hs Hc Hk. unfold PublicKey_initialize. safe_auto. Qed.
#[local] Hint Resolve PublicKey_initialize_safe : safe_db.

Lemma PrivateKey_initialize_safe st self in_context in_private_key_data :
  is_object st self -> valid_value st in_context -> valid_value st in_private_key_data ->
  safely (PrivateKey_initialize self in_context in_private_key_data)
    (fun _ v => v = self) st.
Proof. intros Hs Hc Hk. unfold PrivateKey_initialize. safe_auto. Qed.
#[local] Hint Resolve PrivateKey_initialize_safe : safe_db.

Lemma KeyPair_initialize_safe st self in_public_key in_private_key :
  is_object st self -> valid_value st in_public_key -> valid_value st in_private_key ->
  safely (KeyPair_initialize self in_public_key in_private_key) (fun _ v => v = self) st.
Proof. intros Hs Hc Hk. unfold KeyPair_initialize. safe_auto. Qed.
#[local] Hint Resolve KeyPair_initialize_safe : safe_db.

Lemma Context_initialize_safe st self :
  is_object st self -> safely (Context_initialize self) (fun _ v => v = self) st.
Proof. intros Hs. unfold Context_initialize. safe_auto. Qed.
#[local] Hint Resolve Context_initialize_safe : safe_db.

Lemma PublicKey_new_safe st k in_context in_private_key :
  valid_value st in_context -> valid_value st in_private_key ->
  safely (PublicKey_new k in_context in_private_key) is_object st.
Proof. intros Hc Hk. unfold PublicKey_new, PublicKey_alloc. safe_auto. Qed.
#[local] Hint Resolve PublicKey_new_safe : safe_db.

Lemma PrivateKey_new_safe st k in_context in_private_key_data :
  valid_value st in_context -> valid_value st in_private_key_data ->
  safely (PrivateKey_new k in_context in_private_key_data) is_object st.
Proof. intros Hc Hk. unfold PrivateKey_new, PrivateKey_alloc. safe_auto. Qed.
#[local] Hint Resolve PrivateKey_new_safe : safe_db.

Lemma KeyPair_new_safe st k in_public_key in_private_key :
  valid_value st in_public_key -> valid_value st in_private_key ->
  safely (KeyPair_new k in_public_key in_private_key) is_object st.
Proof. intros Hc Hk. unfold KeyPair_new, KeyPair_alloc. safe_auto. Qed.
#[local] Hint Resolve KeyPair_new_safe : safe_db.

Lemma Context_new_safe st k : safely (Context_new k) is_object st.
Proof. unfold Context_new, Context_alloc. safe_auto. Qed.

Lemma PrivateKey_generate_safe st k in_context :
  valid_value st in_context -> safely (PrivateKey_generate k in_context) is_object st.
Proof. intros Hc. unfold PrivateKey_generate. safe_auto. Qed.
#[local] Hint Resolve PrivateKey_generate_safe : safe_db.

Lemma Context_generate_key_pair_safe st self :
  valid_value st self -> safely (Context_generate_key_pair self) is_object st.
Proof. intros Hc. unfold Context_generate_key_pair. safe_auto. Qed.

Lemma Context_key_pair_from_private_key_safe st self in_private_key_data :
  valid_value st self -> valid_value st in_private_key_data ->
  safely (Context_key_pair_from_private_key self in_private_key_data) is_object st.
Proof. intros Hc Hk. unfold Context_key_pair_from_private_key. safe_auto. Qed.

Lemma Context_public_key_from_data_safe st self in_public_key_data :
  valid_value st self -> valid_value st in_public_key_data ->
  safely (Context_public_key_from_data self in_public_key_data) is_object st.
Proof. intros Hc Hk. unfold Context_public_key_from_data. safe_auto. Qed.

Lemma Context_sign_safe st self in_private_key in_data :
  valid_value st self -> valid_value st in_private_key -> valid_value st in_data ->
  safely (Context_sign self in_private_key in_data) is_object st.
Proof. intros Hc Hk Hd. unfold Context_sign, Signature_alloc, SignData. safe_auto. Qed.

Lemma Context_verify_safe st self in_signature in_pubkey in_message :
  valid_value st self -> valid_value st in_signature -> valid_value st in_pubkey ->
  valid_value st in_message ->
  safely (Context_verify self in_signature in_pubkey in_message) (fun _ _ => True) st.
Proof. intros Hc Hs Hk Hd. unfold Context_verify. safe_auto. Qed.

Lemma Context_signature_from_der_encoded_safe st self in_der_encoded_signature :
  valid_value st self -> valid_value st in_der_encoded_signature ->
  safely (Context_signature_from_der_encoded self in_der_encoded_signature)
    is_object st.
Proof.
  intros Hc Hd. unfold Context_signature_from_der_encoded, Signature_alloc. safe_auto.
Qed.

Lemma Context_signature_from_compact_safe st self in_compact_signature :
  valid_value st self -> valid_value st in_compact_signature ->
  (forall m, string_at st in_compact_signature = Some m -> (64 <= length m)%nat) ->
  safely (Context_signature_from_compact self in_compact_signature) is_object st.
Proof.
  intros Hc Hd Hlen. unfold Context_signature_from_compact, Signature_alloc. safe_auto.
Qed.

Lemma PublicKey_compressed_safe st self :
  valid_value st self -> safely (PublicKey_compressed self) is_object st.
Proof. intros Hc. unfold PublicKey_compressed. safe_auto. Qed.

Lemma PublicKey_uncompressed_safe st self :
  valid_value st self -> safely (PublicKey_uncompressed self) is_object st.
Proof. intros Hc. unfold PublicKey_uncompressed. safe_auto. Qed.

Lemma Signature_der_encoded_safe st self :
  valid_value st self -> safely (Signature_der_encoded self) is_object st.
Proof. intros Hc. unfold Signature_der_encoded. safe_auto. Qed.

Lemma Signature_compact_safe st self :
  valid_value st self -> safely (Signature_compact self) is_object st.
Proof. intros Hc. unfold Signature_compact. safe_auto. Qed.

Lemma rb_iv_get_safe st self name :
  is_object st self -> safely (rb_iv_get self name) (fun _ _ => True) st.
Proof. intros Hc. safe_auto. Qed.

Lemma wp_defined {A} (m : M A) R X st :
  wp m R X (fun _ _ => False) st -> forall u, (m st).1 <> Undefined u.
Proof. unfold wp. by destruct (m st) as [[a|e|u'] st']. Qed.

Ltac safely_by lem := eapply wp_defined; eapply lem; tauto.


(** ** The public key codec, run *)

Definition public_key_object (pubkey : secp256k1_pubkey)
    (ctx : option secp256k1_context) : rb_object :=
  Build_object Secp256k1_PublicKey_class ∅ (RData_PublicKey (Build_PublicKey pubkey ctx)).

Lemma run_PublicKey_compressed st self p :
  struct_at PublicKey_DataType st self = Some p ->
  let r := secp256k1_ec_pubkey_serialize (PublicKey_ctx p)
             (resize COMPRESSED_PUBKEY_SIZE_BYTES x00 (stack st))
             COMPRESSED_PUBKEY_SIZE_BYTES (PublicKey_pubkey p)
             SECP256K1_EC_COMPRESSED in
  PublicKey_compressed self st =
  (Returned (Obj (length (heap st))),
   allocated st (Build_object rb_cString ∅ (RString (take r.2 r.1.2)))).
Proof.
  intros Hp. simpl. unfold PublicKey_compressed. mrun.
  by destruct (secp256k1_ec_pubkey_serialize _ _ _ _ _) as [[ret out] len].
Qed.

Lemma run_PublicKey_uncompressed st self p :
  struct_at PublicKey_DataType st self = Some p ->
  let r := secp256k1_ec_pubkey_serialize (PublicKey_ctx p)
             (resize UNCOMPRESSED_PUBKEY_SIZE_BYTES x00 (stack st))
             UNCOMPRESSED_PUBKEY_SIZE_BYTES (PublicKey_pubkey p)
             SECP256K1_EC_UNCOMPRESSED in
  PublicKey_uncompressed self st =
  (Returned (Obj (length (heap st))),
   allocated st (Build_object rb_cString ∅ (RString (take r.2 r.1.2)))).
Proof.
  intros Hp. simpl. unfold PublicKey_uncompressed. mrun.
  by destruct (secp256k1_ec_pubkey_serialize _ _ _ _ _) as [[ret out] len].
Qed.

Lemma run_Context_public_key_from_data st self in_public_key_data c m :
  struct_at Context_DataType st self = Some c ->
  string_at st in_public_key_data = Some m ->
  let r := secp256k1_ec_pubkey_parse (Context_ctx c) m (length m) in
  Context_public_key_from_data self in_public_key_data st =
  (if bool_decide (r.1 <> 1)
   then Raised (Exception rb_eRuntimeError "invalid public key data")
   else Returned (Obj (length (heap st))),
   allocated st
     (public_key_object r.2 (secp256k1_context_clone (Context_ctx c)))).
Proof.
  intros Hc Hm. simpl.
  destruct (string_at_inv _ _ _ Hm) as (a & ks & iv & -> & Ha).
  unfold Context_public_key_from_data. mrun. rewrite firstn_all.
  destruct (secp256k1_ec_pubkey_parse _ _ _) as [ret pubkey]. simpl.
  mrun. case_bool_decide; mrun; reflexivity.
Qed.

Lemma run_Check_Type_wrong st v :
  valid_value st v -> string_at st v = None ->
  Check_Type v T_STRING st = (Raised (Exception rb_eTypeError "wrong argument type"), st).
Proof.
  intros Hv Hs. unfold Check_Type. erewrite run_bind by apply run_get_state.
  unfold string_at in Hs. destruct v as [| | |a]; try reflexivity. simpl in *.
  destruct (heap st !! a) as [[k iv p]|] eqn:E.
  - simpl in *. by destruct p.
  - apply lookup_ge_None in E. lia.
Qed.

Lemma run_rb_check_typeddata_wrong {S} (dt : rb_data_type_t S) st v :
  valid_value st v -> struct_at dt st v = None ->
  rb_check_typeddata v dt st
  = (Raised (Exception rb_eTypeError "wrong argument type"), st).
Proof.
  intros Hv Hs. unfold rb_check_typeddata. erewrite run_bind by apply run_get_state.
  unfold struct_at in Hs. destruct v as [| | |a]; try reflexivity. simpl in *.
  destruct (heap st !! a) as [o|] eqn:E.
  - simpl in *. by rewrite Hs.
  - apply lookup_ge_None in E. lia.
Qed.

(** X4.  [PublicKey#compressed] and [PublicKey#uncompressed] do not look at
    what the library returns.  On a public key object they always return
    a new [String]: the bytes the library left in the 33-byte or 65-byte
    buffer, as many as it reported, whatever its return code; nothing is
    raised.  On any other value they raise [TypeError] and change
    nothing. *)
Theorem PublicKey_serialized_outcome st self :
  valid_value st self ->
  let serialized size flags p :=
    let r := secp256k1_ec_pubkey_serialize (PublicKey_ctx p)
               (resize size x00 (stack st)) size (PublicKey_pubkey p) flags in
    (Returned (Obj (length (heap st))),
     allocated st (Build_object rb_cString ∅ (RString (take r.2 r.1.2)))) in
  let wrong_type :=
    (Raised (Exception rb_eTypeError "wrong argument type"), st) in
  match struct_at PublicKey_DataType st self with
  | Some p =>
      PublicKey_compressed self st = serialized 33%nat SECP256K1_EC_COMPRESSED p
      /\ PublicKey_uncompressed self st
         = serialized 65%nat SECP256K1_EC_UNCOMPRESSED p
  | None =>
      PublicKey_compressed self st = wrong_type
      /\ PublicKey_uncompressed self st = wrong_type
  end.
Proof.
  intros Hv. cbv zeta. destruct (struct_at PublicKey_DataType st self) as [p|] eqn:Hp.
  - split.
    + apply (run_PublicKey_compressed _ _ _ Hp).
    + apply (run_PublicKey_uncompressed _ _ _ Hp).
  - unfold PublicKey_compressed, PublicKey_uncompressed. split; mrun.
    + erewrite run_bind_raised; [reflexivity|].
      by apply run_rb_check_typeddata_wrong.
    + erewrite run_bind_raised; [reflexivity|].
      by apply run_rb_check_typeddata_wrong.
Qed.

(** X5.  [Context#public_key_from_data] hands the library the bytes of the
    string and their number, for a string of any length.  It returns a new
    public key object holding what the library parsed when the return code
    is 1, and raises [RuntimeError] otherwise; the object is made before
    the data is parsed, so a refused string leaves an unused public key
    object behind.  An argument that is not a [String] is a [TypeError],
    and then nothing is allocated. *)
Theorem Context_public_key_from_data_outcome st self in_public_key_data c :
  struct_at Context_DataType st self = Some c ->
  valid_value st in_public_key_data ->
  match string_at st in_public_key_data with
  | Some m =>
      let r := secp256k1_ec_pubkey_parse (Context_ctx c) m (length m) in
      Context_public_key_from_data self in_public_key_data st =
      (if bool_decide (r.1 <> 1)
       then Raised (Exception rb_eRuntimeError "invalid public key data")
       else Returned (Obj (length (heap st))),
       allocated st
         (public_key_object r.2 (secp256k1_context_clone (Context_ctx c))))
  | None =>
      Context_public_key_from_data self in_public_key_data st =
      (Raised (Exception rb_eTypeError "wrong argument type"), st)
  end.
Proof.
  intros Hc Hv. destruct (string_at st in_public_key_data) as [m|] eqn:Hm.
  - apply (run_Context_public_key_from_data _ _ _ _ _ Hc Hm).
  - unfold Context_public_key_from_data.
    erewrite run_bind_raised; [reflexivity|]. by apply run_Check_Type_wrong.
Qed.

(** X6.  [Context#signature_from_der_encoded] hands the library the bytes
    of the string and their number, for a string of any length.  It
    returns a new signature object when the return code is 1 and raises
    the DER error otherwise, leaving an unused signature object behind.  An
    argument that is not a [String] is a [TypeError], and then nothing is
    allocated. *)
Theorem Context_signature_from_der_encoded_outcome st self in_der_encoded_signature c :
  struct_at Context_DataType st self = Some c ->
  valid_value st in_der_encoded_signature ->
  match string_at st in_der_encoded_signature with
  | Some m =>
      let r := secp256k1_ecdsa_signature_parse_der (Context_ctx c) m (length m) in
      Context_signature_from_der_encoded self in_der_encoded_signature st =
      if bool_decide (r.1 <> 1) then
        (Raised InvalidDEREncoding, allocated st (signature_object r.2 None))
      else
        (Returned (Obj (length (heap st))),
         allocated st
           (signature_object r.2 (secp256k1_context_clone (Context_ctx c))))
  | None =>
      Context_signature_from_der_encoded self in_der_encoded_signature st =
      (Raised (Exception rb_eTypeError "wrong argument type"), st)
  end.
Proof.
  intros Hc Hv. destruct (string_at st in_der_encoded_signature) as [m|] eqn:Hm.
  - apply (run_Context_signature_from_der_encoded _ _ _ _ _ Hc Hm).
  - unfold Context_signature_from_der_encoded.
    erewrite run_bind_raised; [reflexivity|]. by apply run_Check_Type_wrong.
Qed.

(** The public keys that come out of the library: created from a secret
    key, or parsed from bytes. *)
Inductive library_pubkey : secp256k1_pubkey -> Prop :=
  | pubkey_created ctx seckey pubkey :
      secp256k1_ec_pubkey_create ctx seckey = (1, pubkey) -> library_pubkey pubkey
  | pubkey_parsed ctx input inputlen pubkey :
      secp256k1_ec_pubkey_parse ctx input inputlen = (1, pubkey) ->
      library_pubkey pubkey.

Section PublicKeyCodec.

(** Contract of the library's public key codec.  Serialising a public key
    of the library into a buffer with room for the format asked for
    succeeds and reports the size of the format, 33 or 65 bytes; parsing
    these bytes gives the public key back. *)
Hypothesis pubkey_serialize_parse : forall c1 c2 output outputlen pubkey flags size,
  extension_context c1 -> extension_context c2 -> library_pubkey pubkey ->
  (flags = SECP256K1_EC_COMPRESSED /\ size = 33%nat)
  \/ (flags = SECP256K1_EC_UNCOMPRESSED /\ size = 65%nat) ->
  length output = outputlen -> (size <= outputlen)%nat ->
  let r := secp256k1_ec_pubkey_serialize c1 output outputlen pubkey flags in
  r.1.1 = 1 /\ r.2 = size /\ (size <= length r.1.2)%nat
  /\ secp256k1_ec_pubkey_parse c2 (take size r.1.2) size = (1, pubkey).

(** X7.  A public key object turned into bytes and loaded again is the same
    public key, in both formats; the compressed form has 33 bytes and the
    uncompressed form 65. *)
Theorem public_key_round_trip st self context p c :
  struct_at PublicKey_DataType st self = Some p ->
  library_pubkey (PublicKey_pubkey p) ->
  extension_context (PublicKey_ctx p) ->
  struct_at Context_DataType st context = Some c ->
  extension_context (Context_ctx c) ->
  let round_trip (serialise : VALUE -> M VALUE) (size : nat) :=
    exists data st1 bytes parsed st2 p',
      serialise self st = (Returned data, st1)
      /\ string_at st1 data = Some bytes
      /\ length bytes = size
      /\ Context_public_key_from_data context data st1 = (Returned parsed, st2)
      /\ struct_at PublicKey_DataType st2 parsed = Some p'
      /\ PublicKey_pubkey p' = PublicKey_pubkey p in
  round_trip PublicKey_compressed 33%nat
  /\ round_trip PublicKey_uncompressed 65%nat.
Proof.
  intros Hp Hlib Hpc Hc Hcc. cbv zeta.
  assert (Hgen : forall flags size,
            (flags = SECP256K1_EC_COMPRESSED /\ size = 33%nat)
            \/ (flags = SECP256K1_EC_UNCOMPRESSED /\ size = 65%nat) ->
            let r := secp256k1_ec_pubkey_serialize (PublicKey_ctx p)
                       (resize size x00 (stack st)) size (PublicKey_pubkey p) flags in
            let st1 := allocated st
                         (Build_object rb_cString ∅ (RString (take r.2 r.1.2))) in
            exists bytes parsed st2 p',
              string_at st1 (Obj (length (heap st))) = Some bytes
              /\ length bytes = size
              /\ Context_public_key_from_data context (Obj (length (heap st))) st1
                 = (Returned parsed, st2)
              /\ struct_at PublicKey_DataType st2 parsed = Some p'
              /\ PublicKey_pubkey p' = PublicKey_pubkey p).
  { intros flags size Hfmt. cbv zeta.
    destruct (pubkey_serialize_parse (PublicKey_ctx p) (Context_ctx c)
                (resize size x00 (stack st)) size (PublicKey_pubkey p) flags size
                Hpc Hcc Hlib Hfmt) as (Hret & Hsize & Hbuf & Hparse);
      [by rewrite length_resize | done |].
    destruct (secp256k1_ec_pubkey_serialize _ _ _ _ _) as [[ret out] len].
    cbn [fst snd] in *. subst ret len.
    assert (Hlen : length (take size out) = size) by (rewrite length_take; lia).
    do 4 eexists. split; [apply string_at_new|]. split; [exact Hlen|].
    split; [|split].
    - erewrite run_Context_public_key_from_data;
        [| by apply struct_at_allocated | by apply string_at_new].
      cbv zeta. rewrite Hlen, Hparse. cbn [fst snd].
      rewrite bool_decide_false by (intros ?; done). reflexivity.
    - apply struct_at_new. reflexivity.
    - reflexivity. }
  split.
  - destruct (Hgen SECP256K1_EC_COMPRESSED 33%nat) as (b & v & st2 & p' & H);
      [by left|].
    eexists _, _, b, v, st2, p'. split; [|exact H].
    apply (run_PublicKey_compressed _ _ _ Hp).
  - destruct (Hgen SECP256K1_EC_UNCOMPRESSED 65%nat) as (b & v & st2 & p' & H);
      [by right|].
    eexists _, _, b, v, st2, p'. split; [|exact H].
    apply (run_PublicKey_uncompressed _ _ _ Hp).
Qed.

End PublicKeyCodec.

(** ** Key pairs, run *)

Definition private_key_object (k : rb_class) (data : VALUE) (bytes : list byte)
    (ctx : option secp256k1_context) : rb_object :=
  Build_object k {[ "@data" := data ]} (RData_PrivateKey (Build_PrivateKey bytes ctx)).

(** A private key object as the allocator leaves it. *)
Definition private_key_stub (k : rb_class) : rb_object :=
  Build_object k ∅ (RData_PrivateKey (Build_PrivateKey (replicate 32 x00) None)).

Definition key_pair_object (k : rb_class) (public_key private_key : VALUE) : rb_object :=
  Build_object k
    (<[ "@private_key" := private_key ]> {[ "@public_key" := public_key ]})
    (RData_KeyPair (Build_KeyPair public_key private_key)).

Lemma run_PrivateKey_new_rejected st k in_context in_private_key_data c bytes :
  struct_at Context_DataType st in_context = Some c ->
  string_at st in_private_key_data = Some bytes ->
  length bytes <> 32%nat \/ secp256k1_ec_seckey_verify (Context_ctx c) bytes <> 1 ->
  PrivateKey_new k in_context in_private_key_data st =
  (Raised (if bool_decide (length bytes <> 32%nat) then InvalidKeyLength
           else InvalidPrivateKey),
   allocated st (private_key_stub k)).
Proof.
  intros Hc Hb Hbad.
  destruct (string_at_inv _ _ _ Hb) as (b & ks & iv & -> & Hhb).
  unfold PrivateKey_new, PrivateKey_alloc, PrivateKey_initialize. mrun.
  case_bool_decide as Hlen; [reflexivity|].
  assert (Hl : length bytes = 32%nat) by lia.
  destruct Hbad as [?|Hv]; [done|].
  mrun. rewrite take_ge by lia. rewrite bool_decide_true by done. reflexivity.
Qed.

Lemma run_PublicKey_new_failed st k in_context in_private_key c sk :
  struct_at Context_DataType st in_context = Some c ->
  struct_at PrivateKey_DataType st in_private_key = Some sk ->
  let r := secp256k1_ec_pubkey_create (Context_ctx c) (PrivateKey_data sk) in
  r.1 = 0 ->
  PublicKey_new k in_context in_private_key st =
  (Raised KeyDerivationError,
   allocated st (Build_object k ∅ (RData_PublicKey (Build_PublicKey r.2 None)))).
Proof.
  intros Hc Hk r Hr. subst r.
  unfold PublicKey_new, PublicKey_alloc, PublicKey_initialize. mrun.
  destruct (secp256k1_ec_pubkey_create _ _) as [ret pubkey]. cbn [fst snd] in *.
  mrun. rewrite bool_decide_true by done. reflexivity.
Qed.

Lemma run_Context_key_pair_from_private_key st self in_private_key_data c bytes :
  struct_at Context_DataType st self = Some c ->
  string_at st in_private_key_data = Some bytes ->
  let n := length (heap st) in
  let ctx := secp256k1_context_clone (Context_ctx c) in
  let r := secp256k1_ec_pubkey_create (Context_ctx c) bytes in
  let stub := allocated st (private_key_stub Secp256k1_PrivateKey_class) in
  let st1 :=
    allocated st
      (private_key_object Secp256k1_PrivateKey_class in_private_key_data bytes ctx) in
  Context_key_pair_from_private_key self in_private_key_data st =
  if bool_decide (length bytes <> 32%nat) then (Raised InvalidKeyLength, stub)
  else if bool_decide (secp256k1_ec_seckey_verify (Context_ctx c) bytes <> 1)
  then (Raised InvalidPrivateKey, stub)
  else if bool_decide (r.1 = 0)
  then (Raised KeyDerivationError, allocated st1 (public_key_object r.2 None))
  else
    (Returned (Obj (2 + n)),
     allocated (allocated st1 (public_key_object r.2 ctx))
       (key_pair_object Secp256k1_KeyPair_class (Obj (1 + n)) (Obj n))).
Proof.
  intros Hc Hb. cbv zeta. unfold Context_key_pair_from_private_key.
  case_bool_decide as Hlen.
  { erewrite run_bind_raised; [reflexivity|].
    erewrite run_PrivateKey_new_rejected by eauto.
    rewrite bool_decide_true by done. reflexivity. }
  case_bool_decide as Hvalid.
  { erewrite run_bind_raised; [reflexivity|].
    erewrite run_PrivateKey_new_rejected by eauto.
    rewrite bool_decide_false by lia. reflexivity. }
  assert (Hl : length bytes = 32%nat) by lia.
  assert (Hv : secp256k1_ec_seckey_verify (Context_ctx c) bytes = 1).
  { destruct (decide (secp256k1_ec_seckey_verify (Context_ctx c) bytes = 1)); done. }
  mstep ltac:(eapply run_PrivateKey_new; eauto).
  fold (private_key_object Secp256k1_PrivateKey_class in_private_key_data bytes
          (secp256k1_context_clone (Context_ctx c))).
  set (st1 := allocated st _).
  assert (Hsk : struct_at PrivateKey_DataType st1 (Obj (length (heap st)))
                = Some (Build_PrivateKey bytes (secp256k1_context_clone (Context_ctx c))))
    by (apply struct_at_new; reflexivity).
  assert (Hn1 : length (heap st1) = (1 + length (heap st))%nat).
  { unfold st1. cbn [heap allocated]. rewrite length_app. cbn [length]. lia. }
  case_bool_decide as Hderive.
  { erewrite run_bind_raised; [reflexivity|].
    apply (run_PublicKey_new_failed st1 _ self (Obj (length (heap st))) c
             (Build_PrivateKey bytes (secp256k1_context_clone (Context_ctx c))));
      [by apply struct_at_allocated | exact Hsk | exact Hderive]. }
  mstep ltac:(eapply (run_PublicKey_new st1 _ self (Obj (length (heap st))));
              [by apply struct_at_allocated | exact Hsk | exact Hderive]).
  cbn [PrivateKey_data].
  fold (public_key_object (secp256k1_ec_pubkey_create (Context_ctx c) bytes).2
          (secp256k1_context_clone (Context_ctx c))).
  set (st2 := allocated st1 _).
  assert (Hn2 : length (heap st2) = (2 + length (heap st))%nat).
  { unfold st2. cbn [heap allocated]. rewrite length_app, Hn1. cbn [length]. lia. }
  rewrite Hn1.
  mstep ltac:(eapply (run_KeyPair_new st2 _ (Obj (1 + length (heap st)))
                        (Obj (length (heap st))));
              [ rewrite <- Hn1; apply struct_at_new; reflexivity
              | by apply struct_at_allocated ]).
  rewrite Hn2. reflexivity.
Qed.

(** ** Generated keys *)

Lemma run_PrivateKey_generate k in_context st :
  let g := RAND_bytes (rand st) (resize 32 x00 (stack st)) 32 in
  let drawn := Build_State (heap st) g.2 (stack st) in
  PrivateKey_generate k in_context st =
  if bool_decide (RAND_status (rand st) = 0) then (Raised KeyGenerationError, st)
  else if bool_decide (g.1.1 <> 1) then (Raised KeyGenerationError, drawn)
  else
    PrivateKey_new k in_context (Obj (length (heap st)))
      (allocated drawn (Build_object rb_cString ∅ (RString (take 32 g.1.2)))).
Proof.
  cbv zeta. unfold PrivateKey_generate. mrun.
  unfold mbind at 1, M_bind at 1. rewrite run_GenerateRandomBytes.
  case_bool_decide; [reflexivity|].
  destruct (RAND_bytes _ _ _) as [[ret out] r]. cbn [fst snd].
  case_bool_decide; [reflexivity|].
  change (FAILURE RESULT_SUCCESS) with false. cbv iota. mrun. reflexivity.
Qed.

Lemma run_Context_generate_key_pair self st :
  let g := RAND_bytes (rand st) (resize 32 x00 (stack st)) 32 in
  let drawn := Build_State (heap st) g.2 (stack st) in
  Context_generate_key_pair self st =
  if bool_decide (RAND_status (rand st) = 0) then (Raised KeyGenerationError, st)
  else if bool_decide (g.1.1 <> 1) then (Raised KeyGenerationError, drawn)
  else
    Context_key_pair_from_private_key self (Obj (length (heap st)))
      (allocated drawn (Build_object rb_cString ∅ (RString (take 32 g.1.2)))).
Proof.
  cbv zeta. unfold Context_generate_key_pair, Context_key_pair_from_private_key.
  unfold mbind at 1, M_bind at 1. rewrite run_PrivateKey_generate.
  repeat case_bool_decide; reflexivity.
Qed.

(** X8.  [Context#generate_key_pair] is [Context#key_pair_from_private_key]
    on 32 bytes drawn from OpenSSL: when the generator is seeded and
    [RAND_bytes] returns 1, the call is, step for step, the construction of
    a key pair from a new [String] holding the bytes drawn; otherwise it
    raises [RuntimeError] and allocates nothing.  [PrivateKey.generate] is
    [PrivateKey.new] on bytes drawn in the same way. *)
Theorem generate_draws_then_builds self st :
  let g := RAND_bytes (rand st) (resize 32 x00 (stack st)) 32 in
  let drawn := Build_State (heap st) g.2 (stack st) in
  let new_string :=
    allocated drawn (Build_object rb_cString ∅ (RString (take 32 g.1.2))) in
  let data := Obj (length (heap st)) in
  let failed :=
    if bool_decide (RAND_status (rand st) = 0)
    then Some (Raised KeyGenerationError, st)
    else if bool_decide (g.1.1 <> 1) then Some (Raised KeyGenerationError, drawn)
    else None in
  Context_generate_key_pair self st
  = default (Context_key_pair_from_private_key self data new_string) failed
  /\ PrivateKey_generate Secp256k1_PrivateKey_class self st
     = default (PrivateKey_new Secp256k1_PrivateKey_class self data new_string) failed.
Proof.
  cbv zeta. rewrite run_Context_generate_key_pair, run_PrivateKey_generate.
  cbv zeta. by repeat case_bool_decide.
Qed.

(** X9.  [Context.new] adds exactly one object to the heap: a [Context]
    holding the library context that was created for signing and
    verification and then randomized, which is one of the extension's
    contexts.  The seed is what [RAND_bytes] wrote when the generator is
    seeded.  The call raises exactly when the return code of
    [secp256k1_context_randomize] is not 1. *)
Theorem Context_new_outcome k st :
  let created :=
    secp256k1_context_create (Z.lor SECP256K1_CONTEXT_SIGN SECP256K1_CONTEXT_VERIFY) in
  let local := resize 32 x00 (stack st) in
  let g := RAND_bytes (rand st) local 32 in
  let unseeded := bool_decide (RAND_status (rand st) = 0) in
  let r := secp256k1_context_randomize created (if unseeded then local else g.1.2) in
  Context_new k st =
  (if bool_decide (r.1 <> 1) then Raised RandomizationError
   else Returned (Obj (length (heap st))),
   Build_State
     (heap st ++ [Build_object k ∅ (RData_Context (Build_Context r.2))])
     (if unseeded then rand st else g.2) (stack st))
  /\ extension_context r.2.
Proof.
  cbv zeta. split.
  - apply run_Context_new.
  - apply context_randomized, context_created.
Qed.

(** X10.  What [Context#key_pair_from_private_key] does with a string, in
    every case.  A string that is not 32 bytes long, or that the library
    refuses as a secret key, is an [ArgumentError]; what is left behind is
    one private key object as the allocator made it, holding no key and no
    context.  A failing derivation of the public key is a [TypeError].  In
    these three cases no key pair object is made.  Otherwise three objects
    are made: the private key holding the 32 bytes, the public key the
    library derived from them, and the pair that refers to the two. *)
Theorem Context_key_pair_from_private_key_outcome st self in_private_key_data c bytes :
  struct_at Context_DataType st self = Some c ->
  string_at st in_private_key_data = Some bytes ->
  let n := length (heap st) in
  let ctx := secp256k1_context_clone (Context_ctx c) in
  let r := secp256k1_ec_pubkey_create (Context_ctx c) bytes in
  let stub := allocated st (private_key_stub Secp256k1_PrivateKey_class) in
  let st1 :=
    allocated st
      (private_key_object Secp256k1_PrivateKey_class in_private_key_data bytes ctx) in
  Context_key_pair_from_private_key self in_private_key_data st =
  if bool_decide (length bytes <> 32%nat) then (Raised InvalidKeyLength, stub)
  else if bool_decide (secp256k1_ec_seckey_verify (Context_ctx c) bytes <> 1)
  then (Raised InvalidPrivateKey, stub)
  else if bool_decide (r.1 = 0)
  then (Raised KeyDerivationError, allocated st1 (public_key_object r.2 None))
  else
    (Returned (Obj (2 + n)),
     allocated (allocated st1 (public_key_object r.2 ctx))
       (key_pair_object Secp256k1_KeyPair_class (Obj (1 + n)) (Obj n))).
Proof. apply run_Context_key_pair_from_private_key. Qed.

Lemma struct_at_set_rand {S} (dt : rb_data_type_t S) st r v :
  struct_at dt (Build_State (heap st) r (stack st)) v = struct_at dt st v.
Proof. by destruct v. Qed.

Lemma string_at_set_rand st r v :
  string_at (Build_State (heap st) r (stack st)) v = string_at st v.
Proof. by destruct v. Qed.

Lemma run_rb_iv_get st v o name :
  lookup_object v st = Some o ->
  rb_iv_get v name st = (Returned (default Qnil (ivars o !! name)), st).
Proof.
  intros H. unfold rb_iv_get. erewrite run_bind by apply run_get_state.
  by rewrite H.
Qed.

Section KeyPairs.

(** Contract of the libraries behind key pairs, signing and verification,
    as in the sections above: a SHA-256 digest has 32 bytes; on a secret key
    that [secp256k1_ec_seckey_verify] accepts, the creation of the public
    key and the signing of a 32-byte hash with the default nonce function
    succeed; and the signature verifies against that public key. *)
Hypothesis SHA256_length : forall m, length (SHA256 m) = 32%nat.

Hypothesis ec_pubkey_create_valid_key : forall ctx cv seckey,
  extension_context ctx -> extension_context cv ->
  length seckey = 32%nat ->
  secp256k1_ec_seckey_verify cv seckey = 1 ->
  (secp256k1_ec_pubkey_create ctx seckey).1 = 1.

Hypothesis ecdsa_sign_valid_key : forall ctx cv msg32 seckey,
  extension_context ctx -> extension_context cv ->
  length msg32 = 32%nat -> length seckey = 32%nat ->
  secp256k1_ec_seckey_verify cv seckey = 1 ->
  (secp256k1_ecdsa_sign ctx msg32 seckey None None).1 = 1.

Hypothesis ecdsa_verify_sign : forall ctx cd cv msg32 seckey sig pubkey,
  extension_context ctx -> extension_context cd -> extension_context cv ->
  length msg32 = 32%nat -> length seckey = 32%nat ->
  secp256k1_ecdsa_sign ctx msg32 seckey None None = (1, sig) ->
  secp256k1_ec_pubkey_create cd seckey = (1, pubkey) ->
  secp256k1_ecdsa_verify cv sig msg32 pubkey = 1.

(** What is true of the three objects that a successful
    [Context#key_pair_from_private_key] makes. *)
Lemma key_pair_facts st self in_private_key_data c bytes :
  struct_at Context_DataType st self = Some c ->
  extension_context (Context_ctx c) ->
  string_at st in_private_key_data = Some bytes ->
  length bytes = 32%nat ->
  secp256k1_ec_seckey_verify (Context_ctx c) bytes = 1 ->
  let n := length (heap st) in
  exists st',
    Context_key_pair_from_private_key self in_private_key_data st
    = (Returned (Obj (2 + n)), st')
    /\ rand st' = rand st
    /\ KeyPair_public_key_reader (Obj (2 + n)) st' = (Returned (Obj (1 + n)), st')
    /\ KeyPair_private_key_reader (Obj (2 + n)) st' = (Returned (Obj n), st')
    /\ struct_at KeyPair_DataType st' (Obj (2 + n))
       = Some (Build_KeyPair (Obj (1 + n)) (Obj n))
    /\ struct_at PrivateKey_DataType st' (Obj n)
       = Some (Build_PrivateKey bytes (secp256k1_context_clone (Context_ctx c)))
    /\ valid_key_pair st' (Obj n) (Obj (1 + n))
    /\ exposed_data st' (Obj n) = Some bytes
    /\ ivar_at st' (Obj n) "@data" = Some in_private_key_data
    /\ (forall v o, lookup_object v st = Some o -> lookup_object v st' = Some o).
Proof.
  intros Hc Hctx Hb Hl Hv n.
  pose proof (ec_pubkey_create_valid_key _ _ bytes Hctx Hctx Hl Hv) as Hcreate.
  pose proof (run_Context_key_pair_from_private_key st self in_private_key_data c bytes
                Hc Hb) as Hrun.
  cbv zeta in Hrun.
  rewrite bool_decide_false in Hrun by (intros ?; done).
  rewrite bool_decide_false in Hrun by (intros ?; done).
  rewrite bool_decide_false in Hrun by (rewrite Hcreate; discriminate).
  destruct (secp256k1_ec_pubkey_create (Context_ctx c) bytes) as [ret pubkey] eqn:Hpub.
  cbn [fst snd] in *. subst ret.
  set (o1 := private_key_object _ _ _ _) in Hrun.
  set (o2 := public_key_object _ _) in Hrun.
  set (o3 := key_pair_object _ _ _) in Hrun.
  set (st' := allocated (allocated (allocated st o1) o2) o3) in *.
  assert (Hheap : heap st' = heap st ++ [o1; o2; o3]).
  { unfold st'. cbn [heap allocated]. by rewrite <- !app_assoc. }
  assert (H1 : heap st' !! n = Some o1).
  { rewrite Hheap. rewrite lookup_app_r by (unfold n; lia).
    by replace (n - length (heap st))%nat with 0%nat by (unfold n; lia). }
  assert (H2 : heap st' !! (1 + n)%nat = Some o2).
  { rewrite Hheap. rewrite lookup_app_r by (unfold n; lia).
    by replace (1 + n - length (heap st))%nat with 1%nat by (unfold n; lia). }
  assert (H3 : heap st' !! (2 + n)%nat = Some o3).
  { rewrite Hheap. rewrite lookup_app_r by (unfold n; lia).
    by replace (2 + n - length (heap st))%nat with 2%nat by (unfold n; lia). }
  assert (Hold : forall v o, lookup_object v st = Some o -> lookup_object v st' = Some o).
  { intros v o Ho. by do 3 apply lookup_object_allocated. }
  exists st'. split; [exact Hrun|]. split; [reflexivity|].
  split; [|split; [|split; [|split; [|split; [|split; [|split]]]]]].
  - unfold KeyPair_public_key_reader.
    erewrite run_rb_iv_get by exact H3. unfold o3, key_pair_object. cbn [ivars].
    rewrite lookup_insert_ne by done. by rewrite lookup_singleton_eq.
  - unfold KeyPair_private_key_reader.
    erewrite run_rb_iv_get by exact H3. unfold o3, key_pair_object. cbn [ivars].
    by rewrite lookup_insert_eq.
  - unfold struct_at. cbn [lookup_object]. by rewrite H3.
  - unfold struct_at. cbn [lookup_object]. by rewrite H1.
  - exists (Build_PrivateKey bytes (secp256k1_context_clone (Context_ctx c))),
           (Build_PublicKey pubkey (secp256k1_context_clone (Context_ctx c))),
           (Context_ctx c), (Context_ctx c).
    unfold struct_at. cbn [lookup_object]. rewrite H1, H2.
    cbn [PrivateKey_data PublicKey_pubkey]. done.
  - unfold exposed_data, PrivateKey_data_reader.
    erewrite run_rb_iv_get by exact H1. unfold o1, private_key_object. cbn [ivars].
    rewrite lookup_singleton_eq. cbn [default from_option id].
    unfold string_at in *.
    destruct (lookup_object in_private_key_data st) as [o|] eqn:Ho; [|discriminate].
    by rewrite (Hold _ _ Ho).
  - unfold ivar_at. cbn [lookup_object]. rewrite H1. unfold o1, private_key_object.
    cbn [ivars]. simpl. by rewrite lookup_singleton_eq.
  - exact Hold.
Qed.

(** X11.  End to end, by way of the methods alone: the key pair that
    [Context#key_pair_from_private_key] makes from 32 bytes the library
    accepts has readers that return its two members; a message signed with
    the private key so returned verifies against the public key so
    returned. *)
Theorem key_pair_signs_and_verifies st self in_private_key_data in_data c bytes m :
  struct_at Context_DataType st self = Some c ->
  extension_context (Context_ctx c) ->
  string_at st in_private_key_data = Some bytes ->
  length bytes = 32%nat ->
  secp256k1_ec_seckey_verify (Context_ctx c) bytes = 1 ->
  string_at st in_data = Some m ->
  exists key_pair st1 private_key public_key signature st2,
    Context_key_pair_from_private_key self in_private_key_data st
    = (Returned key_pair, st1)
    /\ KeyPair_private_key_reader key_pair st1 = (Returned private_key, st1)
    /\ KeyPair_public_key_reader key_pair st1 = (Returned public_key, st1)
    /\ Context_sign self private_key in_data st1 = (Returned signature, st2)
    /\ Context_verify self signature public_key in_data st2 = (Returned Qtrue, st2).
Proof.
  intros Hc Hctx Hb Hl Hv Hm.
  destruct (key_pair_facts _ _ _ _ _ Hc Hctx Hb Hl Hv)
    as (st1 & Hrun & _ & Hpub & Hpriv & _ & Hsk & Hvalid & _ & _ & Hold).
  destruct Hvalid as (k & p & kv & kd & Hk & Hp & Hlen & Hkv & Hkvalid & Hkd & Hderive).
  rewrite Hsk in Hk. injection Hk as <-. cbn [PrivateKey_data] in *.
  assert (Hc1 : struct_at Context_DataType st1 self = Some c).
  { unfold struct_at in *.
    destruct (lookup_object self st) as [o|] eqn:Ho; [|discriminate].
    by rewrite (Hold _ _ Ho). }
  assert (Hm1 : string_at st1 in_data = Some m).
  { unfold string_at in *.
    destruct (lookup_object in_data st) as [o|] eqn:Ho; [|discriminate].
    by rewrite (Hold _ _ Ho). }
  destruct (secp256k1_ecdsa_sign (Context_ctx c) (SHA256 m) bytes None None)
    as [ret sig] eqn:Hsign.
  assert (ret = 1) as ->.
  { change ret with (ret, sig).1. rewrite <- Hsign.
    apply (ecdsa_sign_valid_key (Context_ctx c) kv); auto. }
  do 6 eexists. split; [exact Hrun|]. split; [exact Hpriv|]. split; [exact Hpub|].
  split.
  - eapply Context_sign_returns; eauto.
  - eapply (Context_verify_accepts _ _ _ _ _ c (Build_Signature sig _) p m).
    + by apply struct_at_allocated.
    + apply struct_at_new. reflexivity.
    + by apply struct_at_allocated.
    + by apply string_at_allocated.
    + cbn [Signature_sig].
      apply (ecdsa_verify_sign (Context_ctx c) kd (Context_ctx c) (SHA256 m) bytes);
        auto.
Qed.

(** X12.  [Context#generate_key_pair], when OpenSSL delivers 32 bytes that
    the library accepts as a secret key, returns a valid key pair: its
    private key holds exactly the bytes drawn, its public key is the one
    the library derives from them, and the [data] reader of the private key
    shows the bytes drawn, in a [String] made by the call itself.  The
    generator is left in the state [RAND_bytes] put it in. *)
Theorem Context_generate_key_pair_valid st self c out r :
  struct_at Context_DataType st self = Some c ->
  extension_context (Context_ctx c) ->
  RAND_status (rand st) <> 0 ->
  RAND_bytes (rand st) (resize 32 x00 (stack st)) 32 = (1, out, r) ->
  length out = 32%nat ->
  secp256k1_ec_seckey_verify (Context_ctx c) out = 1 ->
  exists key_pair st' private_key public_key k,
    Context_generate_key_pair self st = (Returned key_pair, st')
    /\ struct_at KeyPair_DataType st' key_pair
       = Some (Build_KeyPair public_key private_key)
    /\ valid_key_pair st' private_key public_key
    /\ struct_at PrivateKey_DataType st' private_key = Some k
    /\ PrivateKey_data k = out
    /\ exposed_data st' private_key = Some out
    /\ (exists data, ivar_at st' private_key "@data" = Some data /\ fresh st data)
    /\ rand st' = r.
Proof.
  intros Hc Hctx Hseeded Hdraw Hlen Hvalid.
  pose proof (run_Context_generate_key_pair self st) as Hrun. cbv zeta in Hrun.
  rewrite Hdraw in Hrun. cbn [fst snd] in Hrun.
  rewrite bool_decide_false in Hrun by done.
  rewrite bool_decide_false in Hrun by (intros ?; done).
  rewrite take_ge in Hrun by lia.
  set (st1 := allocated _ _) in Hrun.
  assert (Hc1 : struct_at Context_DataType st1 self = Some c).
  { apply struct_at_allocated. by rewrite struct_at_set_rand. }
  assert (Hs1 : string_at st1 (Obj (length (heap st))) = Some out).
  { apply (string_at_new (Build_State (heap st) r (stack st))). }
  destruct (key_pair_facts _ _ _ _ _ Hc1 Hctx Hs1 Hlen Hvalid)
    as (st' & Hkp & Hrand & _ & _ & Hpair & Hsk & Hvp & Hdata & Hivar & _).
  rewrite Hkp in Hrun.
  eexists _, st', _, _, _. split; [exact Hrun|]. split; [exact Hpair|].
  split; [exact Hvp|]. split; [exact Hsk|]. split; [reflexivity|].
  split; [exact Hdata|]. split; [|by rewrite Hrand].
  eexists. split; [exact Hivar|]. eexists. split; [reflexivity | lia].
Qed.

End KeyPairs.

(** X13.  A draw that the library refuses as a secret key is not made
    again: [PrivateKey.generate] and [Context#generate_key_pair] then raise
    the [ArgumentError] of an invalid private key.  The bytes have been
    consumed from the generator, and the heap has gained the [String] of
    the bytes drawn and a private key object with no key in it. *)
Theorem generate_does_not_retry st self c out r :
  struct_at Context_DataType st self = Some c ->
  RAND_status (rand st) <> 0 ->
  RAND_bytes (rand st) (resize 32 x00 (stack st)) 32 = (1, out, r) ->
  length out = 32%nat ->
  secp256k1_ec_seckey_verify (Context_ctx c) out <> 1 ->
  let st' :=
    Build_State
      (heap st ++ [Build_object rb_cString ∅ (RString out);
                   private_key_stub Secp256k1_PrivateKey_class])
      r (stack st) in
  PrivateKey_generate Secp256k1_PrivateKey_class self st = (Raised InvalidPrivateKey, st')
  /\ Context_generate_key_pair self st = (Raised InvalidPrivateKey, st').
Proof.
  intros Hc Hseeded Hdraw Hlen Hbad. cbv zeta.
  rewrite run_Context_generate_key_pair, run_PrivateKey_generate. cbv zeta.
  rewrite Hdraw. cbn [fst snd].
  rewrite !(bool_decide_false (RAND_status (rand st) = 0)) by done.
  rewrite !(bool_decide_false (1 <> 1)) by (intros ?; done).
  rewrite take_ge by lia.
  set (st1 := allocated _ _).
  assert (Hc1 : struct_at Context_DataType st1 self = Some c).
  { apply struct_at_allocated. by rewrite struct_at_set_rand. }
  assert (Hs1 : string_at st1 (Obj (length (heap st))) = Some out).
  { apply (string_at_new (Build_State (heap st) r (stack st))). }
  assert (Hst' : allocated st1 (private_key_stub Secp256k1_PrivateKey_class)
                 = Build_State
                     (heap st ++ [Build_object rb_cString ∅ (RString out);
                                  private_key_stub Secp256k1_PrivateKey_class])
                     r (stack st)).
  { unfold st1, allocated. cbn [heap rand stack]. by rewrite <- app_assoc. }
  split.
  - rewrite (run_PrivateKey_new_rejected _ _ _ _ _ _ Hc1 Hs1) by (by right).
    rewrite bool_decide_false by lia. by rewrite Hst'.
  - rewrite (run_Context_key_pair_from_private_key _ _ _ _ _ Hc1 Hs1). cbv zeta.
    rewrite bool_decide_false by lia. rewrite bool_decide_true by done.
    by rewrite Hst'.
Qed.

(** X14.  [Context#sign] and [Context#verify] check their arguments before
    they do anything else.  If the receiver is not a [Context], the key
    not a [PrivateKey] (or the signature not a [Signature], the public key
    not a [PublicKey]), or the message not a [String], the call raises
    [TypeError] and the state is exactly what it was: nothing has been
    allocated, hashed or signed. *)
Theorem sign_and_verify_check_types
    st self in_private_key in_signature in_pubkey in_data :
  valid_value st self -> valid_value st in_private_key ->
  valid_value st in_signature -> valid_value st in_pubkey ->
  valid_value st in_data ->
  let type_error :=
    (Raised (Exception rb_eTypeError "wrong argument type"), st) in
  (struct_at Context_DataType st self = None
   \/ struct_at PrivateKey_DataType st in_private_key = None
   \/ string_at st in_data = None ->
   Context_sign self in_private_key in_data st = type_error)
  /\ (struct_at Context_DataType st self = None
      \/ struct_at Signature_DataType st in_signature = None
      \/ struct_at PublicKey_DataType st in_pubkey = None
      \/ string_at st in_data = None ->
      Context_verify self in_signature in_pubkey in_data st = type_error).
Proof.
  intros Hself Hkey Hsig Hpub Hdata. cbv zeta.
  assert (Hraise : forall {B S} (dt : rb_data_type_t S) v (f : S -> M B),
            valid_value st v -> struct_at dt st v = None ->
            (TypedData_Get_Struct v dt ≫= f) st
            = (Raised (Exception rb_eTypeError "wrong argument type"), st)).
  { intros B S dt v f Hv Hnone. erewrite run_bind_raised; [reflexivity|].
    by apply run_rb_check_typeddata_wrong. }
  split; intros Hbad.
  - unfold Context_sign.
    destruct (string_at st in_data) as [m|] eqn:Hm.
    2:{ erewrite run_bind_raised; [reflexivity|]. by apply run_Check_Type_wrong. }
    mrun.
    destruct (struct_at Context_DataType st self) as [c|] eqn:Hc;
      [|by apply Hraise].
    mrun.
    destruct (struct_at PrivateKey_DataType st in_private_key) as [k|] eqn:Hk;
      [|by apply Hraise].
    by destruct Hbad as [?|[?|?]].
  - unfold Context_verify.
    destruct (string_at st in_data) as [m|] eqn:Hm.
    2:{ erewrite run_bind_raised; [reflexivity|]. by apply run_Check_Type_wrong. }
    mrun.
    destruct (struct_at Context_DataType st self) as [c|] eqn:Hc;
      [|by apply Hraise].
    mrun.
    destruct (struct_at PublicKey_DataType st in_pubkey) as [p|] eqn:Hp;
      [|by apply Hraise].
    mrun.
    destruct (struct_at Signature_DataType st in_signature) as [sg|] eqn:Hs;
      [|by apply Hraise].
    by destruct Hbad as [?|[?|[?|?]]].
Qed.

(** X15.  [Signature#der_encoded] and [Signature#compact], unlike the two
    methods of [PublicKey], do look at what the library returns: on a
    signature object they raise [RuntimeError], and allocate nothing, when
    the return code is not 1; otherwise they return a new [String], the
    bytes the library reported for the DER form (in a buffer of 512 bytes)
    and the 64 bytes of the compact form.  On any other value they raise
    [TypeError] and change nothing. *)
Theorem Signature_serialized_outcome st self :
  valid_value st self ->
  let new_string bytes :=
    (Returned (Obj (length (heap st))),
     allocated st (Build_object rb_cString ∅ (RString bytes))) in
  match struct_at Signature_DataType st self with
  | Some sg =>
      let der := secp256k1_ecdsa_signature_serialize_der (Signature_ctx sg)
                   (resize 512 x00 (stack st)) 512 (Signature_sig sg) in
      let compact := secp256k1_ecdsa_signature_serialize_compact (Signature_ctx sg)
                       (Signature_sig sg) in
      Signature_der_encoded self st
      = (if bool_decide (der.1.1 <> 1)
         then (Raised (Exception rb_eRuntimeError
                         "could not compute DER encoded signature"), st)
         else new_string (take der.2 der.1.2))
      /\ Signature_compact self st
         = (if bool_decide (compact.1 <> 1)
            then (Raised (Exception rb_eRuntimeError
                            "unable to compute compact signature"), st)
            else new_string (take 64 compact.2))
  | None =>
      Signature_der_encoded self st
      = (Raised (Exception rb_eTypeError "wrong argument type"), st)
      /\ Signature_compact self st
         = (Raised (Exception rb_eTypeError "wrong argument type"), st)
  end.
Proof.
  intros Hv. cbv zeta. destruct (struct_at Signature_DataType st self) as [sg|] eqn:Hs.
  - split.
    + apply (run_Signature_der_encoded _ _ _ Hs).
    + apply (run_Signature_compact _ _ _ Hs).
  - unfold Signature_der_encoded, Signature_compact. split.
    + erewrite run_bind_raised; [reflexivity|].
      by apply run_rb_check_typeddata_wrong.
    + erewrite run_bind_raised; [reflexivity|].
      by apply run_rb_check_typeddata_wrong.
Qed.

(** X16.  [PublicKey.new] on a context and a private key object makes one
    object.  When [secp256k1_ec_pubkey_create] returns 0 it is left
    unfinished, holding what the library wrote and no context, and the call
    raises [TypeError]; on any other return code the object holds the
    public key the library derived from the 32 bytes of the private key
    and a clone of the context, and is returned. *)
Theorem PublicKey_new_outcome st k in_context in_private_key c sk :
  struct_at Context_DataType st in_context = Some c ->
  struct_at PrivateKey_DataType st in_private_key = Some sk ->
  let r := secp256k1_ec_pubkey_create (Context_ctx c) (PrivateKey_data sk) in
  let object ctx := Build_object k ∅ (RData_PublicKey (Build_PublicKey r.2 ctx)) in
  PublicKey_new k in_context in_private_key st =
  if bool_decide (r.1 = 0)
  then (Raised KeyDerivationError, allocated st (object None))
  else (Returned (Obj (length (heap st))),
        allocated st (object (secp256k1_context_clone (Context_ctx c)))).
Proof.
  intros Hc Hk. cbv zeta. case_bool_decide as Hr.
  - by apply run_PublicKey_new_failed.
  - by apply run_PublicKey_new.
Qed.

(** X17.  [KeyPair#initialize] checks both arguments before it stores
    anything: unless the first is a [PublicKey] and the second a
    [PrivateKey] it raises [TypeError], and the key pair object and
    everything else are exactly what they were. *)
Theorem KeyPair_initialize_checks_types st self in_public_key in_private_key kp :
  struct_at KeyPair_DataType st self = Some kp ->
  valid_value st in_public_key -> valid_value st in_private_key ->
  struct_at PublicKey_DataType st in_public_key = None
  \/ struct_at PrivateKey_DataType st in_private_key = None ->
  KeyPair_initialize self in_public_key in_private_key st
  = (Raised (Exception rb_eTypeError "wrong argument type"), st).
Proof.
  intros Hself Hpub Hpriv Hbad. unfold KeyPair_initialize, Check_TypedStruct. mrun.
  destruct (struct_at PublicKey_DataType st in_public_key) as [p|] eqn:Hp.
  2:{ erewrite run_bind_raised; [reflexivity|].
      by apply run_rb_check_typeddata_wrong. }
  mrun. destruct Hbad as [?|Hk]; [done|].
  erewrite run_bind_raised; [reflexivity|].
  by apply run_rb_check_typeddata_wrong.
Qed.

(** X18.  [PrivateKey#initialize] checks everything before it writes
    anything: whenever it raises, whatever the receiver and the arguments
    are, the state is exactly what it was.  An object that already holds a
    key keeps it when re-initialisation is refused. *)
Theorem PrivateKey_initialize_raises_unchanged
    st self in_context in_private_key_data e :
  (PrivateKey_initialize self in_context in_private_key_data st).1 = Raised e ->
  (PrivateKey_initialize self in_context in_private_key_data st).2 = st.
Proof.
  assert (H : wp (PrivateKey_initialize self in_context in_private_key_data)
                (fun _ _ => True) (fun _ st' => st' = st) (fun _ _ => True) st).
  { unfold PrivateKey_initialize.
    repeat first
      [ progress (cbv beta iota) | exact Logic.I | reflexivity | wp_head ]. }
  unfold wp in H.
  destruct (PrivateKey_initialize self in_context in_private_key_data st)
    as [[v|e'|u] st']; simpl; intros; by simplify_eq.
Qed.

(** ** References that are kept *)

(** Every reference kept in an instance variable is a value of the running
    program. *)
Definition refs_ok (st : State) : Prop :=
  forall a o name v,
    heap st !! a = Some o -> ivars o !! name = Some v -> valid_value st v.

Lemma refs_ok_allocated st k p :
  refs_ok st -> refs_ok (allocated st (Build_object k ∅ p)).
Proof.
  intros Hr a o name v. simpl. rewrite lookup_app_Some.
  intros [H | [_ H]] Hv.
  - eapply valid_value_le; [apply heap_le_allocated_self | by eapply Hr].
  - apply list_lookup_singleton_Some in H as [_ <-]. simpl in Hv.
    by rewrite lookup_empty in Hv.
Qed.

Lemma refs_ok_updated_payload st a o p :
  refs_ok st -> heap st !! a = Some o ->
  refs_ok (updated st a (Build_object (klass o) (ivars o) p)).
Proof.
  intros Hr Ha b x name v H Hv. simpl in H.
  apply (valid_value_le st); [apply heap_le_updated_self|].
  apply list_lookup_insert_Some in H as [(_ & <- & _) | [_ H]]; by eapply Hr.
Qed.

Lemma refs_ok_updated_ivar st a o name v :
  refs_ok st -> heap st !! a = Some o -> valid_value st v ->
  refs_ok (updated st a (Build_object (klass o) (<[name := v]> (ivars o)) (payload o))).
Proof.
  intros Hr Ha Hv b x name' v' H Hv'. simpl in H.
  apply (valid_value_le st); [apply heap_le_updated_self|].
  apply list_lookup_insert_Some in H as [(_ & <- & _) | [_ H]]; [|by eapply Hr].
  simpl in Hv'. apply lookup_insert_Some in Hv' as [[_ <-] | [_ Hv']]; [done|].
  by eapply Hr.
Qed.

Lemma refs_ok_set_rand st r : refs_ok st -> refs_ok (Build_State (heap st) r (stack st)).
Proof. done. Qed.

Lemma refs_ok_lookup st v o name :
  refs_ok st -> lookup_object v st = Some o ->
  valid_value st (default Qnil (ivars o !! name)).
Proof.
  intros Hr H. destruct v as [| | |a]; try discriminate. simpl in H.
  destruct (ivars o !! name) as [x|] eqn:Hx; [|done]. by eapply Hr.
Qed.

Ltac refs_next :=
  lazymatch goal with
  | Hr : refs_ok ?st |- context [allocated ?st (Build_object ?k ∅ ?p)] =>
      let Hr' := fresh "Hr" in
      pose proof (refs_ok_allocated st k p Hr) as Hr'; safe_next
  | Hr : refs_ok ?st, Ha : heap ?st !! ?a = Some ?o
    |- context [updated ?st ?a (Build_object (klass ?o) (ivars ?o) ?p)] =>
      let Hr' := fresh "Hr" in
      pose proof (refs_ok_updated_payload st a o p Hr Ha) as Hr'; safe_next
  | Hr : refs_ok ?st, Ha : heap ?st !! ?a = Some ?o, Hv : valid_value ?st ?v
    |- context [updated ?st ?a
                  (Build_object (klass ?o) (<[?name := ?v]> (ivars ?o)) (payload ?o))] =>
      let Hr' := fresh "Hr" in
      pose proof (refs_ok_updated_ivar st a o name v Hr Ha Hv) as Hr'; safe_next
  | Hr : refs_ok ?st |- context [Build_State (heap ?st) ?r (stack ?st)] =>
      let Hr' := fresh "Hr" in
      pose proof (refs_ok_set_rand st r Hr) as Hr'; safe_next
  end.

Create HintDb refs_db discriminated.

Ltac refs_call :=
  eapply wp_mono;
  [ solve [eauto 4 using is_object_valid with refs_db]
  | intros ? ? (? & ? & ?)
  | intros ? ? ?
  | intros ? ? ? ];
  [ match goal with
    | H : heap_le ?st ?st' |- _ => safe_move H st st'
    end
  | .. ].

Ltac refs_auto :=
  lazymatch goal with |- wp _ _ _ _ ?st => pose proof (heap_le_refl st) end;
  repeat first
    [ progress (cbv beta iota)
    | progress subst
    | same_object
    | assumption
    | exact Logic.I
    | safe_facts
    | refs_next
    | wp_head
    | refs_call
    | lazymatch goal with |- _ /\ _ => split end
    | by apply is_object_valid
    | by eapply refs_ok_lookup ].

(** [refs_kept m st]: however the call [m] made in [st] ends, no instance
    variable refers to a missing object afterwards; what it returns is a
    value of the state reached. *)
#[warnings="-inconsistent-scopes"] Abbreviation refs_kept m st :=
  (wp m (fun a st' => and (refs_ok st') (and (heap_le st st') (valid_value st' a)))
     (fun _ st' => refs_ok st') (fun _ st' => refs_ok st') st)
  (only parsing).

Lemma PublicKey_initialize_refs st self in_context in_private_key :
  refs_ok st -> is_object st self ->
  refs_kept (PublicKey_initialize self in_context in_private_key) st.
Proof. intros Hr Hs. unfold PublicKey_initialize. refs_auto. Qed.
#[local] Hint Resolve PublicKey_initialize_refs : refs_db.

Lemma PrivateKey_initialize_refs st self in_context in_private_key_data :
  refs_ok st -> is_object st self -> valid_value st in_private_key_data ->
  refs_kept (PrivateKey_initialize self in_context in_private_key_data) st.
Proof. intros Hr Hs Hd. unfold PrivateKey_initialize. refs_auto. Qed.
#[local] Hint Resolve PrivateKey_initialize_refs : refs_db.

Lemma KeyPair_initialize_refs st self in_public_key in_private_key :
  refs_ok st -> is_object st self ->
  valid_value st in_public_key -> valid_value st in_private_key ->
  refs_kept (KeyPair_initialize self in_public_key in_private_key) st.
Proof. intros Hr Hs Hp Hk. unfold KeyPair_initialize. refs_auto. Qed.
#[local] Hint Resolve KeyPair_initialize_refs : refs_db.

Lemma Context_initialize_refs st self :
  refs_ok st -> is_object st self -> refs_kept (Context_initialize self) st.
Proof. intros Hr Hs. unfold Context_initialize. refs_auto. Qed.
#[local] Hint Resolve Context_initialize_refs : refs_db.

Lemma PublicKey_new_refs st k in_context in_private_key :
  refs_ok st -> refs_kept (PublicKey_new k in_context in_private_key) st.
Proof. intros Hr. unfold PublicKey_new, PublicKey_alloc. refs_auto. Qed.
#[local] Hint Resolve PublicKey_new_refs : refs_db.

Lemma PrivateKey_new_refs st k in_context in_private_key_data :
  refs_ok st -> valid_value st in_private_key_data ->
  refs_kept (PrivateKey_new k in_context in_private_key_data) st.
Proof. intros Hr Hd. unfold PrivateKey_new, PrivateKey_alloc. refs_auto. Qed.
#[local] Hint Resolve PrivateKey_new_refs : refs_db.

Lemma KeyPair_new_refs st k in_public_key in_private_key :
  refs_ok st -> valid_value st in_public_key -> valid_value st in_private_key ->
  refs_kept (KeyPair_new k in_public_key in_private_key) st.
Proof. intros Hr Hp Hk. unfold KeyPair_new, KeyPair_alloc. refs_auto. Qed.
#[local] Hint Resolve KeyPair_new_refs : refs_db.

Lemma Context_new_refs st k : refs_ok st -> refs_kept (Context_new k) st.
Proof. intros Hr. unfold Context_new, Context_alloc. refs_auto. Qed.

Lemma PrivateKey_generate_refs st k in_context :
  refs_ok st -> refs_kept (PrivateKey_generate k in_context) st.
Proof. intros Hr. unfold PrivateKey_generate. refs_auto. Qed.
#[local] Hint Resolve PrivateKey_generate_refs : refs_db.

Lemma Context_generate_key_pair_refs st self :
  refs_ok st -> refs_kept (Context_generate_key_pair self) st.
Proof. intros Hr. unfold Context_generate_key_pair. refs_auto. Qed.

Lemma Context_key_pair_from_private_key_refs st self in_private_key_data :
  refs_ok st -> valid_value st in_private_key_data ->
  refs_kept (Context_key_pair_from_private_key self in_private_key_data) st.
Proof. intros Hr Hd. unfold Context_key_pair_from_private_key. refs_auto. Qed.

Lemma Context_public_key_from_data_refs st self in_public_key_data :
  refs_ok st -> refs_kept (Context_public_key_from_data self in_public_key_data) st.
Proof. intros Hr. unfold Context_public_key_from_data. refs_auto. Qed.

Lemma Context_sign_refs st self in_private_key in_data :
  refs_ok st -> refs_kept (Context_sign self in_private_key in_data) st.
Proof. intros Hr. unfold Context_sign, Signature_alloc, SignData. refs_auto. Qed.

Lemma Context_verify_refs st self in_signature in_pubkey in_message :
  refs_ok st -> refs_kept (Context_verify self in_signature in_pubkey in_message) st.
Proof. intros Hr. unfold Context_verify. refs_auto. Qed.

Lemma Context_signature_from_der_encoded_refs st self in_der_encoded_signature :
  refs_ok st ->
  refs_kept (Context_signature_from_der_encoded self in_der_encoded_signature) st.
Proof.
  intros Hr. unfold Context_signature_from_der_encoded, Signature_alloc. refs_auto.
Qed.

Lemma Context_signature_from_compact_refs st self in_compact_signature :
  refs_ok st -> refs_kept (Context_signature_from_compact self in_compact_signature) st.
Proof.
  intros Hr. unfold Context_signature_from_compact, Signature_alloc. refs_auto.
Qed.

Lemma PublicKey_compressed_refs st self :
  refs_ok st -> refs_kept (PublicKey_compressed self) st.
Proof. intros Hr. unfold PublicKey_compressed. refs_auto. Qed.

Lemma PublicKey_uncompressed_refs st self :
  refs_ok st -> refs_kept (PublicKey_uncompressed self) st.
Proof. intros Hr. unfold PublicKey_uncompressed. refs_auto. Qed.

Lemma Signature_der_encoded_refs st self :
  refs_ok st -> refs_kept (Signature_der_encoded self) st.
Proof. intros Hr. unfold Signature_der_encoded. refs_auto. Qed.

Lemma Signature_compact_refs st self :
  refs_ok st -> refs_kept (Signature_compact self) st.
Proof. intros Hr. unfold Signature_compact. refs_auto. Qed.

Lemma rb_iv_get_refs st self name : refs_ok st -> refs_kept (rb_iv_get self name) st.
Proof. intros Hr. refs_auto. Qed.

Lemma Signature_new_refs st k : refs_ok st -> refs_kept (Signature_new k) st.
Proof. intros Hr. unfold Signature_new, Signature_alloc. refs_auto. Qed.

(** The arguments that a method keeps a reference to: the two keys handed
    to [KeyPair.new], and the [String] a private key is made from. *)
Definition kept_values (c : method_call) : list VALUE :=
  match c with
  | KeyPair_new_call in_public_key in_private_key => [in_public_key; in_private_key]
  | PrivateKey_new_call _ in_private_key_data => [in_private_key_data]
  | Context_key_pair_from_private_key_call _ in_private_key_data => [in_private_key_data]
  | _ => []
  end.

Lemma refs_outcome {A} (m : M A) (P : State -> A -> Prop) st :
  wp m (fun a st' => refs_ok st' /\ heap_le st st' /\ P st' a)
    (fun _ st' => refs_ok st') (fun _ st' => refs_ok st') st ->
  refs_ok (m st).2 /\ forall v, (m st).1 = Returned v -> P (m st).2 v.
Proof.
  unfold wp. destruct (m st) as [[a|e|u] st']; cbn [fst snd].
  - intros (? & _ & ?). split; [done|]. by intros v [= <-].
  - by split.
  - by split.
Qed.

Ltac refs_by lem :=
  apply refs_outcome; apply lem;
  repeat match goal with
         | H : Forall _ (_ :: _) |- _ => apply Forall_cons in H as [? H]
         end;
  assumption.


End Extension.

(** ** Concrete heaps to run the extension on *)
Module Scenario.
Import Reference.

Definition ctx1 : option context :=
  Some (Build_context 769 (Some (replicate 32 x2a))).
Definition ctx2 : option context :=
  Some (Build_context 769 (Some (replicate 32 x17))).

Definition key_bytes : list byte :=
  be_encode 32 0x1E99423A4ED27608A15A2616A2B0E9E52CED330AC530EDCC32C8FFC6A526AEDD.
Definition other_key_bytes : list byte := be_encode 32 2.
Definition message : list byte := bytes_of_string "hello world".

(** One R and one S, then a byte too many. *)
Definition compact65 : list byte := be_encode 32 5 ++ be_encode 32 7 ++ [x00].

(** The heap objects and states over the types of the reference library. *)
Definition ref_payload : Type :=
  rb_payload (secp256k1_context := context) (secp256k1_pubkey := Z)
    (secp256k1_ecdsa_signature := signature).
Definition ref_object : Type :=
  rb_object (secp256k1_context := context) (secp256k1_pubkey := Z)
    (secp256k1_ecdsa_signature := signature).
Definition ref_State : Type :=
  State (RAND := rand_state) (secp256k1_context := context) (secp256k1_pubkey := Z)
    (secp256k1_ecdsa_signature := signature).

Definition plain (k : rb_class) (p : ref_payload) : ref_object := Build_object k ∅ p.

(** A heap after some use of the extension: two contexts, a private key
    made from the string at address 2, its public key, the public key of
    another secret, a signature, freshly allocated objects, and strings. *)
Definition world : ref_State :=
  Build_State
    [ (* 0 *) plain Secp256k1_Context_class (RData_Context (Build_Context ctx1));
      (* 1 *) plain Secp256k1_Context_class (RData_Context (Build_Context ctx2));
      (* 2 *) plain rb_cString (RString key_bytes);
      (* 3 *) Build_object Secp256k1_PrivateKey_class {[ "@data" := Obj 2 ]}
                (RData_PrivateKey (Build_PrivateKey key_bytes ctx1));
      (* 4 *) plain Secp256k1_PublicKey_class
                (RData_PublicKey (Build_PublicKey (be_decode key_bytes) ctx1));
      (* 5 *) plain rb_cString (RString message);
      (* 6 *) plain Secp256k1_PrivateKey_class
                (RData_PrivateKey (Build_PrivateKey (replicate 32 x00) None));
      (* 7 *) plain Secp256k1_PublicKey_class
                (RData_PublicKey (Build_PublicKey (be_decode other_key_bytes) ctx1));
      (* 8 *) plain Secp256k1_KeyPair_class (RData_KeyPair (Build_KeyPair Qnil Qnil));
      (* 9 *) plain Secp256k1_Signature_class
                (RData_Signature (Build_Signature (Build_signature 5 7) ctx1));
      (* 10 *) plain rb_cString (RString []);
      (* 11 *) plain rb_cString (RString compact65);
      (* 12 *) plain Secp256k1_PublicKey_class
                (RData_PublicKey (Build_PublicKey 0 None)) ]
    (Build_rand true (replicate 64 x55))
    (bytes_of_string "whatever the stack held before..").

(** A process whose OpenSSL generator has not been seeded. *)
Definition unseeded : ref_State :=
  Build_State [] (Build_rand false [])
    (bytes_of_string "whatever the stack held before..").

(** A process in which the next 32 bytes of the generator are not a secret
    key: all of them are 0xff, a number above the group order. *)
Definition unlucky : ref_State :=
  Build_State
    [ plain Secp256k1_Context_class (RData_Context (Build_Context ctx1)) ]
    (Build_rand true (replicate 32 xff))
    (bytes_of_string "whatever the stack held before..").

End Scenario.


(** ** The reference implementation meets the contracts *)

Lemma byte_to_Z_range b : 0 <= byte_to_Z b < 256.
Proof.
  unfold byte_to_Z. pose proof (Byte.to_N_bounded b) as H. lia.
Qed.

Lemma byte_to_of_Z z : byte_to_Z (byte_of_Z z) = z mod 256.
Proof.
  unfold byte_to_Z, byte_of_Z.
  assert (Hr : 0 <= z mod 256 < 256) by (apply Z.mod_pos_bound; lia).
  destruct (Byte.of_N (Z.to_N (z mod 256))) as [b|] eqn:E.
  - apply Byte.to_of_N in E. simpl. rewrite E. lia.
  - apply Byte.of_N_None_iff in E. lia.
Qed.

Lemma be_decode_snoc l b : be_decode (l ++ [b]) = be_decode l * 256 + byte_to_Z b.
Proof. unfold be_decode. by rewrite fold_left_app. Qed.

Lemma be_decode_encode len x :
  be_decode (be_encode len x) = x mod 256 ^ Z.of_nat len.
Proof.
  revert x. induction len as [|len IH]; intros x.
  - simpl. by rewrite Z.mod_1_r.
  - cbn [be_encode]. rewrite be_decode_snoc, IH, byte_to_of_Z.
    rewrite Nat2Z.inj_succ, Z.pow_succ_r by lia.
    assert (0 < 256 ^ Z.of_nat len) by (apply Z.pow_pos_nonneg; lia).
    rewrite Z.rem_mul_r by lia.
    generalize ((x / 256) mod 256 ^ Z.of_nat len), (x mod 256). lia.
Qed.

Lemma be_decode_encode_32 x :
  0 <= x < secp256k1_order -> be_decode (be_encode 32 x) = x.
Proof.
  intros H. rewrite be_decode_encode. apply Z.mod_small.
  unfold secp256k1_order in H. change (256 ^ Z.of_nat 32) with (2 ^ 256). lia.
Qed.

Lemma order_mod_range x :
  0 <= x mod secp256k1_order < secp256k1_order.
Proof. apply Z.mod_pos_bound. reflexivity. Qed.

Import Reference.

Lemma ref_seckey_verify_range ctx seckey :
  length seckey = 32%nat ->
  secp256k1_ec_seckey_verify ctx seckey = 1 ->
  0 < be_decode seckey < secp256k1_order.
Proof.
  intros _. simpl. unfold ref_ec_seckey_verify, seckey_valid.
  case_bool_decide; [done | discriminate].
Qed.

Lemma ref_SHA256_length m : length (SHA256 m) = 32%nat.
Proof.
  simpl. unfold ref_SHA256.
  destruct (fold_left _ _ _) as [[[[[[[a b] c] d] e] f] g] h].
  by rewrite !length_app, !length_be_encode.
Qed.

Lemma ref_ecdsa_sign_valid_key (ctx cv : option context) msg32 seckey :
  extension_context ctx -> extension_context cv ->
  length msg32 = 32%nat -> length seckey = 32%nat ->
  secp256k1_ec_seckey_verify cv seckey = 1 ->
  (secp256k1_ecdsa_sign ctx msg32 seckey None None).1 = 1.
Proof.
  intros _ _ _ _. simpl. unfold ref_ec_seckey_verify, ref_ecdsa_sign.
  by destruct (seckey_valid seckey).
Qed.

Lemma ref_ec_pubkey_create_valid_key (ctx cv : option context) seckey :
  extension_context ctx -> extension_context cv ->
  length seckey = 32%nat ->
  secp256k1_ec_seckey_verify cv seckey = 1 ->
  (secp256k1_ec_pubkey_create ctx seckey).1 = 1.
Proof.
  intros _ _ _. simpl. unfold ref_ec_seckey_verify, ref_ec_pubkey_create.
  by destruct (seckey_valid seckey).
Qed.

Lemma ref_ecdsa_verify_sign (ctx cd cv : option context) msg32 seckey sig pubkey :
  extension_context ctx -> extension_context cd -> extension_context cv ->
  length msg32 = 32%nat -> length seckey = 32%nat ->
  secp256k1_ecdsa_sign ctx msg32 seckey None None = (1, sig) ->
  secp256k1_ec_pubkey_create cd seckey = (1, pubkey) ->
  secp256k1_ecdsa_verify cv sig msg32 pubkey = 1.
Proof.
  intros _ _ _ _ _. simpl. unfold ref_ecdsa_sign, ref_ec_pubkey_create, ref_ecdsa_verify.
  destruct (seckey_valid seckey) eqn:Hvalid; [|discriminate].
  intros [= <-] [= <-].
  unfold seckey_valid in Hvalid. apply bool_decide_eq_true in Hvalid.
  rewrite bool_decide_true; [done|].
  split; [done|]. unfold ref_signature_r, ref_signature_s, standin_sign. simpl.
  split; apply Z.mod_mod; discriminate.
Qed.

Lemma ref_ecdsa_sign_any_context (c1 c2 : option context) msg32 seckey :
  extension_context c1 -> extension_context c2 ->
  secp256k1_ecdsa_sign c1 msg32 seckey None None
  = secp256k1_ecdsa_sign c2 msg32 seckey None None.
Proof. reflexivity. Qed.

Lemma ref_serialize_compact_any_context (c1 c2 : option context) sig :
  extension_context c1 -> extension_context c2 ->
  secp256k1_ecdsa_signature_serialize_compact c1 sig
  = secp256k1_ecdsa_signature_serialize_compact c2 sig.
Proof. reflexivity. Qed.

Lemma ref_serialize_compact_spec (ctx : option context) sig :
  extension_context ctx ->
  secp256k1_ecdsa_signature_serialize_compact ctx sig
  = (1, be_encode 32 (signature_r sig) ++ be_encode 32 (signature_s sig)).
Proof. reflexivity. Qed.

Lemma ref_parse_compact_serialized (ctx : option context)
    (sig : signature) :
  extension_context ctx ->
  exists sig',
    secp256k1_ecdsa_signature_parse_compact ctx
      (be_encode 32 (signature_r sig) ++ be_encode 32 (signature_s sig))
    = (1, sig')
    /\ signature_r sig' = signature_r sig
    /\ signature_s sig' = signature_s sig.
Proof.
  intros _.
  cbn [secp256k1_ecdsa_signature_parse_compact signature_r signature_s secp256k1].
  unfold ref_parse_compact, ref_signature_r, ref_signature_s.
  pose proof (order_mod_range (sig_r sig)) as Hr.
  pose proof (order_mod_range (sig_s sig)) as Hs.
  rewrite take_app_length' by (by rewrite length_be_encode).
  rewrite drop_app_length' by (by rewrite length_be_encode).
  rewrite take_ge by (by rewrite length_be_encode).
  rewrite !be_decode_encode_32 by done.
  rewrite bool_decide_true by lia.
  eexists. split; [reflexivity|]. cbn [sig_r sig_s].
  split; apply Z.mod_mod; discriminate.
Qed.

Lemma byte_high_bit_test b :
  Z.land (byte_to_Z b) 0x80 = if byte_to_Z b <? 128 then 0 else 0x80.
Proof. by destruct b. Qed.

Lemma byte_high_bit b :
  (byte_to_Z b < 128 -> Z.land (byte_to_Z b) 0x80 = 0)
  /\ (128 <= byte_to_Z b -> Z.land (byte_to_Z b) 0x80 = 0x80).
Proof.
  rewrite byte_high_bit_test. destruct (Z.ltb_spec (byte_to_Z b) 128); split; lia.
Qed.

Lemma byte_to_Z_zero b : byte_to_Z b = 0 -> b = x00.
Proof. destruct b; first [reflexivity | discriminate]. Qed.

Lemma der_strip_cons a b tl :
  der_strip (a :: b :: tl) =
  if bool_decide (a = x00) && bool_decide (byte_to_Z b < 0x80)
  then der_strip (b :: tl) else a :: b :: tl.
Proof. reflexivity. Qed.

Lemma der_strip_decode l : be_decode (der_strip l) = be_decode l.
Proof.
  induction l as [|a l IH]; [done|]. destruct l as [|b tl]; [done|].
  rewrite der_strip_cons. destruct (bool_decide (a = x00) && _) eqn:E; [|done].
  apply andb_prop in E as [Ha _]. apply bool_decide_eq_true in Ha. subst a.
  rewrite IH. reflexivity.
Qed.

Lemma der_strip_length l : (length (der_strip l) <= length l)%nat.
Proof.
  induction l as [|a l IH]; [done|]. destruct l as [|b tl]; [done|].
  rewrite der_strip_cons. destruct (bool_decide (a = x00) && _); [|done].
  cbn [length] in *. lia.
Qed.

(** The stripped form starts with a byte below [0x80], and a leading zero
    byte is there only in front of a byte that is not. *)
Lemma der_strip_shape a0 l0 :
  byte_to_Z a0 < 128 ->
  exists a rest,
    der_strip (a0 :: l0) = a :: rest
    /\ byte_to_Z a < 128
    /\ (a = x00 -> forall b rest', rest = b :: rest' -> 128 <= byte_to_Z b)
    /\ (a <> x00 -> a0 = x00 -> length (a :: rest) <= length l0)%nat.
Proof.
  revert a0. induction l0 as [|b tl IH]; intros a0 Ha0.
  - exists a0, []. repeat split; try done.
  - rewrite der_strip_cons.
    destruct (bool_decide (a0 = x00)) eqn:Ea; cbn [andb].
    + apply bool_decide_eq_true in Ea. subst a0.
      case_bool_decide as Hb.
      * destruct (IH b Hb) as (a & rest & Hs & Hlt & Hpad & Hlen).
        exists a, rest. rewrite Hs. repeat split; try done.
        intros Hne _. pose proof (der_strip_length (b :: tl)) as Hl.
        rewrite Hs in Hl. exact Hl.
      * exists x00, (b :: tl). repeat split; try done.
        intros _ b' rest' [= <- <-]. lia.
    + apply bool_decide_eq_false in Ea.
      exists a0, (b :: tl). repeat split; try done.
Qed.

Lemma der_integer_length x : (1 <= length (der_integer x) <= 33)%nat.
Proof.
  unfold der_integer. split.
  - destruct (der_strip_shape x00 (be_encode 32 x)) as (a & rest & -> & _);
      [done | simpl; lia].
  - etrans; [apply der_strip_length|]. cbn [length]. by rewrite length_be_encode.
Qed.

Lemma der_read_len_short (k : nat) rest :
  (k < 128)%nat ->
  der_read_len (byte_of_Z (Z.of_nat k) :: rest) = Some (k, rest).
Proof.
  intros Hk. unfold der_read_len.
  assert (Hb : byte_to_Z (byte_of_Z (Z.of_nat k)) = Z.of_nat k).
  { rewrite byte_to_of_Z. apply Z.mod_small. lia. }
  rewrite bool_decide_false by lia.
  rewrite bool_decide_true.
  - by rewrite Hb, Nat2Z.id.
  - apply byte_high_bit. lia.
Qed.

Lemma be_decode_cons_zero l : be_decode (x00 :: l) = be_decode l.
Proof. reflexivity. Qed.

Lemma der_parse_integer_stripped l32 rest :
  length l32 = 32%nat ->
  be_decode l32 < secp256k1_order ->
  let enc := der_strip (x00 :: l32) in
  der_parse_integer (x02 :: byte_of_Z (Z.of_nat (length enc)) :: enc ++ rest)
  = Some (be_decode l32, rest).
Proof.
  intros Hl32 Hlt enc.
  assert (Hval : be_decode enc = be_decode l32).
  { unfold enc. by rewrite der_strip_decode, be_decode_cons_zero. }
  assert (Hlen : (length enc <= 33)%nat).
  { unfold enc. etrans; [apply der_strip_length|]. cbn [length]. lia. }
  destruct (der_strip_shape x00 l32) as (a & body & Hs & Ha & Hpad & Hshort); [done|].
  fold enc in Hs. clearbody enc. subst enc.
  unfold der_parse_integer. rewrite bool_decide_false by (intros H; by apply H).
  rewrite der_read_len_short by lia.
  rewrite bool_decide_false by (rewrite length_app; cbn [length]; lia).
  rewrite take_app_length, drop_app_length.
  change ((a :: body) !! 0%nat) with (Some a).
  change ((a :: body) !! 1%nat) with (body !! 0%nat).
  cbn [default]. unfold id.
  rewrite bool_decide_false; cycle 1.
  { intros (Hz & Hl & Hb). apply byte_to_Z_zero in Hz.
    destruct body as [|b rest']; [cbn [length] in Hl; lia|].
    specialize (Hpad Hz b rest' eq_refl). cbn [lookup list_lookup default] in Hb.
    change ((b :: rest') !! 0%nat) with (Some b) in Hb. cbn [default] in Hb.
    rewrite (proj2 (byte_high_bit b)) in Hb by done. discriminate. }
  rewrite bool_decide_false by lia.
  rewrite (proj1 (byte_high_bit a)) by done.
  rewrite (bool_decide_false (0 = 128)) by discriminate. cbn [orb].
  assert (Hdigits :
    let digits := if bool_decide (byte_to_Z a = 0) then drop 1 (a :: body)
                  else a :: body in
    (length digits <= 32)%nat /\ be_decode digits = be_decode l32).
  { cbv zeta. case_bool_decide as Hz.
    - apply byte_to_Z_zero in Hz. subst a. cbn [drop].
      rewrite drop_0. rewrite be_decode_cons_zero in Hval.
      cbn [length] in Hlen. split; [lia | done].
    - split; [|done]. rewrite <- Hl32. apply Hshort; [|done].
      intros ->. by apply Hz. }
  cbv zeta in Hdigits. destruct Hdigits as [Hdl Hdv].
  rewrite Hdv. rewrite bool_decide_false by lia.
  rewrite bool_decide_false by lia. reflexivity.
Qed.

Lemma ref_der_round_trip (c1 c2 : option context) output outputlen
    (sig : signature) :
  extension_context c1 -> extension_context c2 ->
  (72 <= outputlen)%nat -> length output = outputlen ->
  let r := secp256k1_ecdsa_signature_serialize_der c1 output outputlen sig in
  let der := take r.2 r.1.2 in
  r.1.1 = 1
  /\ exists sig',
       secp256k1_ecdsa_signature_parse_der c2 der (length der) = (1, sig')
       /\ signature_r sig' = signature_r sig
       /\ signature_s sig' = signature_s sig.
Proof.
  intros _ _ Hroom Hout.
  cbn [secp256k1_ecdsa_signature_serialize_der secp256k1_ecdsa_signature_parse_der
       signature_r signature_s secp256k1].
  unfold ref_serialize_der, ref_signature_r, ref_signature_s, der_integer.
  pose proof (order_mod_range (sig_r sig)) as Hr.
  pose proof (order_mod_range (sig_s sig)) as Hs.
  set (R := sig_r sig mod secp256k1_order) in *.
  set (S := sig_s sig mod secp256k1_order) in *.
  pose proof (be_decode_encode_32 R Hr) as HdR.
  pose proof (be_decode_encode_32 S Hs) as HdS.
  pose proof (length_be_encode 32 R) as HlR.
  pose proof (length_be_encode 32 S) as HlS.
  set (lR := be_encode 32 R) in *. set (lS := be_encode 32 S) in *.
  clearbody lR lS.
  pose proof (der_parse_integer_stripped lR) as HpR.
  pose proof (der_parse_integer_stripped lS []) as HpS.
  cbv zeta in HpR, HpS.
  assert (HeR : (1 <= length (der_strip (x00 :: lR)) <= 33)%nat).
  { split.
    - destruct (der_strip_shape x00 lR) as (a & rest & -> & _);
        [done | cbn [length]; lia].
    - etrans; [apply der_strip_length|]. cbn [length]. lia. }
  assert (HeS : (1 <= length (der_strip (x00 :: lS)) <= 33)%nat).
  { split.
    - destruct (der_strip_shape x00 lS) as (a & rest & -> & _);
        [done | cbn [length]; lia].
    - etrans; [apply der_strip_length|]. cbn [length]. lia. }
  set (eR := der_strip (x00 :: lR)) in *. set (eS := der_strip (x00 :: lS)) in *.
  clearbody eR eS.
  cbv zeta. rewrite bool_decide_false by lia. cbn [fst snd].
  split; [reflexivity|].
  specialize (HpR (x02 :: byte_of_Z (Z.of_nat (length eS)) :: eS) HlR ltac:(lia)).
  specialize (HpS HlS ltac:(lia)). rewrite app_nil_r in HpS.
  set (inner := x02 :: byte_of_Z (Z.of_nat (length eR)) :: eR ++
                x02 :: byte_of_Z (Z.of_nat (length eS)) :: eS) in *.
  assert (Hinner : length inner = (4 + length eS + length eR)%nat).
  { unfold inner. cbn [length]. rewrite length_app. cbn [length]. lia. }
  set (enc := x30 :: byte_of_Z (Z.of_nat (4 + length eS + length eR)) :: inner).
  assert (Henc : length enc = (6 + length eS + length eR)%nat).
  { unfold enc. cbn [length]. lia. }
  match goal with |- context [take ?n (?a ++ eR ++ ?b ++ eS ++ ?tl)] =>
    replace (a ++ eR ++ b ++ eS ++ tl) with (enc ++ tl)
      by (unfold enc, inner; cbn [app]; by rewrite <- !app_assoc)
  end.
  rewrite take_app_length' by done.
  unfold ref_parse_der. rewrite firstn_all. unfold enc.
  rewrite bool_decide_false by (intros H; by apply H).
  rewrite der_read_len_short by lia.
  rewrite bool_decide_false by (intros H; apply H; symmetry; exact Hinner).
  rewrite HpR, HpS.
  rewrite bool_decide_false by (intros H; by apply H).
  eexists. split; [reflexivity|]. cbn [sig_r sig_s].
  rewrite HdR, HdS. split; apply Z.mod_small; done.
Qed.

Lemma ref_serialize_der_any_context (c1 c2 : option context) out1 out2 len
    (sig : signature) :
  extension_context c1 -> extension_context c2 ->
  length out1 = length out2 ->
  let r1 := secp256k1_ecdsa_signature_serialize_der c1 out1 len sig in
  let r2 := secp256k1_ecdsa_signature_serialize_der c2 out2 len sig in
  r1.1.1 = r2.1.1 /\ (r1.1.1 = 1 -> r1.2 = r2.2 /\ take r1.2 r1.1.2 = take r2.2 r2.1.2).
Proof.
  intros _ _ _.
  cbn [secp256k1_ecdsa_signature_serialize_der secp256k1].
  unfold ref_serialize_der.
  set (eR := der_integer (ref_signature_r sig)).
  set (eS := der_integer (ref_signature_s sig)).
  cbv zeta. case_bool_decide; cbn [fst snd]; [by split|].
  split; [done|]. intros _. split; [done|].
  set (enc := x30 :: byte_of_Z (Z.of_nat (4 + length eS + length eR)) :: x02 ::
              byte_of_Z (Z.of_nat (length eR)) :: eR ++
              x02 :: byte_of_Z (Z.of_nat (length eS)) :: eS).
  assert (Henc : length enc = (6 + length eS + length eR)%nat).
  { unfold enc. cbn [length]. rewrite length_app. cbn [length]. lia. }
  repeat match goal with |- context [take ?n (?a ++ eR ++ ?b ++ eS ++ ?tl)] =>
    replace (a ++ eR ++ b ++ eS ++ tl) with (enc ++ tl)
      by (unfold enc; cbn [app]; by rewrite <- !app_assoc)
  end.
  by rewrite !take_app_length'.
Qed.

Lemma ref_library_pubkey_valid (p : Z) : library_pubkey p -> 0 < p < secp256k1_order.
Proof.
  intros [ctx seckey pubkey H | ctx input inputlen pubkey H].
  - simpl in H. unfold ref_ec_pubkey_create, seckey_valid in H.
    case_bool_decide; by simplify_eq.
  - simpl in H. unfold ref_ec_pubkey_parse, pubkey_valid in H.
    destruct (take inputlen input) as [|b rest]; [discriminate|].
    repeat (case_bool_decide || simpl in * ); by simplify_eq.
Qed.

Lemma ref_pubkey_serialize_parse (c1 c2 : option context) output outputlen
    (pubkey : Z) flags size :
  extension_context c1 -> extension_context c2 -> library_pubkey pubkey ->
  (flags = SECP256K1_EC_COMPRESSED /\ size = 33%nat)
  \/ (flags = SECP256K1_EC_UNCOMPRESSED /\ size = 65%nat) ->
  length output = outputlen -> (size <= outputlen)%nat ->
  let r := secp256k1_ec_pubkey_serialize c1 output outputlen pubkey flags in
  r.1.1 = 1 /\ r.2 = size /\ (size <= length r.1.2)%nat
  /\ secp256k1_ec_pubkey_parse c2 (take size r.1.2) size = (1, pubkey).
Proof.
  intros _ _ Hlib Hfmt Hout Hroom.
  pose proof (ref_library_pubkey_valid _ Hlib) as Hrange.
  assert (Hdec : be_decode (be_encode 32 pubkey) = pubkey).
  { apply be_decode_encode_32. lia. }
  pose proof (length_be_encode 32 pubkey) as Hl.
  cbn [secp256k1_ec_pubkey_serialize secp256k1_ec_pubkey_parse secp256k1_ec_pubkey].
  unfold ref_ec_pubkey_serialize, ref_ec_pubkey_parse, pubkey_valid.
  destruct Hfmt as [[-> ->] | [-> ->]].
  - change (negb (Z.land SECP256K1_EC_COMPRESSED SECP256K1_FLAGS_BIT_COMPRESSION =? 0))
      with true.
    cbv zeta. cbn [negb].
    rewrite bool_decide_false by lia.
    rewrite bool_decide_false by (intros H; by apply H).
    rewrite bool_decide_true by done. cbn [negb fst snd].
    set (b := if Z.even pubkey then x02 else x03).
    set (tl := drop 33 _).
    assert (Hb : b = x02 \/ b = x03) by (unfold b; destruct (Z.even pubkey); auto).
    assert (Henc : take 33 ((b :: be_encode 32 pubkey) ++ tl) = b :: be_encode 32 pubkey)
      by (apply take_app_length'; cbn [length]; lia).
    split; [done|]. split; [done|]. split.
    { rewrite length_app. cbn [length]. lia. }
    rewrite Henc. rewrite take_ge by (cbn [length]; lia).
    rewrite bool_decide_true by (split; [done | exact Hb]).
    rewrite Hdec. rewrite bool_decide_true by done.
    by rewrite bool_decide_true.
  - change (negb (Z.land SECP256K1_EC_UNCOMPRESSED SECP256K1_FLAGS_BIT_COMPRESSION =? 0))
      with false.
    cbv zeta. cbn [negb].
    rewrite bool_decide_false by lia.
    rewrite bool_decide_false by (intros H; by apply H).
    rewrite bool_decide_true by done. cbn [negb fst snd].
    set (tl := drop 65 _).
    assert (Henc : take 65 ((x04 :: be_encode 32 pubkey ++ be_encode 32 pubkey) ++ tl)
                   = x04 :: be_encode 32 pubkey ++ be_encode 32 pubkey)
      by (apply take_app_length'; cbn [length]; rewrite length_app; lia).
    split; [done|]. split; [done|]. split.
    { rewrite length_app. cbn [length]. rewrite length_app. lia. }
    rewrite Henc. rewrite take_ge by (cbn [length]; rewrite length_app; lia).
    rewrite bool_decide_false by (intros [? _]; done).
    rewrite bool_decide_true by done.
    rewrite take_app_length', drop_app_length' by done.
    rewrite Hdec. rewrite bool_decide_true by done.
    by rewrite bool_decide_true.
Qed.

(** ** The extension on the concrete heaps *)

Import Scenario.

(** C1.  With a generator that is not seeded, [Context.new] raises nothing:
    it returns a context blinded with the 32 bytes the stack happened to
    hold.  [PrivateKey.generate], in the same state, does check the result
    of [GenerateRandomBytes] and raises. *)
Theorem Context_new_with_unseeded_generator :
  RAND_status (rand unseeded) = 0
  /\ Context_new Secp256k1_Context_class unseeded
     = (Returned (Obj 0),
        Build_State
          [ plain Secp256k1_Context_class
              (RData_Context
                 (Build_Context
                    (Some (Build_context 769
                             (Some (bytes_of_string
                                      "whatever the stack held before.."))))))]
          (rand unseeded) (stack unseeded))
  /\ (PrivateKey_generate Secp256k1_PrivateKey_class (Obj 0)
        (Context_new Secp256k1_Context_class unseeded).2).1
     = Raised KeyGenerationError.
Proof. split; [reflexivity|]. split; vm_compute; reflexivity. Qed.

(** C2.  [signature_from_compact] does not look at the length of its
    argument: a 65-byte string whose first 64 bytes are a valid R and S is
    accepted, and for an empty string the library is made to read 64
    bytes that the string does not have. *)
Theorem Context_signature_from_compact_unchecked_length :
  length compact65 = 65%nat
  /\ (exists st',
        Context_signature_from_compact (Obj 0) (Obj 11) world = (Returned (Obj 13), st')
        /\ struct_at Signature_DataType st' (Obj 13)
           = Some (Build_Signature (Build_signature 5 7) ctx1))
  /\ string_at world (Obj 10) = Some []
  /\ (Context_signature_from_compact (Obj 0) (Obj 10) world).1
     = Undefined (OutOfBoundsRead 64 0).
Proof.
  split; [reflexivity|]. split; [|split; [reflexivity|]].
  - eexists. split; vm_compute; reflexivity.
  - vm_compute. reflexivity.
Qed.

(** C9 as stated fails: after the caller overwrites the string the key was
    made from, the [data] reader of the key shows the new bytes. *)
Lemma PrivateKey_data_reader_shows_mutation :
  let r := PrivateKey_initialize (Obj 6) (Obj 0) (Obj 2) world in
  r.1 = Returned (Obj 6)
  /\ exposed_data r.2 (Obj 6) = Some key_bytes
  /\ exposed_data (mutate_string (Obj 2) other_key_bytes r.2) (Obj 6)
     <> exposed_data r.2 (Obj 6).
Proof.
  cbv zeta. split; [vm_compute; reflexivity|]. split; [vm_compute; reflexivity|].
  vm_compute. discriminate.
Qed.

(** ** The theorems at work on the concrete heap *)

(** [PrivateKey_initialize_checks] on a valid key: the object at address 6
    ends up holding the 32 bytes of the string at address 2. *)
Lemma PrivateKey_initialize_checks_witness :
  struct_at PrivateKey_DataType world (Obj 6)
  = Some (Build_PrivateKey (replicate 32 x00) None)
  /\ struct_at Context_DataType world (Obj 0) = Some (Build_Context ctx1)
  /\ string_at world (Obj 2) = Some key_bytes
  /\ exists st',
       PrivateKey_initialize (Obj 6) (Obj 0) (Obj 2) world = (Returned (Obj 6), st')
       /\ struct_at PrivateKey_DataType st' (Obj 6)
          = Some (Build_PrivateKey key_bytes ctx1).
Proof.
  split; [reflexivity|]. split; [reflexivity|]. split; [reflexivity|].
  destruct (PrivateKey_initialize_checks ref_seckey_verify_range world
              (Obj 6) (Obj 0) (Obj 2) _ _ _ eq_refl eq_refl eq_refl)
    as (_ & _ & _ & H).
  apply H; vm_compute; reflexivity.
Defined.

(** [Context_sign_steps] on the message "hello world". *)
Lemma Context_sign_steps_witness :
  struct_at Context_DataType world (Obj 0) = Some (Build_Context ctx1)
  /\ struct_at PrivateKey_DataType world (Obj 3)
     = Some (Build_PrivateKey key_bytes ctx1)
  /\ string_at world (Obj 5) = Some message
  /\ (Context_sign (Obj 0) (Obj 3) (Obj 5) world).1 = Returned (Obj 13).
Proof.
  split; [reflexivity|]. split; [reflexivity|]. split; [reflexivity|].
  rewrite (Context_sign_steps world (Obj 0) (Obj 3) (Obj 5) _ _ _
             eq_refl eq_refl eq_refl).
  vm_compute. reflexivity.
Defined.

(** [Context_verify_total] on a signature that was not made for the
    message: the answer is [Qfalse], and the state is the same. *)
Lemma Context_verify_total_witness :
  struct_at Context_DataType world (Obj 1) = Some (Build_Context ctx2)
  /\ struct_at Signature_DataType world (Obj 9)
     = Some (Build_Signature (Build_signature 5 7) ctx1)
  /\ struct_at PublicKey_DataType world (Obj 4)
     = Some (Build_PublicKey (be_decode key_bytes) ctx1)
  /\ string_at world (Obj 5) = Some message
  /\ Context_verify (Obj 1) (Obj 9) (Obj 4) (Obj 5) world = (Returned Qfalse, world).
Proof.
  split; [reflexivity|]. split; [reflexivity|]. split; [reflexivity|].
  split; [reflexivity|].
  rewrite (Context_verify_total world (Obj 1) (Obj 9) (Obj 4) (Obj 5) _ _ _ _
             eq_refl eq_refl eq_refl eq_refl).
  vm_compute. reflexivity.
Defined.

(** The two library contexts of the heap are contexts as the extension
    makes them: created for signing and verification, then randomized. *)
Lemma ctx1_extension : extension_context ctx1.
Proof.
  change ctx1 with
    (secp256k1_context_randomize
       (secp256k1_context_create (Z.lor SECP256K1_CONTEXT_SIGN SECP256K1_CONTEXT_VERIFY))
       (replicate 32 x2a)).2.
  apply context_randomized, context_created.
Defined.

Lemma ctx2_extension : extension_context ctx2.
Proof.
  change ctx2 with
    (secp256k1_context_randomize
       (secp256k1_context_create (Z.lor SECP256K1_CONTEXT_SIGN SECP256K1_CONTEXT_VERIFY))
       (replicate 32 x17)).2.
  apply context_randomized, context_created.
Defined.

(** Objects 3 and 4 of the heap are a valid key pair. *)
Lemma world_key_pair : valid_key_pair world (Obj 3) (Obj 4).
Proof.
  exists (Build_PrivateKey key_bytes ctx1),
         (Build_PublicKey (be_decode key_bytes) ctx1), ctx1, ctx1.
  split; [reflexivity|]. split; [reflexivity|]. split; [reflexivity|].
  split; [exact ctx1_extension|]. split; [vm_compute; reflexivity|].
  split; [exact ctx1_extension|]. vm_compute; reflexivity.
Defined.

(** [sign_then_verify] on the reference library. *)
Lemma sign_then_verify_witness :
  valid_key_pair world (Obj 3) (Obj 4)
  /\ string_at world (Obj 5) = Some message
  /\ exists signature st',
       Context_sign (Obj 0) (Obj 3) (Obj 5) world = (Returned signature, st')
       /\ forall verifier cv,
            struct_at Context_DataType st' verifier = Some cv ->
            extension_context (Context_ctx cv) ->
            Context_verify verifier signature (Obj 4) (Obj 5) st'
            = (Returned Qtrue, st').
Proof.
  split; [exact world_key_pair|]. split; [reflexivity|].
  exact (sign_then_verify ref_SHA256_length ref_ecdsa_sign_valid_key
           ref_ecdsa_verify_sign world (Obj 0) (Obj 3) (Obj 4) (Obj 5)
           (Build_Context ctx1) message eq_refl ctx1_extension
           world_key_pair eq_refl).
Defined.

(** The scenario of the specification, on the reference library: a
    signature over "hello world" verifies against the same message under
    another context, and not against "hello world!". *)
Example hello_world :
  let signed := Context_sign (Obj 0) (Obj 3) (Obj 5) world in
  let other := rb_str_new (bytes_of_string "hello world!") 12 signed.2 in
  signed.1 = Returned (Obj 13)
  /\ (Context_verify (Obj 1) (Obj 13) (Obj 4) (Obj 5) other.2).1 = Returned Qtrue
  /\ other.1 = Returned (Obj 14)
  /\ (Context_verify (Obj 1) (Obj 13) (Obj 4) (Obj 14) other.2).1 = Returned Qfalse.
Proof. vm_compute. repeat split; reflexivity. Qed.

(** [signature_round_trip] on the signature with R = 5 and S = 7. *)
Lemma signature_round_trip_witness :
  struct_at Signature_DataType world (Obj 9)
  = Some (Build_Signature (Build_signature 5 7) ctx1)
  /\ struct_at Context_DataType world (Obj 1) = Some (Build_Context ctx2)
  /\ exists compact st1 parsed st2,
       Signature_compact (Obj 9) world = (Returned compact, st1)
       /\ string_at st1 compact = Some (be_encode 32 5 ++ be_encode 32 7)
       /\ Context_signature_from_compact (Obj 1) compact st1 = (Returned parsed, st2)
       /\ exists sg',
            struct_at Signature_DataType st2 parsed = Some sg'
            /\ signature_r (Signature_sig sg') = 5
            /\ signature_s (Signature_sig sg') = 7.
Proof.
  split; [reflexivity|]. split; [reflexivity|].
  destruct (signature_round_trip ref_serialize_compact_spec
              ref_parse_compact_serialized ref_der_round_trip
              world (Obj 9) (Obj 1) _ _ eq_refl ctx1_extension
              eq_refl ctx2_extension)
    as (_ & compact & st1 & parsed & st2 & Hc & Hs & _ & Hp & Hsame).
  exists compact, st1, parsed, st2.
  split; [exact Hc|]. split; [exact Hs|]. split; [exact Hp | exact Hsame].
Defined.

(** [KeyPair_initialize_aggregate] on a pair that does not match: the
    public key at address 7 is not the one derived from the private key
    at address 3. *)
Lemma KeyPair_initialize_aggregate_witness :
  struct_at KeyPair_DataType world (Obj 8) = Some (Build_KeyPair Qnil Qnil)
  /\ struct_at PublicKey_DataType world (Obj 7)
     = Some (Build_PublicKey (be_decode other_key_bytes) ctx1)
  /\ struct_at PrivateKey_DataType world (Obj 3)
     = Some (Build_PrivateKey key_bytes ctx1)
  /\ secp256k1_ec_pubkey_create ctx1 key_bytes <> (1, be_decode other_key_bytes)
  /\ exists st',
       KeyPair_initialize (Obj 8) (Obj 7) (Obj 3) world = (Returned (Obj 8), st')
       /\ struct_at KeyPair_DataType st' (Obj 8)
          = Some (Build_KeyPair (Obj 7) (Obj 3)).
Proof.
  split; [reflexivity|]. split; [reflexivity|]. split; [reflexivity|].
  split; [vm_compute; discriminate|].
  destruct (KeyPair_initialize_aggregate world (Obj 8) (Obj 7) (Obj 3) _ _ _
              eq_refl eq_refl eq_refl)
    as (st' & Hrun & Hpair & _).
  exists st'. split; [exact Hrun | exact Hpair].
Defined.

(** [PrivateKey_copies_key_bytes] on the key made from the string at
    address 2, which is then overwritten. *)
Lemma PrivateKey_copies_key_bytes_witness :
  struct_at PrivateKey_DataType world (Obj 6)
  = Some (Build_PrivateKey (replicate 32 x00) None)
  /\ struct_at Context_DataType world (Obj 0) = Some (Build_Context ctx1)
  /\ string_at world (Obj 2) = Some key_bytes
  /\ length key_bytes = 32%nat
  /\ secp256k1_ec_seckey_verify ctx1 key_bytes = 1
  /\ exists st1,
       PrivateKey_initialize (Obj 6) (Obj 0) (Obj 2) world = (Returned (Obj 6), st1)
       /\ struct_at PrivateKey_DataType
            (mutate_string (Obj 2) other_key_bytes st1) (Obj 6)
          = Some (Build_PrivateKey key_bytes ctx1)
       /\ exposed_data (mutate_string (Obj 2) other_key_bytes st1) (Obj 6)
          = Some other_key_bytes.
Proof.
  split; [reflexivity|]. split; [reflexivity|]. split; [reflexivity|].
  split; [reflexivity|].
  assert (Hvalid : secp256k1_ec_seckey_verify ctx1 key_bytes = 1)
    by (vm_compute; reflexivity).
  split; [exact Hvalid|].
  destruct (PrivateKey_copies_key_bytes world (Obj 6) (Obj 0) (Obj 2) _ _ _
              eq_refl eq_refl eq_refl eq_refl Hvalid)
    as (st1 & Hrun & Hafter).
  exists st1. split; [exact Hrun|].
  destruct (Hafter other_key_bytes) as (Hkey & _ & _ & Hdata).
  split; [exact Hkey | exact Hdata].
Defined.

(** [Context_sign_same_across_contexts] on two contexts with different
    blinding. *)
Lemma Context_sign_same_across_contexts_witness :
  struct_at Context_DataType world (Obj 0) = Some (Build_Context ctx1)
  /\ struct_at Context_DataType world (Obj 1) = Some (Build_Context ctx2)
  /\ ctx1 <> ctx2
  /\ struct_at PrivateKey_DataType world (Obj 3)
     = Some (Build_PrivateKey key_bytes ctx1)
  /\ string_at world (Obj 5) = Some message
  /\ result_signature (Context_sign (Obj 0) (Obj 3) (Obj 5) world)
     = result_signature (Context_sign (Obj 1) (Obj 3) (Obj 5) world).
Proof.
  split; [reflexivity|]. split; [reflexivity|]. split; [discriminate|].
  split; [reflexivity|]. split; [reflexivity|].
  apply (Context_sign_same_across_contexts ref_ecdsa_sign_any_context
           ref_serialize_compact_any_context ref_serialize_der_any_context
           world world (Obj 0) (Obj 1) (Obj 3) (Obj 3) (Obj 5) (Obj 5)
           (Build_Context ctx1) (Build_Context ctx2)
           (Build_PrivateKey key_bytes ctx1) (Build_PrivateKey key_bytes ctx1)
           message eq_refl ctx1_extension eq_refl ctx2_extension
           eq_refl eq_refl eq_refl eq_refl eq_refl).
Defined.

(** ** The further theorems at work on the concrete heaps *)

(** Every object of [world] holds one of the extension's contexts, or none. *)
Lemma world_contexts_ok : contexts_ok world.
Proof.
  intros a o H.
  do 13 (destruct a as [|a];
         [ injection H as <-;
           cbn [payload plain payload_ok Context_ctx PublicKey_ctx PrivateKey_ctx
                Signature_ctx];
           first [ exact Logic.I | exact ctx1_extension | exact ctx2_extension
                 | right; exact ctx1_extension | left; reflexivity ]
         | ]).
  discriminate.
Qed.



(** [PublicKey_serialized_outcome] on a public key object that was only
    allocated: the library reports failure and no bytes, and the method
    returns an empty [String]. *)
Lemma PublicKey_serialized_outcome_witness :
  valid_value world (Obj 12)
  /\ struct_at PublicKey_DataType world (Obj 12) = Some (Build_PublicKey 0 None)
  /\ PublicKey_compressed (Obj 12) world
     = (Returned (Obj 13), allocated world (plain rb_cString (RString []))).
Proof.
  assert (Hv : valid_value world (Obj 12)) by (simpl; lia).
  split; [exact Hv|]. split; [reflexivity|].
  exact (proj1 (PublicKey_serialized_outcome world (Obj 12) Hv)).
Defined.

(** [Context_public_key_from_data_outcome] on the empty string. *)
Lemma Context_public_key_from_data_outcome_witness :
  struct_at Context_DataType world (Obj 0) = Some (Build_Context ctx1)
  /\ valid_value world (Obj 10)
  /\ string_at world (Obj 10) = Some []
  /\ Context_public_key_from_data (Obj 0) (Obj 10) world
     = (Raised (Exception rb_eRuntimeError "invalid public key data"),
        allocated world (public_key_object 0 ctx1)).
Proof.
  assert (Hv : valid_value world (Obj 10)) by (simpl; lia).
  split; [reflexivity|]. split; [exact Hv|]. split; [reflexivity|].
  exact (Context_public_key_from_data_outcome world (Obj 0) (Obj 10)
           (Build_Context ctx1) eq_refl Hv).
Defined.

(** [Context_signature_from_der_encoded_outcome] on the empty string. *)
Lemma Context_signature_from_der_encoded_outcome_witness :
  struct_at Context_DataType world (Obj 0) = Some (Build_Context ctx1)
  /\ valid_value world (Obj 10)
  /\ string_at world (Obj 10) = Some []
  /\ (Context_signature_from_der_encoded (Obj 0) (Obj 10) world).1
     = Raised InvalidDEREncoding.
Proof.
  assert (Hv : valid_value world (Obj 10)) by (simpl; lia).
  split; [reflexivity|]. split; [exact Hv|]. split; [reflexivity|].
  pose proof (Context_signature_from_der_encoded_outcome world (Obj 0) (Obj 10)
                (Build_Context ctx1) eq_refl Hv) as H.
  change (string_at world (Obj 10)) with (Some (@nil byte)) in H. cbv zeta iota in H.
  rewrite H. reflexivity.
Defined.

(** The public key of [world] at address 4 came out of the library. *)
Lemma world_library_pubkey : library_pubkey (be_decode key_bytes).
Proof.
  apply (pubkey_created ctx1 key_bytes). vm_compute. reflexivity.
Qed.

(** [public_key_round_trip] on the public key at address 4. *)
Lemma public_key_round_trip_witness :
  struct_at PublicKey_DataType world (Obj 4)
  = Some (Build_PublicKey (be_decode key_bytes) ctx1)
  /\ struct_at Context_DataType world (Obj 1) = Some (Build_Context ctx2)
  /\ exists data st1 bytes parsed st2 p',
       PublicKey_compressed (Obj 4) world = (Returned data, st1)
       /\ string_at st1 data = Some bytes
       /\ length bytes = 33%nat
       /\ Context_public_key_from_data (Obj 1) data st1 = (Returned parsed, st2)
       /\ struct_at PublicKey_DataType st2 parsed = Some p'
       /\ PublicKey_pubkey p' = be_decode key_bytes.
Proof.
  split; [reflexivity|]. split; [reflexivity|].
  exact (proj1 (public_key_round_trip ref_pubkey_serialize_parse world (Obj 4) (Obj 1)
                  (Build_PublicKey (be_decode key_bytes) ctx1) (Build_Context ctx2)
                  eq_refl world_library_pubkey ctx1_extension eq_refl ctx2_extension)).
Defined.

(** [key_pair_signs_and_verifies] on the key bytes at address 2 and the
    message "hello world". *)
Lemma key_pair_signs_and_verifies_witness :
  struct_at Context_DataType world (Obj 0) = Some (Build_Context ctx1)
  /\ string_at world (Obj 2) = Some key_bytes
  /\ string_at world (Obj 5) = Some message
  /\ exists key_pair st1 private_key public_key signature st2,
       Context_key_pair_from_private_key (Obj 0) (Obj 2) world
       = (Returned key_pair, st1)
       /\ KeyPair_private_key_reader key_pair st1 = (Returned private_key, st1)
       /\ KeyPair_public_key_reader key_pair st1 = (Returned public_key, st1)
       /\ Context_sign (Obj 0) private_key (Obj 5) st1 = (Returned signature, st2)
       /\ Context_verify (Obj 0) signature public_key (Obj 5) st2
          = (Returned Qtrue, st2).
Proof.
  split; [reflexivity|]. split; [reflexivity|]. split; [reflexivity|].
  assert (Hvalid : secp256k1_ec_seckey_verify ctx1 key_bytes = 1)
    by (vm_compute; reflexivity).
  exact (key_pair_signs_and_verifies ref_SHA256_length ref_ec_pubkey_create_valid_key
           ref_ecdsa_sign_valid_key ref_ecdsa_verify_sign
           world (Obj 0) (Obj 2) (Obj 5) (Build_Context ctx1) key_bytes message
           eq_refl ctx1_extension eq_refl eq_refl Hvalid eq_refl).
Defined.

(** [Context_generate_key_pair_valid] when the generator delivers 32 bytes
    0x55. *)
Lemma Context_generate_key_pair_valid_witness :
  RAND_status (rand world) <> 0
  /\ RAND_bytes (rand world) (resize 32 x00 (stack world)) 32
     = (1, replicate 32 x55, Build_rand true (replicate 32 x55))
  /\ exists key_pair st' private_key public_key k,
       Context_generate_key_pair (Obj 0) world = (Returned key_pair, st')
       /\ struct_at KeyPair_DataType st' key_pair
          = Some (Build_KeyPair public_key private_key)
       /\ valid_key_pair st' private_key public_key
       /\ struct_at PrivateKey_DataType st' private_key = Some k
       /\ PrivateKey_data k = replicate 32 x55
       /\ exposed_data st' private_key = Some (replicate 32 x55)
       /\ (exists data, ivar_at st' private_key "@data" = Some data /\ fresh world data)
       /\ rand st' = Build_rand true (replicate 32 x55).
Proof.
  assert (Hseeded : RAND_status (rand world) <> 0) by (vm_compute; discriminate).
  assert (Hdraw : RAND_bytes (rand world) (resize 32 x00 (stack world)) 32
                  = (1, replicate 32 x55, Build_rand true (replicate 32 x55)))
    by (vm_compute; reflexivity).
  assert (Hvalid : secp256k1_ec_seckey_verify ctx1 (replicate 32 x55) = 1)
    by (vm_compute; reflexivity).
  split; [exact Hseeded|]. split; [exact Hdraw|].
  exact (Context_generate_key_pair_valid ref_ec_pubkey_create_valid_key
           world (Obj 0) (Build_Context ctx1) _ _
           eq_refl ctx1_extension Hseeded Hdraw eq_refl Hvalid).
Defined.

(** [generate_does_not_retry] when the generator delivers 32 bytes 0xff. *)
Lemma generate_does_not_retry_witness :
  RAND_bytes (rand unlucky) (resize 32 x00 (stack unlucky)) 32
  = (1, replicate 32 xff, Build_rand true [])
  /\ secp256k1_ec_seckey_verify ctx1 (replicate 32 xff) <> 1
  /\ (Context_generate_key_pair (Obj 0) unlucky).1 = Raised InvalidPrivateKey.
Proof.
  assert (Hseeded : RAND_status (rand unlucky) <> 0) by (vm_compute; discriminate).
  assert (Hdraw : RAND_bytes (rand unlucky) (resize 32 x00 (stack unlucky)) 32
                  = (1, replicate 32 xff, Build_rand true []))
    by (vm_compute; reflexivity).
  assert (Hbad : secp256k1_ec_seckey_verify ctx1 (replicate 32 xff) <> 1)
    by (vm_compute; discriminate).
  split; [exact Hdraw|]. split; [exact Hbad|].
  destruct (generate_does_not_retry unlucky (Obj 0) (Build_Context ctx1) _ _
              eq_refl Hseeded Hdraw eq_refl Hbad) as [_ H].
  rewrite H. reflexivity.
Defined.

(** [Context_key_pair_from_private_key_outcome] on the string "hello
    world", which has 11 bytes. *)
Lemma Context_key_pair_from_private_key_outcome_witness :
  struct_at Context_DataType world (Obj 0) = Some (Build_Context ctx1)
  /\ string_at world (Obj 5) = Some message
  /\ Context_key_pair_from_private_key (Obj 0) (Obj 5) world
     = (Raised InvalidKeyLength,
        allocated world (private_key_stub Secp256k1_PrivateKey_class)).
Proof.
  split; [reflexivity|]. split; [reflexivity|].
  exact (Context_key_pair_from_private_key_outcome world (Obj 0) (Obj 5)
           (Build_Context ctx1) message eq_refl eq_refl).
Defined.

(** [sign_and_verify_check_types] on a public key given where the private
    key is expected. *)
Lemma sign_and_verify_check_types_witness :
  struct_at PrivateKey_DataType world (Obj 4) = None
  /\ Context_sign (Obj 0) (Obj 4) (Obj 5) world
     = (Raised (Exception rb_eTypeError "wrong argument type"), world).
Proof.
  split; [reflexivity|].
  assert (H0 : valid_value world (Obj 0)) by (simpl; lia).
  assert (H4 : valid_value world (Obj 4)) by (simpl; lia).
  assert (H5 : valid_value world (Obj 5)) by (simpl; lia).
  assert (H9 : valid_value world (Obj 9)) by (simpl; lia).
  apply (sign_and_verify_check_types world (Obj 0) (Obj 4) (Obj 9) (Obj 4) (Obj 5)
           H0 H4 H9 H4 H5).
  right. left. reflexivity.
Defined.

(** [Signature_serialized_outcome] on the signature with R = 5 and S = 7:
    the compact form is R then S. *)
Lemma Signature_serialized_outcome_witness :
  valid_value world (Obj 9)
  /\ struct_at Signature_DataType world (Obj 9)
     = Some (Build_Signature (Build_signature 5 7) ctx1)
  /\ Signature_compact (Obj 9) world
     = (Returned (Obj 13),
        allocated world (plain rb_cString (RString (be_encode 32 5 ++ be_encode 32 7)))).
Proof.
  assert (Hv : valid_value world (Obj 9)) by (simpl; lia).
  split; [exact Hv|]. split; [reflexivity|].
  exact (proj2 (Signature_serialized_outcome world (Obj 9) Hv)).
Defined.

(** [PublicKey_new_outcome] on a private key object that was only
    allocated: its 32 bytes are zero, which is no secret key. *)
Lemma PublicKey_new_outcome_witness :
  struct_at Context_DataType world (Obj 0) = Some (Build_Context ctx1)
  /\ struct_at PrivateKey_DataType world (Obj 6)
     = Some (Build_PrivateKey (replicate 32 x00) None)
  /\ PublicKey_new Secp256k1_PublicKey_class (Obj 0) (Obj 6) world
     = (Raised KeyDerivationError, allocated world (public_key_object 0 None)).
Proof.
  split; [reflexivity|]. split; [reflexivity|].
  exact (PublicKey_new_outcome world Secp256k1_PublicKey_class (Obj 0) (Obj 6)
           (Build_Context ctx1) (Build_PrivateKey (replicate 32 x00) None)
           eq_refl eq_refl).
Defined.

(** [KeyPair_initialize_checks_types] on the two keys in the wrong order. *)
Lemma KeyPair_initialize_checks_types_witness :
  struct_at KeyPair_DataType world (Obj 8) = Some (Build_KeyPair Qnil Qnil)
  /\ struct_at PublicKey_DataType world (Obj 3) = None
  /\ KeyPair_initialize (Obj 8) (Obj 3) (Obj 4) world
     = (Raised (Exception rb_eTypeError "wrong argument type"), world).
Proof.
  split; [reflexivity|]. split; [reflexivity|].
  assert (H3 : valid_value world (Obj 3)) by (simpl; lia).
  assert (H4 : valid_value world (Obj 4)) by (simpl; lia).
  exact (KeyPair_initialize_checks_types world (Obj 8) (Obj 3) (Obj 4)
           (Build_KeyPair Qnil Qnil) eq_refl H3 H4 (or_introl eq_refl)).
Defined.

(** [PrivateKey_initialize_raises_unchanged] on the private key at address
    3, given "hello world" for a key. *)
Lemma PrivateKey_initialize_raises_unchanged_witness :
  (PrivateKey_initialize (Obj 3) (Obj 0) (Obj 5) world).1 = Raised InvalidKeyLength
  /\ (PrivateKey_initialize (Obj 3) (Obj 0) (Obj 5) world).2 = world.
Proof.
  assert (H : (PrivateKey_initialize (Obj 3) (Obj 0) (Obj 5) world).1
              = Raised InvalidKeyLength) by (vm_compute; reflexivity).
  split; [exact H|].
  exact (PrivateKey_initialize_raises_unchanged world (Obj 3) (Obj 0) (Obj 5) _ H).
Defined.

(** The one instance variable of [world] refers to the string at address 2. *)
Lemma world_refs_ok : refs_ok world.
Proof.
  intros a o name v H Hv.
  do 13 (destruct a as [|a];
         [ injection H as <-; cbn [ivars plain] in Hv;
           first [ by rewrite lookup_empty in Hv
                 | apply lookup_singleton_Some in Hv as [_ <-]; vm_compute; lia ]
         | ]).
  discriminate.
Qed.

